(** * streamlit-stock: the two scraping pipelines of [stock.py]

    A shallow embedding of [get_dividend] and [get_ipo] together with the
    library calls they are made of ([requests.get], [re.search],
    [json.loads], [pandas.DataFrame], [Series.str.replace],
    [pandas.to_datetime], BeautifulSoup's [find], [find_all] and
    [get_text]), and the properties of the extraction pipeline.

    Conventions of the embedding.
    - A Python [str] is a Rocq [string]; an [ascii] is one character with
      code point 0..255.
    - A pandas column holds strings, dates or timestamp objects, each
      entry an [option]: Python's [None], [NaN] and [NaT] are all [None]
      here, and a reader of the table sees [NA] in their place.
    - A call either returns, raises, or leaves the modelled fragment
      ([Unmodelled]); nothing is claimed about the last case.  The time
      of a run is not modelled: a date text that pandas reads from the
      clock leaves the fragment.
    - pandas is the 2.x series, the one current when the program was
      written. *)

From Stdlib Require Import String Ascii List Arith ZArith Bool Lia.
From Stdlib Require Import DecimalString.
#[local] Set Warnings "-register-all,-abstract-large-number".
Import ListNotations.
Open Scope string_scope.
Open Scope list_scope.
Open Scope nat_scope.

(** String concatenation, Python's [+] on [str]. *)
Infix "^^" := String.append (at level 60, right associativity).

(** ** Python exceptions and results *)

Inductive exn : Type :=
| AttributeError (msg : string)
| ValueError
| JSONDecodeError
| KeyError (key : string)
| IndexError
| ConnectionError.

Definition class_name (e : exn) : string :=
  match e with
  | AttributeError _ => "AttributeError"
  | ValueError => "ValueError"
  | JSONDecodeError => "JSONDecodeError"
  | KeyError _ => "KeyError"
  | IndexError => "IndexError"
  | ConnectionError => "ConnectionError"
  end.

Inductive result (A : Type) : Type :=
| Ok (a : A)
| Raise (e : exn)
| Unmodelled.

Arguments Ok {A} a.
Arguments Raise {A} e.
Arguments Unmodelled {A}.

Definition bind {A B : Type} (r : result A) (k : A -> result B) : result B :=
  match r with
  | Ok a => k a
  | Raise e => Raise e
  | Unmodelled => Unmodelled
  end.

Notation "x <- r ;; k" := (bind r (fun x => k))
  (at level 61, r at next level, right associativity).

(** [raises r]: the call ended in an exception. *)
Definition raises {A : Type} (r : result A) : bool :=
  match r with Raise _ => true | _ => false end.

(** [fails_with cls r]: the call raised an exception of class [cls]. *)
Definition fails_with {A : Type} (cls : string) (r : result A) : Prop :=
  exists e, r = Raise e /\ class_name e = cls.

(** ** Python [str] methods *)

Module Py.

(** The double quote and the line feed, as one-character strings. *)
Definition dq : string := String "034"%char EmptyString.
Definition nl : string := String "010"%char EmptyString.

(** [quoted s] is [s] between double quotes. *)
Definition quoted (s : string) : string := dq ^^ s ^^ dq.

(** [str.isspace] on one character (Py_UNICODE_ISSPACE below U+0100). *)
Definition isspace (c : ascii) : bool :=
  let n := nat_of_ascii c in
  ((9 <=? n) && (n <=? 13)) || ((28 <=? n) && (n <=? 32))
  || (n =? 133) || (n =? 160).

(** [s.startswith(p)] *)
Definition startswith (s p : string) : bool := prefix p s.

(** [sub in s] *)
Fixpoint contains (sub s : string) : bool :=
  prefix sub s ||
  match s with
  | EmptyString => false
  | String _ r => contains sub r
  end.

(** [s.find(sub)]: the least index at which [sub] occurs. *)
Fixpoint find (sub s : string) : option nat :=
  if prefix sub s then Some 0
  else match s with
       | EmptyString => None
       | String _ r => option_map S (find sub r)
       end.

(** The text after, and the text before, the first occurrence of [sub]. *)
Fixpoint removeprefix (p s : string) : option string :=
  match p, s with
  | EmptyString, _ => Some s
  | String a p', String b s' =>
      if Ascii.eqb a b then removeprefix p' s' else None
  | String _ _, EmptyString => None
  end.

Fixpoint after (sub s : string) : option string :=
  match removeprefix sub s with
  | Some r => Some r
  | None => match s with
            | EmptyString => None
            | String _ r => after sub r
            end
  end.

Fixpoint before (sub s : string) : option string :=
  if prefix sub s then Some EmptyString
  else match s with
       | EmptyString => None
       | String c r => option_map (String c) (before sub r)
       end.

(** [s.replace(old, new)]: occurrences of [old] are found from left to
    right, each search resuming after the previous occurrence.  [skip]
    counts the characters of the current occurrence still to pass. *)
Fixpoint replace_from (old new s : string) (skip : nat) : string :=
  match s with
  | EmptyString =>
      match old with EmptyString => new | _ => EmptyString end
  | String c r =>
      match skip with
      | S k => replace_from old new r k
      | O =>
          if prefix old s
          then match old with
               | EmptyString => new ^^ String c (replace_from old new r 0)
               | _ => new ^^ replace_from old new r (String.length old - 1)
               end
          else String c (replace_from old new r 0)
      end
  end.

Definition replace (s old new : string) : string := replace_from old new s 0.

(** [s.lstrip()], [s.rstrip()] and [s.strip()] *)
Fixpoint lstrip (s : string) : string :=
  match s with
  | String c r => if isspace c then lstrip r else s
  | EmptyString => EmptyString
  end.

Fixpoint rstrip (s : string) : string :=
  match s with
  | EmptyString => EmptyString
  | String c r =>
      match rstrip r with
      | EmptyString => if isspace c then EmptyString else String c EmptyString
      | r' => String c r'
      end
  end.

Definition strip (s : string) : string := rstrip (lstrip s).

(** [''.join(l)] *)
Definition join (l : list string) : string :=
  fold_right append EmptyString l.

(** [str(n)] for a non-negative int. *)
Definition str_of_nat (n : nat) : string :=
  NilEmpty.string_of_uint (Nat.to_uint n).

End Py.


(** ** [json.loads]

    The decoder of Python's [json] package: [scan_once], [JSONArray],
    [JSONObject], [scanstring] and the number pattern.  A number keeps its
    literal text.  Three things lie outside the model and give
    [Unmodelled]: a [\uXXXX] escape above U+00FF, nesting deeper than
    [max_depth] (where CPython may raise RecursionError), and a number
    literal longer than the interpreter's integer conversion limit. *)

Module Json.

Inductive value : Type :=
| Null
| Bool (b : bool)
| Number (literal : string)
| Str (s : string)
| Array (items : list value)
| Object (members : list (string * value)).

Definition max_depth : nat := 64.
Definition max_number_length : nat := 4300.

Definition is_ws (c : ascii) : bool :=
  (c =? " ")%char || (c =? "009")%char || (c =? "010")%char
  || (c =? "013")%char.

Definition is_digit (c : ascii) : bool :=
  let n := nat_of_ascii c in (48 <=? n) && (n <=? 57).

Fixpoint ws (s : string) : string :=
  match s with
  | String c r => if is_ws c then ws r else s
  | EmptyString => EmptyString
  end.

Definition hex_digit (c : ascii) : option nat :=
  let n := nat_of_ascii c in
  if (48 <=? n) && (n <=? 57) then Some (n - 48)
  else if (65 <=? n) && (n <=? 70) then Some (n - 55)
  else if (97 <=? n) && (n <=? 102) then Some (n - 87)
  else None.

Definition hex4 (a b c d : ascii) : option nat :=
  match hex_digit a, hex_digit b, hex_digit c, hex_digit d with
  | Some x, Some y, Some z, Some w => Some (((x * 16 + y) * 16 + z) * 16 + w)
  | _, _, _, _ => None
  end.

(** The table BACKSLASH of the decoder. *)
Definition backslash (e : ascii) : option ascii :=
  if (e =? "034")%char then Some "034"%char
  else if (e =? "\")%char then Some "\"%char
  else if (e =? "/")%char then Some "/"%char
  else if (e =? "b")%char then Some "008"%char
  else if (e =? "f")%char then Some "012"%char
  else if (e =? "n")%char then Some "010"%char
  else if (e =? "r")%char then Some "013"%char
  else if (e =? "t")%char then Some "009"%char
  else None.

Definition push (c : ascii) (r : result (string * string))
  : result (string * string) :=
  p <- r ;; Ok (String c (fst p), snd p).

(** [scanstring s]: [s] starts after the opening quote; the result is the
    decoded string and the text after the closing quote (strict mode). *)
Fixpoint scanstring (s : string) : result (string * string) :=
  match s with
  | EmptyString => Raise JSONDecodeError
  | String c r =>
      if (c =? "034")%char then Ok (EmptyString, r)
      else if (c =? "\")%char then
        match r with
        | EmptyString => Raise JSONDecodeError
        | String e r1 =>
            if (e =? "u")%char then
              match r1 with
              | String h1 (String h2 (String h3 (String h4 r2))) =>
                  match hex4 h1 h2 h3 h4 with
                  | Some n =>
                      if n <? 256 then push (ascii_of_nat n) (scanstring r2)
                      else Unmodelled
                  | None => Raise JSONDecodeError
                  end
              | _ => Raise JSONDecodeError
              end
            else
              match backslash e with
              | Some ch => push ch (scanstring r1)
              | None => Raise JSONDecodeError
              end
        end
      else if nat_of_ascii c <? 32 then Raise JSONDecodeError
      else push c (scanstring r)
  end.

(** The longest run of digits at the head of [s], and what follows. *)
Fixpoint digits (s : string) : string * string :=
  match s with
  | String c r =>
      if is_digit c then let p := digits r in (String c (fst p), snd p)
      else (EmptyString, s)
  | EmptyString => (EmptyString, EmptyString)
  end.

(** The integer part: [0], or a non-zero digit and a run of digits. *)
Definition int_part (s : string) : option (string * string) :=
  match s with
  | String c r =>
      if (c =? "0")%char then Some ("0", r)
      else if is_digit c then
        let p := digits r in Some (String c (fst p), snd p)
      else None
  | EmptyString => None
  end.

(** The optional fraction: a dot and at least one digit. *)
Definition frac_part (s : string) : string * string :=
  match s with
  | String c r =>
      if (c =? ".")%char then
        match digits r with
        | (EmptyString, _) => (EmptyString, s)
        | (ds, r') => (String c ds, r')
        end
      else (EmptyString, s)
  | EmptyString => (EmptyString, s)
  end.

(** The optional exponent: [e] or [E], an optional sign, at least one
    digit. *)
Definition exp_part (s : string) : string * string :=
  match s with
  | String c r =>
      if (c =? "e")%char || (c =? "E")%char then
        match r with
        | String g r1 =>
            if (g =? "-")%char || (g =? "+")%char then
              match digits r1 with
              | (EmptyString, _) => (EmptyString, s)
              | (ds, r') => (String c (String g ds), r')
              end
            else
              match digits r with
              | (EmptyString, _) => (EmptyString, s)
              | (ds, r') => (String c ds, r')
              end
        | EmptyString => (EmptyString, s)
        end
      else (EmptyString, s)
  | EmptyString => (EmptyString, s)
  end.

(** The number pattern of the scanner, anchored at the head of [s]. *)
Definition number (s : string) : option (string * string) :=
  let '(sign, s1) :=
    match s with
    | String c r => if (c =? "-")%char then ("-", r) else (EmptyString, s)
    | EmptyString => (EmptyString, s)
    end in
  match int_part s1 with
  | None => None
  | Some (i, s2) =>
      let '(f, s3) := frac_part s2 in
      let '(e, s4) := exp_part s3 in
      Some (sign ^^ i ^^ f ^^ e, s4)
  end.

(** A fixed word at the head of [s]. *)
Definition word (w : string) (v : value) (s : string)
  : option (value * string) :=
  option_map (fun r => (v, r)) (Py.removeprefix w s).

Definition first_of {A : Type} (l : list (option A)) : option A :=
  fold_right (fun o acc => match o with Some a => Some a | None => acc end)
             None l.

(** The scalar tokens other than strings, in the order [scan_once] tries
    them. *)
Definition scalar (s : string) : result (value * string) :=
  match first_of [ word "null" Null s; word "true" (Bool true) s;
                   word "false" (Bool false) s ] with
  | Some p => Ok p
  | None =>
      match number s with
      | Some (lit, r) =>
          if String.length lit <=? max_number_length
          then Ok (Number lit, r) else Unmodelled
      | None =>
          match first_of [ word "NaN" (Number "NaN") s;
                           word "Infinity" (Number "Infinity") s;
                           word "-Infinity" (Number "-Infinity") s ] with
          | Some p => Ok p
          | None => Raise JSONDecodeError
          end
      end
  end.

(** [scan_once depth s]: the value at the head of [s] and the text after
    it.  The loops of [JSONArray] and [JSONObject] run on a counter that
    bounds the number of items by the length of the text. *)
Fixpoint scan_once (depth : nat) (s : string) : result (value * string) :=
  match depth with
  | O => Unmodelled
  | S d =>
      match s with
      | EmptyString => Raise JSONDecodeError
      | String c r =>
          if (c =? "034")%char then
            p <- scanstring r ;; Ok (Str (fst p), snd p)
          else if (c =? "[")%char then
            let fix items (n : nat) (s : string) (acc : list value)
              : result (value * string) :=
              match n with
              | O => Unmodelled
              | S n' =>
                  p <- scan_once d s ;;
                  match ws (snd p) with
                  | String c' r' =>
                      if (c' =? "]")%char
                      then Ok (Array (rev (fst p :: acc)), r')
                      else if (c' =? ",")%char
                      then items n' (ws r') (fst p :: acc)
                      else Raise JSONDecodeError
                  | EmptyString => Raise JSONDecodeError
                  end
              end in
            match ws r with
            | String c' r' =>
                if (c' =? "]")%char then Ok (Array [], r')
                else items (S (String.length r)) (ws r) []
            | EmptyString => Raise JSONDecodeError
            end
          else if (c =? "{")%char then
            let fix members (n : nat) (s : string)
                    (acc : list (string * value))
              : result (value * string) :=
              match n with
              | O => Unmodelled
              | S n' =>
                  (* [s] starts after the opening quote of a key *)
                  k <- scanstring s ;;
                  match ws (snd k) with
                  | String c1 r1 =>
                      if (c1 =? ":")%char then
                        p <- scan_once d (ws r1) ;;
                        match ws (snd p) with
                        | String c2 r2 =>
                            if (c2 =? "}")%char
                            then Ok (Object (rev ((fst k, fst p) :: acc)), r2)
                            else if (c2 =? ",")%char then
                              match ws r2 with
                              | String c3 r3 =>
                                  if (c3 =? "034")%char
                                  then members n' r3 ((fst k, fst p) :: acc)
                                  else Raise JSONDecodeError
                              | EmptyString => Raise JSONDecodeError
                              end
                            else Raise JSONDecodeError
                        | EmptyString => Raise JSONDecodeError
                        end
                      else Raise JSONDecodeError
                  | EmptyString => Raise JSONDecodeError
                  end
              end in
            match ws r with
            | String c' r' =>
                if (c' =? "}")%char then Ok (Object [], r')
                else if (c' =? "034")%char
                then members (S (String.length r)) r' []
                else Raise JSONDecodeError
            | EmptyString => Raise JSONDecodeError
            end
          else scalar s
      end
  end.

(** [json.loads(s)]: leading blanks, one value, trailing blanks, and
    nothing else. *)
Definition loads (s : string) : result value :=
  p <- scan_once max_depth (ws s) ;;
  match ws (snd p) with
  | EmptyString => Ok (fst p)
  | String _ _ => Raise JSONDecodeError
  end.

End Json.

(** ** Dates and [strptime] formats

    [pandas.to_datetime(col, format=fmt)] matches every string against the
    regular expression that [_strptime.TimeRE] builds from [fmt], compiled
    with IGNORECASE: [%d], [%b] and [%Y] become groups, a run of blanks in
    the format becomes one-or-more blanks, any other character stands for
    itself.  The first match in the order of the alternatives is taken,
    and text left over after it is an error. *)

Module Strptime.

Record date : Type := mkdate { year : nat; month : nat; day : nat }.

Inductive directive : Type :=
| Day          (* %d *)
| MonthAbbr    (* %b *)
| Year4        (* %Y *)
| Blanks       (* one or more blanks *)
| Lit (c : ascii).

Definition is_digit := Json.is_digit.
Definition digit_val (c : ascii) : nat := nat_of_ascii c - 48.

Definition is_upper (c : ascii) : bool :=
  let n := nat_of_ascii c in (65 <=? n) && (n <=? 90).
Definition is_lower (c : ascii) : bool :=
  let n := nat_of_ascii c in (97 <=? n) && (n <=? 122).

(** [c.lower()] on the letters A to Z. *)
Definition lower (c : ascii) : ascii :=
  if is_upper c then ascii_of_nat (nat_of_ascii c + 32) else c.

(** The format as a list of directives; [None] for a format with a
    directive other than the three the program uses, or with a letter or
    a character above U+007F standing for itself. *)
Fixpoint compile (fmt : string) : option (list directive) :=
  match fmt with
  | EmptyString => Some []
  | String c r =>
      if (c =? "%")%char then
        match r with
        | String k r' =>
            let d := if (k =? "d")%char then Some Day
                     else if (k =? "b")%char then Some MonthAbbr
                     else if (k =? "Y")%char then Some Year4
                     else None in
            match d, compile r' with
            | Some d, Some ds => Some (d :: ds)
            | _, _ => None
            end
        | EmptyString => None
        end
      else if Py.isspace c then
        match compile r with
        | Some (Blanks :: ds) => Some (Blanks :: ds)
        | Some ds => Some (Blanks :: ds)
        | None => None
        end
      else if is_upper c || is_lower c || (128 <=? nat_of_ascii c) then None
      else option_map (cons (Lit c)) (compile r)
  end.

(** The fields read so far: year, month, day ([strptime] starts from
    1900-01-01). *)
Definition fields : Type := nat * nat * nat.
Definition start : fields := (1900, 1, 1).

Definition set_day (f : fields) (d : nat) : fields :=
  let '(y, m, _) := f in (y, m, d).
Definition set_month (f : fields) (m : nat) : fields :=
  let '(y, _, d) := f in (y, m, d).
Definition set_year (f : fields) (y : nat) : fields :=
  let '(_, m, d) := f in (y, m, d).

Definition in_range (lo hi c : ascii) : bool :=
  (nat_of_ascii lo <=? nat_of_ascii c) && (nat_of_ascii c <=? nat_of_ascii hi).

(** The alternatives of [%d], in the order of the pattern:
    3[0-1], [1-2]\d, 0[1-9], [1-9], blank [1-9]. *)
Definition day_alts (s : string) : list (nat * string) :=
  match s with
  | String a r =>
      let two :=
        match r with
        | String b r' =>
            (if (a =? "3")%char && in_range "0" "1" b
             then [(30 + digit_val b, r')] else [])
            ++ (if in_range "1" "2" a && is_digit b
                then [(10 * digit_val a + digit_val b, r')] else [])
            ++ (if (a =? "0")%char && in_range "1" "9" b
                then [(digit_val b, r')] else [])
        | EmptyString => []
        end in
      let one := if in_range "1" "9" a then [(digit_val a, r)] else [] in
      let blank :=
        match r with
        | String b r' =>
            if (a =? " ")%char && in_range "1" "9" b
            then [(digit_val b, r')] else []
        | EmptyString => []
        end in
      two ++ one ++ blank
  | EmptyString => []
  end.

Definition month_names : list string :=
  ["jan"; "feb"; "mar"; "apr"; "may"; "jun";
   "jul"; "aug"; "sep"; "oct"; "nov"; "dec"].

Fixpoint lower_str (s : string) : string :=
  match s with
  | String c r => String (lower c) (lower_str r)
  | EmptyString => EmptyString
  end.

(** The index of [x] in [l], counted from [n]. *)
Fixpoint index_from (n : nat) (x : string) (l : list string) : option nat :=
  match l with
  | [] => None
  | y :: l' => if String.eqb x y then Some n else index_from (S n) x l'
  end.

Definition month_alts (s : string) : list (nat * string) :=
  match s with
  | String a (String b (String c r)) =>
      match index_from 1 (lower_str (String a (String b (String c EmptyString))))
                       month_names with
      | Some m => [(m, r)]
      | None => []
      end
  | _ => []
  end.

Definition year_alts (s : string) : list (nat * string) :=
  match s with
  | String a (String b (String c (String d r))) =>
      if is_digit a && is_digit b && is_digit c && is_digit d
      then [(((digit_val a * 10 + digit_val b) * 10 + digit_val c) * 10
             + digit_val d, r)]
      else []
  | _ => []
  end.

(** One or more blanks, the longest run first. *)
Fixpoint blank_alts (s : string) : list string :=
  match s with
  | String c r => if Py.isspace c then blank_alts r ++ [r] else []
  | EmptyString => []
  end.

Definition alts (d : directive) (f : fields) (s : string)
  : list (fields * string) :=
  match d with
  | Day => map (fun p => (set_day f (fst p), snd p)) (day_alts s)
  | MonthAbbr => map (fun p => (set_month f (fst p), snd p)) (month_alts s)
  | Year4 => map (fun p => (set_year f (fst p), snd p)) (year_alts s)
  | Blanks => map (fun r => (f, r)) (blank_alts s)
  | Lit c =>
      match s with
      | String a r => if (a =? c)%char then [(f, r)] else []
      | EmptyString => []
      end
  end.

Definition first_some {A B : Type} (k : A -> option B) (l : list A)
  : option B :=
  fold_right (fun a acc => match k a with Some b => Some b | None => acc end)
             None l.

(** [format_regex.match(val)]: the fields and the text left over. *)
Fixpoint run (ds : list directive) (f : fields) (s : string)
  : option (fields * string) :=
  match ds with
  | [] => Some (f, s)
  | d :: ds' => first_some (fun p => run ds' (fst p) (snd p)) (alts d f s)
  end.

Definition is_leap (y : nat) : bool :=
  (y mod 4 =? 0) && (negb (y mod 100 =? 0) || (y mod 400 =? 0)).

Definition days_in_month (y m : nat) : nat :=
  match m with
  | 2 => if is_leap y then 29 else 28
  | 4 | 6 | 9 | 11 => 30
  | _ => 31
  end.

(** [datetime.date(y, m, d)] exists. *)
Definition valid_date (y m d : nat) : bool :=
  (1 <=? y) && (y <=? 9999) && (1 <=? m) && (m <=? 12)
  && (1 <=? d) && (d <=? days_in_month y m).

Definition date_leb (a b : nat * nat * nat) : bool :=
  let '(y1, m1, d1) := a in
  let '(y2, m2, d2) := b in
  (y1 <? y2) || ((y1 =? y2) && ((m1 <? m2) || ((m1 =? m2) && (d1 <=? d2)))).

(** Midnight of the day lies in the range of a nanosecond timestamp,
    1677-09-21 00:12:43 to 2262-04-11 23:47:16. *)
Definition in_bounds (y m d : nat) : bool :=
  date_leb (1677, 9, 22) (y, m, d) && date_leb (y, m, d) (2262, 4, 11).

(** One string under one format: the date, or [None] where pandas raises
    ValueError (no match, unconverted data, no such day, out of bounds). *)
Definition strptime (ds : list directive) (s : string) : option date :=
  match run ds start s with
  | Some ((y, m, d), EmptyString) =>
      if valid_date y m d && in_bounds y m d then Some (mkdate y m d)
      else None
  | _ => None
  end.

(** The strings that pandas reads as a missing date under any format. *)
Definition nat_strings : list string :=
  ["NaT"; "nat"; "NAT"; "nan"; "NaN"; "NAN"].

Definition is_null_string (s : string) : bool :=
  String.eqb s EmptyString || existsb (String.eqb s) nat_strings.

End Strptime.


(** ** pandas

    A [DataFrame] is a list of named columns and a row index.  A column
    holds strings, dates or timestamp objects, each entry possibly
    missing.  The operations are those the two functions call, on the
    values they can meet. *)

Module Pd.

Import Strptime.

(** A [Timestamp] as far as the program looks at it: its day, and its
    offset from UTC in seconds, [None] for one without time zone. *)
Record stamp : Type := mkstamp {
  stamp_date : date;
  stamp_offset : option Z
}.

(** A column of texts, a column of dates (dtype datetime64, or their
    days after [.dt.date]), or a column of timestamp objects (dtype
    object), as [to_datetime] returns it when the timestamps do not
    share one offset. *)
Inductive column : Type :=
| Texts (l : list (option string))
| Dates (l : list (option date))
| Stamps (l : list (option stamp)).

Record DataFrame : Type := mkframe {
  columns : list (string * column);
  index : list nat
}.

(** [len(df)] *)
Definition len (df : DataFrame) : nat := List.length (index df).

Definition size (c : column) : nat :=
  match c with
  | Texts l => List.length l
  | Dates l => List.length l
  | Stamps l => List.length l
  end.

(** [pd.DataFrame(data, columns=names)] for a list of lists: the width of
    the data is that of its longest row, shorter rows are filled with
    [None], and a width other than the number of names is an error.  An
    empty list gives the empty frame with these columns. *)
Definition width (data : list (list (option string))) : nat :=
  list_max (map (@List.length _) data).

Definition DataFrame_of (data : list (list (option string)))
           (names : list string) : result DataFrame :=
  match data with
  | [] => Ok (mkframe (map (fun n => (n, Texts [])) names) [])
  | _ :: _ =>
      if width data =? List.length names then
        Ok (mkframe
              (map (fun jn => (snd jn,
                               Texts (map (fun row => nth (fst jn) row None)
                                          data)))
                   (combine (seq 0 (List.length names)) names))
              (seq 0 (List.length data)))
      else Raise ValueError
  end.

Fixpoint lookup (name : string) (cols : list (string * column))
  : option column :=
  match cols with
  | [] => None
  | (n, c) :: cols' => if String.eqb n name then Some c else lookup name cols'
  end.

(** [df[name]] *)
Definition getitem (df : DataFrame) (name : string) : result column :=
  match lookup name (columns df) with
  | Some c => Ok c
  | None => Raise (KeyError name)
  end.

Fixpoint assign (name : string) (c : column) (cols : list (string * column))
  : list (string * column) :=
  match cols with
  | [] => [(name, c)]
  | (n, c0) :: cols' =>
      if String.eqb n name then (n, c) :: cols'
      else (n, c0) :: assign name c cols'
  end.

(** [df[name] = c] *)
Definition setitem (df : DataFrame) (name : string) (c : column)
  : result DataFrame :=
  if size c =? len df
  then Ok (mkframe (assign name c (columns df)) (index df))
  else Raise ValueError.

(** [df.drop(columns=[name])] *)
Definition drop (df : DataFrame) (name : string) : result DataFrame :=
  match lookup name (columns df) with
  | Some _ =>
      Ok (mkframe (filter (fun nc => negb (String.eqb (fst nc) name))
                          (columns df))
                  (index df))
  | None => Raise (KeyError name)
  end.

(** [df.index = labels] *)
Definition set_index (df : DataFrame) (labels : list nat)
  : result DataFrame :=
  if List.length labels =? len df
  then Ok (mkframe (columns df) labels)
  else Raise ValueError.

(** [range(a, b)] *)
Definition range (a b : nat) : list nat := seq a (b - a).

(** [col.str.replace(old, new)]: literal replacement in every string, a
    missing entry stays missing. *)
Definition str_replace (c : column) (old new : string) : result column :=
  match c with
  | Texts l => Ok (Texts (map (option_map (fun s => Py.replace s old new)) l))
  | Dates _ | Stamps _ =>
      Raise (AttributeError "Can only use .str accessor with string values!")
  end.

(** [p + col] for a string [p]. *)
Definition radd (p : string) (c : column) : result column :=
  match c with
  | Texts l => Ok (Texts (map (option_map (fun s => p ^^ s)) l))
  | Dates _ | Stamps _ => Unmodelled
  end.

(** The two texts that [to_datetime] reads as the time of the call,
    whatever the format. *)
Definition is_clock_string (s : string) : bool :=
  String.eqb s "now" || String.eqb s "today".

(** One entry under [to_datetime(..., format=...)], errors='raise': a
    missing entry and a marker of a missing date give no date; "now" and
    "today" give the day of the call, which lies outside this model; any
    other text is matched against the format. *)
Definition parse_strict (ds : list directive) (c : option string)
  : result (option date) :=
  match c with
  | None => Ok None
  | Some s =>
      if is_null_string s then Ok None
      else if is_clock_string s then Unmodelled
      else match strptime ds s with
           | Some d => Ok (Some d)
           | None => Raise ValueError
           end
  end.

Fixpoint traverse {A B : Type} (f : A -> result B) (l : list A)
  : result (list B) :=
  match l with
  | [] => Ok []
  | a :: l' => b <- f a ;; bs <- traverse f l' ;; Ok (b :: bs)
  end.

(** [pd.to_datetime(col, format=fmt)] *)
Definition to_datetime (c : column) (fmt : string) : result column :=
  match compile fmt with
  | None => Unmodelled
  | Some ds =>
      match c with
      | Texts l => ds' <- traverse (parse_strict ds) l ;; Ok (Dates ds')
      | Dates l => Ok (Dates l)
      | Stamps _ => Unmodelled
      end
  end.

(** [col.replace(old, np.nan)]: entries equal to [old] become missing. *)
Definition replace_with_nan (c : column) (old : string) : column :=
  match c with
  | Texts l =>
      Texts (map (fun x => match x with
                           | Some s => if String.eqb s old then None else Some s
                           | None => None
                           end) l)
  | Dates l => Dates l
  | Stamps l => Stamps l
  end.

(** How pandas reads a text as a timestamp when no format is given
    (guessing a format from the column, falling back on dateutil): the
    column and one of its texts give a timestamp or nothing. *)
Definition reader : Type := list (option string) -> string -> option stamp.

(** The offsets of the timestamps read, and whether they are one at
    most.  A timestamp without time zone counts as an offset of its
    own. *)
Definition offsets (l : list (option stamp)) : list (option Z) :=
  flat_map (fun x => match x with
                     | Some t => [stamp_offset t]
                     | None => []
                     end) l.

Definition same_offset (a b : option Z) : bool :=
  match a, b with
  | Some x, Some y => Z.eqb x y
  | None, None => true
  | _, _ => false
  end.

Definition one_offset (l : list (option stamp)) : bool :=
  match offsets l with
  | [] => true
  | o :: os => forallb (same_offset o) os
  end.

(** [pd.to_datetime(col, errors='coerce')], no format given.  The reading
    of one text is the parameter [lenient].  Missing entries stay
    missing and no entry raises: a text that is not read gives no date.
    When the timestamps read share one offset the result is a column of
    dates; when they do not, pandas returns the timestamps as a column of
    objects. *)
Definition to_datetime_coerce (lenient : reader) (c : column) : column :=
  match c with
  | Texts l =>
      let read := map (fun x => match x with
                                | Some s => lenient l s
                                | None => None
                                end) l in
      if one_offset read then Dates (map (option_map stamp_date) read)
      else Stamps read
  | Dates l => Dates l
  | Stamps l => Stamps l
  end.

(** [col.dt.date]: the accessor exists on a column of dates only. *)
Definition dt_date (c : column) : result column :=
  match c with
  | Dates l => Ok (Dates l)
  | Texts _ | Stamps _ =>
      Raise (AttributeError
               "Can only use .dt accessor with datetimelike values")
  end.

(** What a reader of the table sees in one place. *)
Inductive entry : Type :=
| Text (s : string)
| Date (d : date)
| NA.

Definition entry_at (c : column) (pos : nat) : option entry :=
  match c with
  | Texts l => option_map (fun x => match x with Some s => Text s | None => NA end)
                          (nth_error l pos)
  | Dates l => option_map (fun x => match x with Some d => Date d | None => NA end)
                          (nth_error l pos)
  | Stamps l => option_map (fun x => match x with
                                     | Some t => Date (stamp_date t)
                                     | None => NA
                                     end)
                           (nth_error l pos)
  end.

Fixpoint position (label : nat) (labels : list nat) : option nat :=
  match labels with
  | [] => None
  | l :: ls => if l =? label then Some 0 else option_map S (position label ls)
  end.

(** [df.loc[label, name]] *)
Definition loc (df : DataFrame) (label : nat) (name : string)
  : option entry :=
  match position label (index df), lookup name (columns df) with
  | Some pos, Some c => entry_at c pos
  | _, _ => None
  end.

Definition column_names (df : DataFrame) : list string :=
  map fst (columns df).

End Pd.

(** ** [re.search]

    The patterns the program needs are sequences of literal texts and of
    the lazy [.*?], read with DOTALL.  A match records the text each item
    of the pattern has consumed. *)

Module Re.

Inductive item : Type :=
| Lit (s : string)
| LazyAny.

Definition consumed (t : string) (r : option (list string * string))
  : option (list string * string) :=
  option_map (fun p => (t :: fst p, snd p)) r.

(** One more character for the item at the head of the match. *)
Definition extend (c : ascii) (r : option (list string * string))
  : option (list string * string) :=
  match r with
  | Some (t :: ts, rest) => Some (String c t :: ts, rest)
  | _ => None
  end.

(** The match of the pattern [p] that starts at the head of [s], with
    the priorities of a backtracking matcher: [.*?] takes the fewest
    characters that let the rest of the pattern match. *)
Fixpoint match_here (p : list item) (s : string)
  : option (list string * string) :=
  match p with
  | [] => Some ([], s)
  | Lit l :: p' =>
      match Py.removeprefix l s with
      | Some r => consumed l (match_here p' r)
      | None => None
      end
  | LazyAny :: p' =>
      (fix lazy (s : string) : option (list string * string) :=
         match match_here p' s with
         | Some m => consumed EmptyString (Some m)
         | None =>
             match s with
             | String c r => extend c (lazy r)
             | EmptyString => None
             end
         end) s
  end.

(** [re.search(p, s)]: the match at the leftmost position that has one. *)
Fixpoint search (p : list item) (s : string) : option (list string) :=
  match match_here p s with
  | Some m => Some (fst m)
  | None =>
      match s with
      | String _ r => search p r
      | EmptyString => None
      end
  end.

(** The text of the items [i], [i+1], ..., [j-1] of a match. *)
Definition span (m : list string) (i j : nat) : string :=
  Py.join (firstn (j - i) (skipn i m)).

End Re.

(** ** The network and the console

    [requests.get] takes the next response the network holds for the
    program and records the request; [print] appends a line to the
    standard output.  The body of a response is a text for the dividend
    page and a document tree for the IPO page. *)

Record request : Type := mkrequest {
  req_url : string;
  req_headers : list (string * string)
}.

Record response (B : Type) : Type := mkresponse {
  status_code : nat;
  text : B
}.

Arguments mkresponse {B} _ _.
Arguments status_code {B} _.
Arguments text {B} _.

Record world (B : Type) : Type := mkworld {
  pending : list (response B);
  sent : list request;
  stdout : string
}.

Arguments mkworld {B} _ _ _.
Arguments pending {B} _.
Arguments sent {B} _.
Arguments stdout {B} _.

(** [requests.get(url, headers=headers)] *)
Definition requests_get {B : Type} (url : string)
           (headers : list (string * string)) (w : world B)
  : result (response B) * world B :=
  match pending w with
  | r :: rs => (Ok r, mkworld rs (sent w ++ [mkrequest url headers]) (stdout w))
  | [] => (Raise ConnectionError,
           mkworld [] (sent w ++ [mkrequest url headers]) (stdout w))
  end.

(** [print(a, b, ...)]: the arguments separated by blanks, then a line
    feed. *)
Fixpoint sep_by_blank (args : list string) : string :=
  match args with
  | [] => EmptyString
  | [a] => a
  | a :: rest => a ^^ " " ^^ sep_by_blank rest
  end.

Definition print {B : Type} (args : list string) (w : world B) : world B :=
  mkworld (pending w) (sent w) (stdout w ^^ sep_by_blank args ^^ Py.nl).

Definition user_agent : string :=
  "Mozilla/5.0 (Windows NT 10.0; Win64; x64) AppleWebKit/537.36 (KHTML, like Gecko) Chrome/114.0.0.0 Safari/537.36".

(** ** [get_dividend] *)

(** The pattern [var dtdata = (\[.*?\])\];] and its group 1. *)
Definition dtdata_pattern : list Re.item :=
  [Re.Lit "var dtdata = "; Re.Lit "["; Re.LazyAny; Re.Lit "]"; Re.Lit "];"].

Definition group1 (m : list string) : string := Re.span m 1 4.

(** What [json.loads] returned, as the rows [pd.DataFrame] is given: a
    list of lists of strings and nulls.  Other payloads are outside the
    model. *)
Definition cell_of_json (v : Json.value) : option (option string) :=
  match v with
  | Json.Str s => Some (Some s)
  | Json.Null => Some None
  | _ => None
  end.

Fixpoint all_some {A : Type} (l : list (option A)) : option (list A) :=
  match l with
  | [] => Some []
  | Some a :: l' => option_map (cons a) (all_some l')
  | None :: _ => None
  end.

Definition row_of_json (v : Json.value) : option (list (option string)) :=
  match v with
  | Json.Array cells => all_some (map cell_of_json cells)
  | _ => None
  end.

Definition rows_of_json (v : Json.value)
  : result (list (list (option string))) :=
  match v with
  | Json.Array rows =>
      match all_some (map row_of_json rows) with
      | Some data => Ok data
      | None => Unmodelled
      end
  | _ => Unmodelled
  end.

Definition dividend_columns : list string :=
  ["Announcement Date"; "Stock Name"; "Opening Price"; "Current Price";
   "Dividend"; "Ex Date"; "Stock Code"; "Blank"; "URL"].

(** Lines 32 to 39: the table built from the decoded rows. *)
Definition dividend_frame (data : list (list (option string)))
  : result Pd.DataFrame :=
  df <- Pd.DataFrame_of data dividend_columns ;;
  df <- Pd.drop df "Blank" ;;
  c <- Pd.getitem df "Stock Code" ;;
  c <- Pd.str_replace c "/web/stock/entitlement/" EmptyString ;;
  df <- Pd.setitem df "Stock Code" c ;;
  c <- Pd.getitem df "URL" ;;
  c <- Pd.radd "https://klse.i3investor.com/" c ;;
  df <- Pd.setitem df "URL" c ;;
  df <- Pd.set_index df (Pd.range 1 (Pd.len df + 1)) ;;
  c <- Pd.getitem df "Announcement Date" ;;
  c <- Pd.to_datetime c "%d-%b-%Y" ;;
  c <- Pd.dt_date c ;;
  df <- Pd.setitem df "Announcement Date" c ;;
  c <- Pd.getitem df "Ex Date" ;;
  c <- Pd.to_datetime c "%d-%b-%Y" ;;
  c <- Pd.dt_date c ;;
  df <- Pd.setitem df "Ex Date" c ;;
  Ok df.

(** Lines 30 to 39: from group 1 of the match to the table. *)
Definition dividend_of_match (m : list string) : result Pd.DataFrame :=
  let extracted_text := group1 m ^^ "]" in
  v <- Json.loads extracted_text ;;
  data <- rows_of_json v ;;
  dividend_frame data.

(** The function returns the table, or [None] after a message. *)
Definition get_dividend (w : world string)
  : result (option Pd.DataFrame) * world string :=
  let url := "https://klse.i3investor.com/web/entitlement/dividend/latest" in
  let headers := [("User-Agent", user_agent)] in
  let (r, w) := requests_get url headers w in
  match r with
  | Ok response =>
      if status_code response =? 200 then
        let content := text response in
        let pattern := dtdata_pattern in
        match Re.search pattern content with
        | Some m => (df <- dividend_of_match m ;; Ok (Some df), w)
        | None => (Ok None, print ["No match found."] w)
        end
      else
        (Ok None,
         print ["Failed to access the website. Status code:";
                Py.str_of_nat (status_code response)] w)
  | Raise e => (Raise e, w)
  | Unmodelled => (Unmodelled, w)
  end.

(** The world in which the site answers with one response. *)
Definition answering {B : Type} (r : response B) : world B :=
  mkworld [r] [] EmptyString.

(** ** BeautifulSoup

    The tree that [BeautifulSoup(content, 'html.parser')] builds: text
    nodes and tags with their contents.  The document itself is the tag
    that holds the top-level nodes.  Comments, declarations and the text
    of scripts are no part of [get_text] and are left out of the tree. *)

Module Soup.

Inductive node : Type :=
| Text (s : string)
| Tag (name : string) (contents : list node).

(** [tag.descendants]: the nodes below [tag], in document order. *)
Fixpoint descendants (n : node) : list node :=
  match n with
  | Text _ => []
  | Tag _ ks => flat_map (fun k => k :: descendants k) ks
  end.

Definition is_tag (name : string) (n : node) : bool :=
  match n with
  | Tag nm _ => String.eqb nm name
  | Text _ => false
  end.

(** [tag.find_all(name)] *)
Definition find_all (name : string) (n : node) : list node :=
  filter (is_tag name) (descendants n).

(** [tag.find(name)]: the first of [find_all], or [None]. *)
Definition find (name : string) (n : node) : option node :=
  hd_error (find_all name n).

(** The strings of [tag._all_strings(strip=True)]: every text below the
    tag, stripped, the empty ones dropped. *)
Definition stripped_strings (n : node) : list string :=
  flat_map (fun k => match k with
                     | Text s =>
                         match Py.strip s with
                         | EmptyString => []
                         | t => [t]
                         end
                     | Tag _ _ => []
                     end)
           (descendants n).

(** [tag.get_text(strip=True)] *)
Definition get_text_strip (n : node) : string :=
  Py.join (stripped_strings n).

End Soup.

(** ** [get_ipo] *)

Definition ipo_columns : list string :=
  ["Name of Company"; "Application Opened"; "Application Closed";
   "Issue Price"; "Public Issue"; "Offer for Sale"; "Private Placement";
   "Issue House"; "List Sought"; "Date of Listing"].

Definition none_has_no (attr : string) : exn :=
  AttributeError ("'NoneType' object has no attribute '" ^^ attr ^^ "'").

(** [cell.get_text(strip=True).replace('\n', ' ')] *)
Definition cell_text (cell : Soup.node) : string :=
  Py.replace (Soup.get_text_strip cell) Py.nl " ".

Section Ipo.

(** How pandas reads a date written without a stated format. *)
Variable lenient : Pd.reader.

(** Lines 73 to 80: the table built from the rows of cell texts. *)
Definition ipo_frame (rows : list (list (option string)))
  : result Pd.DataFrame :=
  ipo_df <- Pd.DataFrame_of rows ipo_columns ;;
  ipo_df <- Pd.set_index ipo_df (Pd.range 1 (Pd.len ipo_df + 1)) ;;
  c <- Pd.getitem ipo_df "Application Opened" ;;
  c <- Pd.to_datetime c "%d %b %Y" ;;
  c <- Pd.dt_date c ;;
  ipo_df <- Pd.setitem ipo_df "Application Opened" c ;;
  c <- Pd.getitem ipo_df "Application Closed" ;;
  ipo_df <- Pd.setitem ipo_df "Application Closed"
                       (Pd.replace_with_nan c "-") ;;
  c <- Pd.getitem ipo_df "Application Closed" ;;
  c <- Pd.dt_date (Pd.to_datetime_coerce lenient c) ;;
  ipo_df <- Pd.setitem ipo_df "Application Closed" c ;;
  c <- Pd.getitem ipo_df "Date of Listing" ;;
  c <- Pd.to_datetime c "%d %b %Y" ;;
  c <- Pd.dt_date c ;;
  ipo_df <- Pd.setitem ipo_df "Date of Listing" c ;;
  Ok ipo_df.

(** Lines 59 to 71: the header texts and the rows of cell texts. *)
Definition ipo_rows (soup : Soup.node)
  : result (list (list (option string))) :=
  match Soup.find "table" soup with
  | None => Raise (none_has_no "find_all")
  | Some table =>
      let headers := map cell_text (Soup.find_all "th" table) in
      match Soup.find "tbody" table with
      | None => Raise (none_has_no "find_all")
      | Some tbody =>
          Ok (map (fun tr => map (fun cell => Some (cell_text cell))
                                 (Soup.find_all "td" tr))
                  (Soup.find_all "tr" tbody))
      end
  end.

Definition get_ipo (w : world Soup.node)
  : result (option Pd.DataFrame) * world Soup.node :=
  let url :=
    "https://www.bursamalaysia.com/listing/listing_resources/ipo/ipo_summary"
  in
  let headers := [("User-Agent", user_agent)] in
  let (r, w) := requests_get url headers w in
  match r with
  | Ok response =>
      if status_code response =? 200 then
        let soup := text response in
        (rows <- ipo_rows soup ;; ipo_df <- ipo_frame rows ;; Ok (Some ipo_df),
         w)
      else
        (Ok None,
         print ["Failed to access the website. Status code:";
                Py.str_of_nat (status_code response)] w)
  | Raise e => (Raise e, w)
  | Unmodelled => (Unmodelled, w)
  end.

End Ipo.

(** ** Vocabulary of the properties *)

Definition entitlement_prefix : string := "/web/stock/entitlement/".
Definition base_url : string := "https://klse.i3investor.com/".

(** The two formats, as [Strptime.compile] reads them. *)
Definition dividend_format : list Strptime.directive :=
  [Strptime.Day; Strptime.Lit "-"; Strptime.MonthAbbr; Strptime.Lit "-";
   Strptime.Year4].

Definition ipo_format : list Strptime.directive :=
  [Strptime.Day; Strptime.Blanks; Strptime.MonthAbbr; Strptime.Blanks;
   Strptime.Year4].

(** The entries of column [j] of the rows, a short row giving [None]. *)
Definition column_of (j : nat) (data : list (list (option string)))
  : list (option string) :=
  map (fun row => nth j row None) data.

(** The date a strict column shows for an entry that does not raise. *)
Definition strict_date (ds : list Strptime.directive) (c : option string)
  : option Strptime.date :=
  match c with
  | Some s => if Strptime.is_null_string s then None else Strptime.strptime ds s
  | None => None
  end.

(** The entry is a text that matches the format. *)
Definition matches (ds : list Strptime.directive) (c : option string) : bool :=
  match c with
  | Some s => match Strptime.strptime ds s with Some _ => true | None => false end
  | None => false
  end.

(** The entry is a text that the format does not read: neither empty,
    nor one of the markers of a missing date, nor a match.  On such a
    text [to_datetime] raises, the two texts of [clock_word] apart,
    which it reads from the clock. *)
Definition rejected (ds : list Strptime.directive) (c : option string) : bool :=
  match c with
  | Some s =>
      negb (Strptime.is_null_string s)
      && match Strptime.strptime ds s with Some _ => false | None => true end
  | None => false
  end.

Definition is_text (c : option string) : bool :=
  match c with Some _ => true | None => false end.

(** The entry is one of the texts "now" and "today", read from the
    clock, and no row holds one in place [j]. *)
Definition clock_word (c : option string) : bool :=
  match c with
  | Some s => Pd.is_clock_string s
  | None => false
  end.

Definition clock_free (j : nat) (data : list (list (option string))) : bool :=
  forallb (fun row => negb (clock_word (nth j row None))) data.

(** A format that matches neither of the two texts. *)
Definition clockless (ds : list Strptime.directive) : Prop :=
  Strptime.strptime ds "now" = None /\ Strptime.strptime ds "today" = None.

(** A well-formed dividend row: nine texts, the two dates in the format
    of the page. *)
Definition well_formed_dividend_row (row : list (option string)) : bool :=
  (List.length row =? 9) && forallb is_text row
  && matches dividend_format (nth 0 row None)
  && matches dividend_format (nth 5 row None).

(** The raw stock code carries the path prefix at most once, in front. *)
Definition plain_code (raw : string) : bool :=
  match Py.removeprefix entitlement_prefix raw with
  | Some code => negb (Py.contains entitlement_prefix code)
  | None => negb (Py.contains entitlement_prefix raw)
  end.

(** The texts [us] with the path prefix between each two of them: a raw
    field with one occurrence of the prefix for every gap. *)
Fixpoint prefix_between (us : list string) : string :=
  match us with
  | [] => EmptyString
  | [u] => u
  | u :: us' => u ^^ entitlement_prefix ^^ prefix_between us'
  end.

(** The occurrences in [prefix_between us] are the only ones: the prefix
    starts nowhere in a text followed by the prefix but at the end of the
    text, and nowhere in the last text. *)
Fixpoint separated (us : list string) : bool :=
  match us with
  | [] => true
  | [u] => negb (Py.contains entitlement_prefix u)
  | u :: us' =>
      match Py.find entitlement_prefix (u ^^ entitlement_prefix) with
      | Some k => k =? String.length u
      | None => false
      end
      && separated us'
  end.

(** The page holds a text of the shape of the assignment: the locator
    pattern is present. *)
Definition has_payload (content : string) : Prop :=
  exists pre body post,
    content = pre ^^ "var dtdata = [" ^^ body ^^ "]];" ^^ post.

(** The texts of a match fit the pattern: each literal its own text. *)
Definition fits (p : list Re.item) (ts : list string) : Prop :=
  Forall2 (fun i t => match i with Re.Lit l => t = l | Re.LazyAny => True end)
          p ts.

(** The locate and parse stages of [get_dividend] on a page: no match,
    or what the decoder makes of the match. *)
Definition decoded_rows (content : string)
  : option (result (list (list (option string)))) :=
  option_map (fun m => v <- Json.loads (group1 m ^^ "]") ;; rows_of_json v)
             (Re.search dtdata_pattern content).

(** The world after the one request of a run: the response is taken,
    the request is on record, nothing is printed yet. *)
Definition requested {B : Type} (url : string) (w : world B) : world B :=
  mkworld (tl (pending w))
          (sent w ++ [mkrequest url [("User-Agent", user_agent)]])
          (stdout w).

Definition dividend_url : string :=
  "https://klse.i3investor.com/web/entitlement/dividend/latest".
Definition ipo_url : string :=
  "https://www.bursamalaysia.com/listing/listing_resources/ipo/ipo_summary".

(** The table [get_dividend] returns for the rows [data], given the dates
    [a] and [e] read from the two date columns. *)
Definition dividend_table (data : list (list (option string)))
           (a e : list (option Strptime.date)) : Pd.DataFrame :=
  Pd.mkframe
    [("Announcement Date", Pd.Dates a);
     ("Stock Name", Pd.Texts (column_of 1 data));
     ("Opening Price", Pd.Texts (column_of 2 data));
     ("Current Price", Pd.Texts (column_of 3 data));
     ("Dividend", Pd.Texts (column_of 4 data));
     ("Ex Date", Pd.Dates e);
     ("Stock Code",
      Pd.Texts (map (option_map
                       (fun s => Py.replace s entitlement_prefix EmptyString))
                    (column_of 6 data)));
     ("URL", Pd.Texts (map (option_map (fun s => base_url ^^ s))
                           (column_of 8 data)))]
    (seq 1 (List.length data)).

(** The Application Closed column once the placeholder is taken out. *)
Definition closed_column (rows : list (list (option string)))
  : list (option string) :=
  map (fun x => match x with
                | Some s => if String.eqb s "-" then None else Some s
                | None => None
                end)
      (column_of 2 rows).

(** What the reader of dates makes of the Application Closed column. *)
Definition closed_stamps (lenient : Pd.reader)
           (rows : list (list (option string))) : list (option Pd.stamp) :=
  map (fun x => match x with
                | Some s => lenient (closed_column rows) s
                | None => None
                end)
      (closed_column rows).

(** The table [get_ipo] returns for the rows of cell texts, given the
    dates [o] and [l] read from the two strict columns. *)
Definition ipo_table
           (lenient : Pd.reader)
           (rows : list (list (option string)))
           (o l : list (option Strptime.date)) : Pd.DataFrame :=
  Pd.mkframe
    [("Name of Company", Pd.Texts (column_of 0 rows));
     ("Application Opened", Pd.Dates o);
     ("Application Closed",
      Pd.Dates (map (option_map Pd.stamp_date) (closed_stamps lenient rows)));
     ("Issue Price", Pd.Texts (column_of 3 rows));
     ("Public Issue", Pd.Texts (column_of 4 rows));
     ("Offer for Sale", Pd.Texts (column_of 5 rows));
     ("Private Placement", Pd.Texts (column_of 6 rows));
     ("Issue House", Pd.Texts (column_of 7 rows));
     ("List Sought", Pd.Texts (column_of 8 rows));
     ("Date of Listing", Pd.Dates l)]
    (seq 1 (List.length rows)).

(** The document with the text below every [th] taken out: two documents
    differ only in the text of their header cells when this gives the
    same for both. *)
Fixpoint without_th_text (inside : bool) (n : Soup.node) : list Soup.node :=
  match n with
  | Soup.Text s => if inside then [] else [Soup.Text s]
  | Soup.Tag nm ks =>
      [Soup.Tag nm (flat_map (without_th_text (inside || String.eqb nm "th"))
                             ks)]
  end.

Definition same_outside_th (d1 d2 : Soup.node) : Prop :=
  without_th_text false d1 = without_th_text false d2.

(** No [td] lies inside a [th] and no [th] inside a [td]. *)
Fixpoint cells_apart (in_th in_td : bool) (n : Soup.node) : bool :=
  match n with
  | Soup.Text _ => true
  | Soup.Tag nm ks =>
      negb (String.eqb nm "td" && in_th) && negb (String.eqb nm "th" && in_td)
      && forallb (cells_apart (in_th || String.eqb nm "th")
                              (in_td || String.eqb nm "td")) ks
  end.

(** [t'] is what is left of the node [t] once the text below the header
    cells is taken out, [t] standing where the cells are kept apart. *)
Definition image (t t' : Soup.node) : Prop :=
  exists in_th in_td,
    without_th_text in_th t = [t'] /\ cells_apart in_th in_td t = true.

(** The nodes below the nodes [ks], in document order. *)
Definition below (ks : list Soup.node) : list Soup.node :=
  flat_map (fun k => k :: Soup.descendants k) ks.

(** ** Sample pages *)

(** A row of the dividend payload, and a page with the payload. *)
Definition json_row (cells : list string) : string :=
  "[" ^^ Py.join (match map Py.quoted cells with
                  | [] => []
                  | c :: cs => c :: map (fun x => "," ^^ x) cs
                  end) ^^ "]".

Definition dtdata_script (rows : list (list string)) : string :=
  "var dtdata = ["
  ^^ Py.join (match map json_row rows with
              | [] => []
              | r :: rs => r :: map (fun x => "," ^^ x) rs
              end)
  ^^ "];".

Definition abc_row : list string :=
  ["02-Jan-2024"; "ABC Bhd"; "1.20"; "1.25"; "0.05"; "15-Jan-2024"; "1234";
   EmptyString; "/web/stock/entitlement/1234"].

(** The script text of the scenario, alone and inside a page. *)
Definition abc_script : string := dtdata_script [abc_row].

Definition abc_page : string :=
  "<html><body><script>" ^^ Py.nl ^^ abc_script ^^ Py.nl
  ^^ "</script></body></html>".

(** A row whose raw stock code holds the prefix inside a broken copy of
    itself, a row two cells short, and a row with an unreadable date. *)
Definition folded_row : list string :=
  ["02-Jan-2024"; "ABC Bhd"; "1.20"; "1.25"; "0.05"; "15-Jan-2024";
   "/web/stock/entitl/web/stock/entitlement/ement/1234";
   EmptyString; "/web/stock/entitlement/1234"].

Definition short_row : list string :=
  ["03-Jan-2024"; "XYZ Bhd"; "2.20"; "2.25"; "0.10"; "16-Jan-2024"; "5678"].

Definition misdated_row : list string :=
  ["2024-01-02"; "ABC Bhd"; "1.20"; "1.25"; "0.05"; "15-Jan-2024"; "1234";
   EmptyString; "/web/stock/entitlement/1234"].

(** A row whose raw stock code holds the prefix twice. *)
Definition twice_prefixed_row : list string :=
  ["02-Jan-2024"; "ABC Bhd"; "1.20"; "1.25"; "0.05"; "15-Jan-2024";
   "/web/stock/entitlement/12/web/stock/entitlement/34";
   EmptyString; "/web/stock/entitlement/1234"].

(** An IPO page: a table with a header row and the given body rows. *)
Definition td (s : string) : Soup.node := Soup.Tag "td" [Soup.Text s].
Definition th (s : string) : Soup.node := Soup.Tag "th" [Soup.Text s].

Definition ipo_page (header : list Soup.node) (body : list (list Soup.node))
  : Soup.node :=
  Soup.Tag "[document]"
    [Soup.Tag "html"
       [Soup.Tag "body"
          [Soup.Tag "table"
             [Soup.Tag "thead" [Soup.Tag "tr" header];
              Soup.Tag "tbody" (map (Soup.Tag "tr") body)]]]].

Definition ipo_header : list Soup.node := map th ipo_columns.

Definition acme_cells : list string :=
  ["ACME Bhd"; "02 Jan 2024"; "-"; "RM1.00"; "10,000"; "-"; "-";
   "Issue House Sdn Bhd"; "Main Market"; "15 Feb 2024"].

(** Body rows of an IPO page: the ACME row, a row whose listing date is
    still empty, a row one cell short, a row with an unreadable date. *)
Definition acme_row : list Soup.node := map td acme_cells.

Definition unlisted_row : list Soup.node :=
  map td (firstn 9 acme_cells) ++ [Soup.Tag "td" []].

Definition nine_cell_row : list Soup.node := map td (firstn 9 acme_cells).

Definition iso_dated_row : list Soup.node :=
  map td ["ACME Bhd"; "2024-01-02"; "-"; "RM1.00"; "10,000"; "-"; "-";
          "Issue House Sdn Bhd"; "Main Market"; "15 Feb 2024"].

(** A page without any table. *)
Definition tableless_page : Soup.node :=
  Soup.Tag "[document]"
    [Soup.Tag "html" [Soup.Tag "body" [Soup.Tag "p" [Soup.Text "No data"]]]].

(** Two pages that differ in the text of a header cell, the header cell
    standing inside the first cell of the body row. *)
Definition headed_cell (h : string) : Soup.node :=
  Soup.Tag "td" [Soup.Text "ACME "; Soup.Tag "th" [Soup.Text h]].

Definition headed_page (h : string) : Soup.node :=
  ipo_page ipo_header [headed_cell h :: map td (tl acme_cells)].

(** The header cells of the IPO page under other titles. *)
Definition retitled_header : list Soup.node :=
  map (fun s => th ("Column " ^^ s)) ipo_columns.

(** Body rows with a closing date, and with a closing date still to
    come. *)
Definition closed_row : list Soup.node :=
  map td ["Beta Bhd"; "03 Jan 2024"; "09 Jan 2024"; "RM0.50"; "5,000"; "-";
          "-"; "Issue House Sdn Bhd"; "ACE Market"; "20 Feb 2024"].

Definition awaited_row : list Soup.node :=
  map td ["Gamma Bhd"; "04 Jan 2024"; "To be announced"; "RM0.75"; "7,500";
          "-"; "-"; "Issue House Sdn Bhd"; "ACE Market"; "22 Feb 2024"].

(** Two body rows whose closing times carry an offset, eight hours east
    of UTC and UTC itself, and a row with an unreadable listing date. *)
Definition east_row : list Soup.node :=
  map td ["Delta Bhd"; "05 Jan 2024"; "2024-01-09T17:00:00+08:00"; "RM0.80";
          "8,000"; "-"; "-"; "Issue House Sdn Bhd"; "ACE Market";
          "23 Feb 2024"].

Definition west_row : list Soup.node :=
  map td ["Epsilon Bhd"; "05 Jan 2024"; "2024-01-10T17:00:00+00:00"; "RM0.90";
          "9,000"; "-"; "-"; "Issue House Sdn Bhd"; "ACE Market";
          "23 Feb 2024"].

Definition undated_row : list Soup.node :=
  map td ["Zeta Bhd"; "05 Jan 2024"; "-"; "RM0.95"; "9,500"; "-"; "-";
          "Issue House Sdn Bhd"; "ACE Market"; "23/02/2024"].

(** Two readers of dates for the sample runs: one that knows no date,
    one that knows the dates in the format of the page, which carry no
    offset. *)
Definition no_dates (col : list (option string)) (s : string)
  : option Pd.stamp := None.

Definition page_dates (col : list (option string)) (s : string)
  : option Pd.stamp :=
  option_map (fun d => Pd.mkstamp d None) (Strptime.strptime ipo_format s).

(** A reader for columns of ISO 8601 texts with an offset: the day and
    the offset of three such texts, as pandas reads them.  The first
    text of the column decides how the column is read: when it is one of
    the three, every text is read as such a text or not at all; when it
    is not, the column is read as dates of the page. *)
Definition zoned_texts : list (string * Pd.stamp) :=
  [("2024-01-09T17:00:00+08:00",
    Pd.mkstamp (Strptime.mkdate 2024 1 9) (Some 28800%Z));
   ("2024-01-10T17:00:00+08:00",
    Pd.mkstamp (Strptime.mkdate 2024 1 10) (Some 28800%Z));
   ("2024-01-10T17:00:00+00:00",
    Pd.mkstamp (Strptime.mkdate 2024 1 10) (Some 0%Z))].

Definition zoned_text (s : string) : option Pd.stamp :=
  option_map snd (find (fun p => String.eqb (fst p) s) zoned_texts).

Definition first_text (col : list (option string)) : option string :=
  match filter is_text col with
  | c :: _ => c
  | [] => None
  end.

Definition zoned_dates (col : list (option string)) (s : string)
  : option Pd.stamp :=
  match option_map zoned_text (first_text col) with
  | Some (Some _) => zoned_text s
  | _ => page_dates col s
  end.

(** ** The application: [streamlit_menu] and [main]

    What Streamlit puts on the page is a list of widgets, in the order of
    the calls.  A session holds the two sites the page reads, each with
    the responses it will give, the requests sent, the console, the
    option of the menu the user has clicked, and the page. *)

Inductive widget : Type :=
| PageConfig (layout : string)
| OptionMenu (in_sidebar : bool) (menu_title : option string)
             (options icons : list string) (menu_icon : string)
             (default_index : nat) (orientation : option string)
             (styles : list (string * list (string * string)))
| Title (body : string)
| Write (body : string)
| Dataframe (data : option Pd.DataFrame)
| DownloadButton (label data file_name mime : string).

Record session : Type := mksession {
  ipo_site : list (response Soup.node);
  dividend_site : list (response string);
  requests : list request;
  console : string;
  clicked : option string;
  screen : list widget
}.

(** A step of the script: it returns or raises, and leaves a session. *)
Definition action (A : Type) : Type := session -> result A * session.

Definition done {A : Type} (a : A) : action A := fun s => (Ok a, s).

Definition lift {A : Type} (r : result A) : action A := fun s => (r, s).

Definition and_then {A B : Type} (a : action A) (k : A -> action B)
  : action B :=
  fun s =>
    let (r, s') := a s in
    match r with
    | Ok x => k x s'
    | Raise e => (Raise e, s')
    | Unmodelled => (Unmodelled, s')
    end.

Notation "x <~ a ;; k" := (and_then a (fun x => k))
  (at level 61, a at next level, right associativity).
Notation "a ;;; k" := (and_then a (fun _ => k))
  (at level 61, right associativity).

Definition show (x : widget) : action unit :=
  fun s => (Ok tt,
            mksession (ipo_site s) (dividend_site s) (requests s) (console s)
                      (clicked s) (screen s ++ [x])).

(** [option_menu(...)]: the default option is [options[default_index]],
    looked up before anything is drawn, so a list without that place
    raises IndexError.  Then the menu is put on the page, and the option
    the user has clicked is returned, the default one before any click. *)
Definition option_menu (in_sidebar : bool) (menu_title : option string)
           (options icons : list string) (menu_icon : string)
           (default_index : nat) (orientation : option string)
           (styles : list (string * list (string * string)))
  : action string :=
  match nth_error options default_index with
  | None => lift (Raise IndexError)
  | Some default =>
      show (OptionMenu in_sidebar menu_title options icons menu_icon
                       default_index orientation styles) ;;;
      fun s => (Ok (match clicked s with
                    | Some o => o
                    | None => default
                    end), s)
  end.

Definition menu_styles : list (string * list (string * string)) :=
  [("container", [("padding", "0!important");
                  ("background-color", "#fafafa")]);
   ("icon", [("color", "orange"); ("font-size", "25px")]);
   ("nav-link", [("font-size", "25px"); ("text-align", "left");
                 ("margin", "0px"); ("--hover-color", "#eee")]);
   ("nav-link-selected", [("background-color", "green")])].

(** Lines 86 to 132.  The function returns the selected option for the
    examples 1, 2 and 3, and falls off its end, returning [None], for any
    other. *)
Definition streamlit_menu (example : nat) (options icons : list string)
  : action (option string) :=
  if example =? 1 then
    selected <~ option_menu true (Some "Main Menu") options icons "cast" 0
                            None [] ;;
    done (Some selected)
  else if example =? 2 then
    selected <~ option_menu false None options icons "cast" 0
                            (Some "horizontal") [] ;;
    done (Some selected)
  else if example =? 3 then
    selected <~ option_menu false None options icons "cast" 0
                            (Some "horizontal") menu_styles ;;
    done (Some selected)
  else done None.

Definition main_options : list string :=
  ["Homepage"; "Dashboard"; "Analysis"; "Resources"].

Definition main_icons : list string :=
  ["house"; "bar-chart-fill"; "bar-chart-steps"; "file-earmark-medical-fill"].

(** [selected == name] *)
Definition is_selected (selected : option string) (name : string) : bool :=
  match selected with
  | Some o => String.eqb o name
  | None => false
  end.

Definition when (b : bool) (a : action unit) : action unit :=
  if b then a else done tt.

Section App.

Variable lenient : Pd.reader.

(** [df.to_csv()], the text that pandas writes for a table. *)
Variable to_csv : Pd.DataFrame -> string.

(** The pages Homepage (lines 146 to 172) and Dashboard (lines 175 to
    181), which read prices through yfinance. *)
Variable homepage : action unit.
Variable dashboard : action unit.

(** [get_ipo()] and [get_dividend()] in a session: each reads its own
    site. *)
Definition call_get_ipo : action (option Pd.DataFrame) :=
  fun s =>
    let (r, w) := get_ipo lenient
                          (mkworld (ipo_site s) (requests s) (console s)) in
    (r, mksession (pending w) (dividend_site s) (sent w) (stdout w)
                  (clicked s) (screen s)).

Definition call_get_dividend : action (option Pd.DataFrame) :=
  fun s =>
    let (r, w) := get_dividend
                    (mkworld (dividend_site s) (requests s) (console s)) in
    (r, mksession (ipo_site s) (pending w) (sent w) (stdout w)
                  (clicked s) (screen s)).

(** [df.to_csv().encode('utf-8')]; on [None] the attribute is missing. *)
Definition csv_bytes (df : option Pd.DataFrame) : result string :=
  match df with
  | Some d => Ok (to_csv d)
  | None => Raise (none_has_no "to_csv")
  end.

(** Lines 186 to 214: the page Resources. *)
Definition resources : action unit :=
  show (Title "IPO") ;;;
  show (Write
          "https://www.bursamalaysia.com/listing/listing_resources/ipo/ipo_summary") ;;;
  ipo_df <~ call_get_ipo ;;
  show (Dataframe ipo_df) ;;;
  csv <~ lift (csv_bytes ipo_df) ;;
  show (DownloadButton "Download CSV" csv "ipo.csv" "text/csv") ;;;
  show (Title "Dividend") ;;;
  show (Write "https://klse.i3investor.com/web/entitlement/dividend/latest") ;;;
  dividend_df <~ call_get_dividend ;;
  show (Dataframe dividend_df) ;;;
  csv <~ lift (csv_bytes dividend_df) ;;
  show (DownloadButton "Download CSV" csv "dividend.csv" "text/csv").

(** Lines 135 to 214. *)
Definition main : action unit :=
  show (PageConfig "wide") ;;;
  selected <~ streamlit_menu 2 main_options main_icons ;;
  when (is_selected selected "Homepage") homepage ;;;
  when (is_selected selected "Dashboard") dashboard ;;;
  when (is_selected selected "Analysis") (show (Title "To be constructed")) ;;;
  when (is_selected selected "Resources") resources.

End App.

(** The session of a user who has clicked [page], before the script
    runs. *)
Definition visiting (page : string) (ipo : list (response Soup.node))
           (dividend : list (response string)) : session :=
  mksession ipo dividend [] EmptyString (Some page) [].

(** The menu that [main] puts on the page. *)
Definition main_menu : widget :=
  OptionMenu false None main_options main_icons "cast" 0 (Some "horizontal")
             [].

(** Sample pages and a sample writer of tables for the runs of [main]. *)
Definition idle : action unit := done tt.

Definition row_count_csv (df : Pd.DataFrame) : string :=
  Py.str_of_nat (Pd.len df) ^^ " rows".

(** ** Vocabulary of the further properties *)

(** What a reader of the table sees for a text entry and for a date
    entry. *)
Definition as_entry (c : option string) : Pd.entry :=
  match c with
  | Some s => Pd.Text s
  | None => Pd.NA
  end.

Definition date_entry (d : option Strptime.date) : Pd.entry :=
  match d with
  | Some d => Pd.Date d
  | None => Pd.NA
  end.

(** No row holds, in place [j], a text that the format rejects. *)
Definition dates_readable (ds : list Strptime.directive) (j : nat)
           (data : list (list (option string))) : bool :=
  forallb (fun row => negb (rejected ds (nth j row None))) data.

(** The rows are none, or their longest has [n] cells. *)
Definition fits_schema (n : nat) (data : list (list (option string))) : bool :=
  match data with
  | [] => true
  | _ :: _ => Pd.width data =? n
  end.

(** The rows from which [get_dividend] builds a table, and the rows that
    the constructor and the two strict columns of [get_ipo] accept. *)
Definition dividend_rows_accepted (data : list (list (option string))) : bool :=
  fits_schema 9 data
  && dates_readable dividend_format 0 data
  && dates_readable dividend_format 5 data.

Definition ipo_rows_accepted (rows : list (list (option string))) : bool :=
  fits_schema 10 rows
  && dates_readable ipo_format 1 rows
  && dates_readable ipo_format 9 rows.

(** The text of cell [j] of a table row, if the row has that many
    cells, and the rows of cell texts of a table body. *)
Definition cell_of (tr : Soup.node) (j : nat) : option string :=
  option_map cell_text (nth_error (Soup.find_all "td" tr) j).

Definition body_rows (tbody : Soup.node) : list (list (option string)) :=
  map (fun tr => map (fun cell => Some (cell_text cell))
                     (Soup.find_all "td" tr))
      (Soup.find_all "tr" tbody).

(** A page whose table has an empty body, one whose table has no body,
    and a page with a second table behind the first. *)
Definition bodiless_page : Soup.node :=
  Soup.Tag "[document]"
    [Soup.Tag "table" [Soup.Tag "tr" (map td acme_cells)]].

Definition two_table_page : Soup.node :=
  Soup.Tag "[document]"
    [Soup.Tag "p" [Soup.Text "Listings"];
     Soup.Tag "table" [Soup.Tag "tbody" [Soup.Tag "tr" acme_row]];
     Soup.Tag "table" [Soup.Tag "tbody" [Soup.Tag "tr" closed_row]]].

(** The text starts, or ends, with a blank. *)
Definition blank_at_start (s : string) : bool :=
  match s with
  | String c _ => Py.isspace c
  | EmptyString => false
  end.

Fixpoint blank_at_end (s : string) : bool :=
  match s with
  | EmptyString => false
  | String c EmptyString => Py.isspace c
  | String _ r => blank_at_end r
  end.

(** A text changed character by character, and the change of a line
    feed into a blank. *)
Fixpoint translate (f : ascii -> ascii) (s : string) : string :=
  match s with
  | String c r => String (f c) (translate f r)
  | EmptyString => EmptyString
  end.

Definition unfeed (c : ascii) : ascii :=
  if (c =? "010")%char then " "%char else c.

(** A cell whose text runs over lines and nested tags. *)
Definition ragged_cell : Soup.node :=
  Soup.Tag "td"
    [Soup.Text (Py.nl ^^ "   ACME" ^^ Py.nl ^^ "Holdings ");
     Soup.Tag "br" [];
     Soup.Tag "span" [Soup.Text (" Bhd  " ^^ Py.nl)];
     Soup.Text ("   " ^^ Py.nl)].

(** The loop of [JSONArray] at depth [d], as [Json.scan_once] runs it:
    [n] bounds the items still to come, [acc] holds those read. *)
Definition array_items (d : nat)
  : nat -> string -> list Json.value -> result (Json.value * string) :=
  fix items (n : nat) (s : string) (acc : list Json.value)
    : result (Json.value * string) :=
    match n with
    | O => Unmodelled
    | S n' =>
        p <- Json.scan_once d s ;;
        match Json.ws (snd p) with
        | String c' r' =>
            if (c' =? "]")%char
            then Ok (Json.Array (rev (fst p :: acc)), r')
            else if (c' =? ",")%char
            then items n' (Json.ws r') (fst p :: acc)
            else Raise JSONDecodeError
        | EmptyString => Raise JSONDecodeError
        end
    end.

(** ** Vocabulary of the properties of the application *)

(** The session with more widgets on the page. *)
Definition showing (ws : list widget) (s : session) : session :=
  mksession (ipo_site s) (dividend_site s) (requests s) (console s)
            (clicked s) (screen s ++ ws).

(** The option of the main menu that is selected: the one clicked, the
    first one before any click. *)
Definition selection (s : session) : string :=
  match clicked s with
  | Some o => o
  | None => nth 0 main_options EmptyString
  end.

(** What each of the two functions sees of a session, and the request
    each sends. *)
Definition ipo_world (s : session) : world Soup.node :=
  mkworld (ipo_site s) (requests s) (console s).

Definition dividend_world (s : session) : world string :=
  mkworld (dividend_site s) (requests s) (console s).

Definition ipo_request : request :=
  mkrequest ipo_url [("User-Agent", user_agent)].

Definition dividend_request : request :=
  mkrequest dividend_url [("User-Agent", user_agent)].

(** The widgets of the page Resources above and below the first table,
    and below the second. *)
Definition ipo_heading : list widget := [Title "IPO"; Write ipo_url].

Definition dividend_heading : list widget :=
  [Title "Dividend"; Write dividend_url].

Definition download (data file_name : string) : widget :=
  DownloadButton "Download CSV" data file_name "text/csv".

(** The top of every page. *)
Definition page_top : list widget := [PageConfig "wide"; main_menu].

(** * Properties *)

(** ** The library models on sample values *)

Example str_methods :
  Py.replace "a-b-c" "-" "+" = "a+b+c"
  /\ Py.replace "aaa" "aa" "b" = "ba"
  /\ Py.replace "abc" EmptyString "-" = "-a-b-c-"
  /\ Py.strip ("  a b " ^^ Py.nl) = "a b"
  /\ Py.str_of_nat 404 = "404"
  /\ Py.find "b" "abc" = Some 1
  /\ Py.startswith "abc" "ab" = true.
Proof. repeat split; reflexivity. Qed.

Example strptime_formats :
  Strptime.compile "%d-%b-%Y" = Some dividend_format
  /\ Strptime.compile "%d %b %Y" = Some ipo_format
  /\ Strptime.strptime dividend_format "02-JAN-2024"
     = Some (Strptime.mkdate 2024 1 2)
  /\ Strptime.strptime ipo_format "2  feb 2024"
     = Some (Strptime.mkdate 2024 2 2)
  /\ Strptime.strptime dividend_format "30-Feb-2024" = None
  /\ Strptime.strptime dividend_format "02-Jan-2024 " = None
  /\ Strptime.strptime dividend_format "02 Jan 2024" = None
  /\ Strptime.strptime ipo_format "02-Jan-2024" = None.
Proof. repeat split; reflexivity. Qed.

Example loads_values :
  Json.loads ("[[" ^^ Py.quoted "a\u0041\n" ^^ ", null], [ ]]")
  = Ok (Json.Array [Json.Array [Json.Str ("aA" ^^ Py.nl); Json.Null];
                    Json.Array []])
  /\ Json.loads "[1.5e3, -0, true]"
     = Ok (Json.Array [Json.Number "1.5e3"; Json.Number "-0"; Json.Bool true])
  /\ Json.loads "[1,]" = Raise JSONDecodeError
  /\ Json.loads "[01]" = Raise JSONDecodeError
  /\ Json.loads "[] x" = Raise JSONDecodeError
  /\ Json.loads ("[" ^^ Py.quoted "\u4e2d" ^^ "]") = Unmodelled.
Proof. repeat split; reflexivity. Qed.

Example search_matches :
  option_map group1 (Re.search dtdata_pattern "x var dtdata = [[1],[2]]; y")
  = Some "[[1],[2]"
  /\ option_map group1
       (Re.search dtdata_pattern "var dtdata = [a]]; var dtdata = [b]];")
     = Some "[a]"
  /\ Re.search dtdata_pattern "var dtdata = [[1],[2]] ;" = None.
Proof. repeat split; reflexivity. Qed.

(** ** Texts *)

Section Texts.

Lemma prefix_append (p s : string) : prefix p (p ^^ s) = true.
Proof.
  induction p as [|c p IH]; simpl.
  - now destruct s.
  - destruct (ascii_dec c c) as [_|n]; [exact IH | now elim n].
Qed.

Lemma prefix_longer (p x b : string) :
  String.length p <= String.length x -> prefix p (x ^^ b) = prefix p x.
Proof.
  revert x; induction p as [|c p IH]; intros x Hlen.
  - simpl. now destruct x, b.
  - destruct x as [|a x]; simpl in *; [lia|].
    destruct (ascii_dec c a); [apply IH; lia | reflexivity].
Qed.

Lemma removeprefix_append (p s : string) :
  Py.removeprefix p (p ^^ s) = Some s.
Proof.
  induction p as [|c p IH]; simpl; [reflexivity|].
  now rewrite Ascii.eqb_refl.
Qed.

Lemma removeprefix_inv (p s r : string) :
  Py.removeprefix p s = Some r -> s = p ^^ r.
Proof.
  revert s; induction p as [|c p IH]; intros s H; simpl in *.
  - now inversion H.
  - destruct s as [|a s]; [discriminate|].
    destruct (Ascii.eqb c a) eqn:E; [|discriminate].
    apply Ascii.eqb_eq in E; subst a. f_equal. now apply IH.
Qed.

Lemma append_assoc (a b c : string) : (a ^^ b) ^^ c = a ^^ b ^^ c.
Proof. induction a; simpl; congruence. Qed.

Lemma append_empty_r (a : string) : a ^^ EmptyString = a.
Proof. induction a; simpl; congruence. Qed.

Lemma length_append (a b : string) :
  String.length (a ^^ b) = String.length a + String.length b.
Proof. induction a; simpl; congruence. Qed.

(** Once an occurrence is found, the scan passes over it. *)
Lemma replace_from_skip (old new u s : string) :
  Py.replace_from old new (u ^^ s) (String.length u)
  = Py.replace_from old new s 0.
Proof.
  induction u as [|c u IH]; simpl; [reflexivity | exact IH].
Qed.

(** An occurrence at the head is replaced and the scan resumes behind
    it. *)
Lemma replace_head (old new s : string) :
  old <> EmptyString ->
  Py.replace (old ^^ s) old new = new ^^ Py.replace s old new.
Proof.
  intros Hne. unfold Py.replace.
  destruct old as [|c old]; [now elim Hne|].
  change (String c old ^^ s) with (String c (old ^^ s)).
  cbn [Py.replace_from].
  change (String c (old ^^ s)) with (String c old ^^ s).
  rewrite prefix_append.
  replace (String.length (String c old) - 1) with (String.length old)
    by (simpl; lia).
  now rewrite replace_from_skip.
Qed.

(** A character that starts no occurrence is kept. *)
Lemma replace_keep (old new : string) (c : ascii) (s : string) :
  prefix old (String c s) = false ->
  Py.replace (String c s) old new = String c (Py.replace s old new).
Proof.
  intros H. unfold Py.replace. cbn [Py.replace_from]. now rewrite H.
Qed.

(** A text with no occurrence is left as it is. *)
Lemma replace_absent (old new s : string) :
  Py.contains old s = false -> Py.replace s old new = s.
Proof.
  induction s as [|c s IH]; intros H.
  - destruct old; [discriminate | reflexivity].
  - cbn [Py.contains] in H. apply orb_false_elim in H as [Hp Hc].
    rewrite replace_keep by exact Hp. now rewrite IH.
Qed.

(** The occurrence that ends a text [a ^^ old] and starts nowhere before
    is replaced wherever it stands, and the scan resumes behind it. *)
Lemma replace_inner (old new a b : string) :
  old <> EmptyString ->
  Py.find old (a ^^ old) = Some (String.length a) ->
  Py.replace (a ^^ old ^^ b) old new = a ^^ new ^^ Py.replace b old new.
Proof.
  intros Hne. induction a as [|c a IH]; intros H.
  - simpl. now apply replace_head.
  - cbn [append Py.find] in H.
    change (String c a ^^ old ^^ b) with (String c (a ^^ old ^^ b)).
    destruct (prefix old (String c (a ^^ old))) eqn:Hp.
    + simpl in H. discriminate.
    + destruct (Py.find old (a ^^ old)) as [k|] eqn:Hf; [|discriminate].
      simpl in H. injection H as ->.
      rewrite replace_keep.
      * cbn [append]. f_equal. now apply IH.
      * rewrite <- Hp.
        change (String c (a ^^ old ^^ b)) with (String c a ^^ old ^^ b).
        rewrite <- append_assoc.
        apply prefix_longer. cbn [append String.length].
        rewrite length_append. lia.
Qed.

(** Every occurrence between the texts is taken out, and the texts are
    left. *)
Lemma replace_prefix_between (us : list string) :
  separated us = true ->
  Py.replace (prefix_between us) entitlement_prefix EmptyString = Py.join us.
Proof.
  induction us as [|u us IH]; intros H; [reflexivity|].
  destruct us as [|u' us].
  - cbn [prefix_between separated] in *. apply negb_true_iff in H.
    rewrite replace_absent by exact H.
    cbn [Py.join fold_right]. now rewrite append_empty_r.
  - cbn [separated] in H. apply andb_prop in H as [Hu Hus].
    destruct (Py.find entitlement_prefix (u ^^ entitlement_prefix))
      as [k|] eqn:Hf; [|discriminate].
    apply Nat.eqb_eq in Hu. subst k.
    change (prefix_between (u :: u' :: us))
      with (u ^^ entitlement_prefix ^^ prefix_between (u' :: us)).
    rewrite replace_inner by (discriminate || exact Hf).
    rewrite (IH Hus). reflexivity.
Qed.

Lemma startswith_append (p s : string) : Py.startswith (p ^^ s) p = true.
Proof. apply prefix_append. Qed.

(** A stock code with the prefix at most once, in front, comes out free
    of it. *)
Lemma replace_plain_code (raw : string) :
  plain_code raw = true ->
  Py.contains entitlement_prefix
              (Py.replace raw entitlement_prefix EmptyString) = false.
Proof.
  unfold plain_code. intros H.
  destruct (Py.removeprefix entitlement_prefix raw) as [code|] eqn:E.
  - apply removeprefix_inv in E. subst raw.
    apply negb_true_iff in H.
    rewrite replace_head by discriminate.
    cbn [append]. now rewrite replace_absent.
  - apply negb_true_iff in H. now rewrite replace_absent.
Qed.

End Texts.

(** ** Tables *)

Section Frames.

Import Pd.

Lemma traverse_length {A B : Type} (f : A -> result B) l l' :
  traverse f l = Ok l' -> List.length l' = List.length l.
Proof.
  revert l'; induction l as [|a l IH]; intros l' H; simpl in H.
  - now inversion H.
  - destruct (f a); simpl in H; try discriminate.
    destruct (traverse f l); simpl in H; try discriminate.
    inversion H; subst. simpl. f_equal. now apply IH.
Qed.

Lemma length_column_of j data :
  List.length (column_of j data) = List.length data.
Proof. apply length_map. Qed.

Lemma length_closed_column rows :
  List.length (closed_column rows) = List.length rows.
Proof. unfold closed_column. now rewrite length_map, length_column_of. Qed.

(** The constructor accepts the empty list and the rows whose width is
    the number of names, and fills the columns position by position. *)
Lemma DataFrame_of_shape data names :
  data = [] \/ width data = List.length names ->
  DataFrame_of data names
  = Ok (mkframe (map (fun jn => (snd jn, Texts (column_of (fst jn) data)))
                     (combine (seq 0 (List.length names)) names))
                (seq 0 (List.length data))).
Proof.
  intros H. unfold DataFrame_of. destruct data as [|row data].
  - clear H. f_equal. f_equal. generalize 0.
    induction names as [|n names IH]; intros k; simpl;
      [reflexivity | f_equal; apply IH].
  - destruct H as [H|H]; [discriminate|].
    rewrite H, Nat.eqb_refl. reflexivity.
Qed.

Lemma DataFrame_of_mismatch data names :
  data <> [] -> width data <> List.length names ->
  DataFrame_of data names = Raise ValueError.
Proof.
  intros Hne Hw. unfold DataFrame_of. destruct data; [now elim Hne|].
  apply Nat.eqb_neq in Hw. now rewrite Hw.
Qed.

Lemma setitem_ok df name c :
  size c = len df ->
  setitem df name c = Ok (mkframe (assign name c (columns df)) (index df)).
Proof. intros H. unfold setitem. now rewrite H, Nat.eqb_refl. Qed.

Lemma set_index_ok df :
  set_index df (range 1 (len df + 1))
  = Ok (mkframe (columns df) (seq 1 (len df))).
Proof.
  unfold set_index, range.
  replace (len df + 1 - 1) with (len df) by lia.
  now rewrite length_seq, Nat.eqb_refl.
Qed.

Lemma to_datetime_dividend l :
  to_datetime (Texts l) "%d-%b-%Y"
  = ds <- traverse (parse_strict dividend_format) l ;; Ok (Dates ds).
Proof. reflexivity. Qed.

Lemma to_datetime_ipo l :
  to_datetime (Texts l) "%d %b %Y"
  = ds <- traverse (parse_strict ipo_format) l ;; Ok (Dates ds).
Proof. reflexivity. Qed.

Ltac sizes :=
  repeat progress (unfold size, len; cbn [index];
                   rewrite ?length_map, ?length_seq, ?length_column_of);
  try reflexivity; try assumption.

Ltac frame_simpl :=
  cbn -[Py.replace append column_of traverse parse_strict closed_column
        one_offset].

Ltac frame_step :=
  first [ rewrite setitem_ok by sizes | rewrite set_index_ok ];
  frame_simpl.

(** [dividend_frame] in one piece: the two date columns are read, in
    this order, and the table is [dividend_table]. *)
Lemma dividend_frame_eq data :
  data = [] \/ width data = 9 ->
  dividend_frame data
  = a <- traverse (parse_strict dividend_format) (column_of 0 data) ;;
    e <- traverse (parse_strict dividend_format) (column_of 5 data) ;;
    Ok (dividend_table data a e).
Proof.
  intros H. unfold dividend_frame.
  rewrite DataFrame_of_shape by exact H.
  frame_simpl.
  do 3 frame_step.
  rewrite to_datetime_dividend.
  destruct (traverse (parse_strict dividend_format) (column_of 0 data))
    as [a| |] eqn:Ea; frame_simpl; try reflexivity.
  apply traverse_length in Ea. rewrite length_column_of in Ea.
  frame_step.
  rewrite to_datetime_dividend.
  destruct (traverse (parse_strict dividend_format) (column_of 5 data))
    as [e| |] eqn:Ee; frame_simpl; try reflexivity.
  apply traverse_length in Ee. rewrite length_column_of in Ee.
  frame_step.
  rewrite length_seq. reflexivity.
Qed.

Lemma dividend_frame_mismatch data :
  data <> [] -> width data <> 9 -> dividend_frame data = Raise ValueError.
Proof.
  intros Hne Hw. unfold dividend_frame.
  now rewrite DataFrame_of_mismatch.
Qed.

Variable lenient : Pd.reader.

(** [ipo_frame] in one piece: Application Opened is read, then
    Application Closed, whose timestamps must share one offset for
    [.dt.date], then Date of Listing, and the table is [ipo_table]. *)
Lemma ipo_frame_eq rows :
  rows = [] \/ width rows = 10 ->
  ipo_frame lenient rows
  = o <- traverse (parse_strict ipo_format) (column_of 1 rows) ;;
    if one_offset (closed_stamps lenient rows)
    then l <- traverse (parse_strict ipo_format) (column_of 9 rows) ;;
         Ok (ipo_table lenient rows o l)
    else Raise (AttributeError
                  "Can only use .dt accessor with datetimelike values").
Proof.
  intros H. unfold ipo_frame.
  rewrite DataFrame_of_shape by exact H.
  frame_simpl.
  frame_step.
  rewrite to_datetime_ipo.
  destruct (traverse (parse_strict ipo_format) (column_of 1 rows))
    as [o| |] eqn:Eo; frame_simpl; try reflexivity.
  apply traverse_length in Eo. rewrite length_column_of in Eo.
  do 2 frame_step.
  change (map (fun x : option string =>
                 match x with
                 | Some s => if String.eqb s "-" then None else Some s
                 | None => None
                 end) (column_of 2 rows))
    with (closed_column rows).
  change (map (fun x : option string =>
                 match x with
                 | Some s => lenient (closed_column rows) s
                 | None => None
                 end) (closed_column rows))
    with (closed_stamps lenient rows).
  destruct (one_offset (closed_stamps lenient rows)); [|reflexivity].
  frame_simpl.
  rewrite setitem_ok
    by (unfold size, len, closed_stamps; cbn [index];
        now rewrite !length_map, !length_seq, length_closed_column).
  frame_simpl.
  rewrite to_datetime_ipo.
  destruct (traverse (parse_strict ipo_format) (column_of 9 rows))
    as [l| |] eqn:El; frame_simpl; try reflexivity.
  apply traverse_length in El. rewrite length_column_of in El.
  frame_step.
  rewrite length_seq. reflexivity.
Qed.

Lemma ipo_frame_mismatch rows :
  rows <> [] -> width rows <> 10 -> ipo_frame lenient rows = Raise ValueError.
Proof.
  intros Hne Hw. unfold ipo_frame.
  now rewrite DataFrame_of_mismatch.
Qed.

End Frames.

(** ** The stages of a run *)

Section Stages.

Variable lenient : Pd.reader.

Lemma requests_get_next {B : Type} url (w : world B) r rest :
  pending w = r :: rest ->
  requests_get url [("User-Agent", user_agent)] w = (Ok r, requested url w).
Proof.
  intros H. unfold requests_get, requested. now rewrite H.
Qed.

(** On a page with status 200 whose payload decodes to [data], the run
    is the construction of the table from [data]. *)
Lemma get_dividend_decoded (w : world string) r rest data :
  pending w = r :: rest -> status_code r = 200 ->
  decoded_rows (text r) = Some (Ok data) ->
  get_dividend w
  = (df <- dividend_frame data ;; Ok (Some df), requested dividend_url w).
Proof.
  intros Hp Hs Hd. unfold get_dividend.
  fold dividend_url.
  rewrite (requests_get_next _ _ _ _ Hp), Hs. cbn [Nat.eqb].
  unfold decoded_rows in Hd.
  destruct (Re.search dtdata_pattern (text r)) as [m|]; [|discriminate].
  cbn [option_map] in Hd. injection Hd as Hd.
  unfold dividend_of_match.
  destruct (Json.loads (group1 m ^^ "]")) as [v| |]; try discriminate.
  cbn [bind] in Hd |- *. now rewrite Hd.
Qed.

(** On a page with status 200 the run of [get_ipo] is the reading of the
    rows and the construction of the table. *)
Lemma get_ipo_200 (w : world Soup.node) r rest :
  pending w = r :: rest -> status_code r = 200 ->
  get_ipo lenient w
  = (rows <- ipo_rows (text r) ;; ipo_df <- ipo_frame lenient rows ;;
     Ok (Some ipo_df),
     requested ipo_url w).
Proof.
  intros Hp Hs. unfold get_ipo. fold ipo_url.
  now rewrite (requests_get_next _ _ _ _ Hp), Hs.
Qed.

Lemma failure_message {B : Type} (w : world B) (code : nat) :
  stdout (print ["Failed to access the website. Status code:";
                 Py.str_of_nat code] w)
  = stdout w ^^ "Failed to access the website. Status code: "
    ^^ Py.str_of_nat code ^^ Py.nl.
Proof.
  unfold print. cbn [stdout sep_by_blank]. reflexivity.
Qed.

End Stages.

(** ** The locator pattern *)

Section Matching.

Import Re.

Lemma match_here_lazy p s :
  match_here (LazyAny :: p) s
  = match match_here p s with
    | Some m => consumed EmptyString (Some m)
    | None =>
        match s with
        | String c r => extend c (match_here (LazyAny :: p) r)
        | EmptyString => None
        end
    end.
Proof. destruct s; reflexivity. Qed.

Lemma match_here_sound p :
  forall s ts rest,
    match_here p s = Some (ts, rest) ->
    fits p ts /\ s = Py.join ts ^^ rest.
Proof.
  induction p as [|i p IH]; intros s ts rest H.
  - cbn in H. injection H as <- <-. split; [constructor | reflexivity].
  - destruct i as [l|].
    + cbn [match_here] in H.
      destruct (Py.removeprefix l s) as [r|] eqn:E; [|discriminate].
      apply removeprefix_inv in E. subst s.
      destruct (match_here p r) as [[ts' rest']|] eqn:M; [|discriminate].
      cbn in H. injection H as <- <-.
      destruct (IH _ _ _ M) as [F ->].
      split; [now constructor|]. cbn [Py.join fold_right].
      now rewrite append_assoc.
    + revert ts rest H. induction s as [|c s IHs]; intros ts rest H;
        rewrite match_here_lazy in H.
      * destruct (match_here p EmptyString) as [[ts' rest']|] eqn:M;
          [|discriminate].
        cbn in H. injection H as <- <-.
        destruct (IH _ _ _ M) as [F E]. split; [now constructor | exact E].
      * destruct (match_here p (String c s)) as [[ts' rest']|] eqn:M.
        -- cbn in H. injection H as <- <-.
           destruct (IH _ _ _ M) as [F E]. split; [now constructor | exact E].
        -- destruct (match_here (LazyAny :: p) s) as [[[|t ts'] rest']|] eqn:M';
             try discriminate.
           cbn in H. injection H as <- <-.
           destruct (IHs _ _ eq_refl) as [F E].
           inversion F; subst. split; [now constructor | reflexivity].
Qed.

Lemma match_here_complete p :
  forall ts rest,
    fits p ts -> match_here p (Py.join ts ^^ rest) <> None.
Proof.
  induction p as [|i p IH]; intros ts rest F.
  - discriminate.
  - inversion F as [|i' t p' ts' Hi F']; subst.
    cbn [Py.join fold_right]. rewrite append_assoc.
    fold (Py.join ts').
    specialize (IH ts' rest F').
    destruct i as [l|].
    + subst t. cbn [match_here]. rewrite removeprefix_append.
      destruct (match_here p (Py.join ts' ^^ rest)) as [m|];
        [destruct m; discriminate | now elim IH].
    + clear Hi F. induction t as [|c t IHt]; rewrite match_here_lazy.
      * cbn [append].
        destruct (match_here p (Py.join ts' ^^ rest)) as [m|];
          [destruct m; discriminate | now elim IH].
      * cbn [append].
        destruct (match_here p (String c (t ^^ Py.join ts' ^^ rest)))
          as [m|]; [destruct m; discriminate|].
        destruct (match_here (LazyAny :: p) (t ^^ Py.join ts' ^^ rest))
          as [[ts0 rest0]|] eqn:M; [|now elim IHt].
        apply match_here_sound in M as [F0 _].
        inversion F0; subst. discriminate.
Qed.

Lemma search_none p s :
  search p s = None <->
  (forall pre suf, s = pre ^^ suf -> match_here p suf = None).
Proof.
  split.
  - induction s as [|c s IH]; intros H pre suf E.
    + destruct pre; [|discriminate]. cbn in E. subst suf.
      cbn [search] in H. now destruct (match_here p EmptyString).
    + cbn [search] in H.
      destruct (match_here p (String c s)) eqn:M; [discriminate|].
      destruct pre as [|a pre].
      * cbn in E. now subst suf.
      * cbn in E. injection E as -> E. now apply (IH H pre).
  - induction s as [|c s IH]; intros H; cbn [search].
    + now rewrite (H EmptyString EmptyString eq_refl).
    + rewrite (H EmptyString (String c s) eq_refl).
      apply IH. intros pre suf E. apply (H (String c pre)). cbn. now f_equal.
Qed.

Lemma payload_text body post :
  Py.join ["var dtdata = "; "["; body; "]"; "];"] ^^ post
  = "var dtdata = [" ^^ body ^^ "]];" ^^ post.
Proof.
  cbn [Py.join fold_right append]. do 14 f_equal.
  rewrite append_assoc. reflexivity.
Qed.

(** The pattern of [get_dividend] has no match exactly on the pages that
    hold no text of the shape of the assignment. *)
Lemma search_dtdata_none content :
  search dtdata_pattern content = None <-> ~ has_payload content.
Proof.
  rewrite search_none. split.
  - intros H [pre [body [post E]]].
    specialize (H pre _ E). rewrite <- payload_text in H.
    revert H. apply match_here_complete. repeat constructor.
  - intros H pre suf E.
    destruct (match_here dtdata_pattern suf) as [[ts rest]|] eqn:M;
      [|reflexivity].
    elim H. apply match_here_sound in M as [F ->].
    unfold dtdata_pattern in F.
    repeat match goal with
           | F : fits (_ :: _) _ |- _ => inversion F; clear F; subst
           | F : Forall2 _ (_ :: _) _ |- _ => inversion F; clear F; subst
           | F : Forall2 _ [] _ |- _ => inversion F; clear F; subst
           end.
    match goal with |- has_payload (_ ^^ Py.join [_; _; ?b; _; _] ^^ _) =>
      exists pre, b, rest end.
    now rewrite payload_text.
Qed.

End Matching.

(** ** The scenario, and the responses that carry no payload *)

(** C1. On the page of the scenario, the script text alone or inside a
    document, [get_dividend] returns a table of exactly one record, with
    stock code 1234, with the URL made of the base and the raw path, with
    announcement date 2024-01-02 and ex date 2024-01-15. *)
Theorem C1_dividend_scenario :
  abc_script
  = "var dtdata = [["
    ^^ Py.quoted "02-Jan-2024" ^^ "," ^^ Py.quoted "ABC Bhd" ^^ ","
    ^^ Py.quoted "1.20" ^^ "," ^^ Py.quoted "1.25" ^^ ","
    ^^ Py.quoted "0.05" ^^ "," ^^ Py.quoted "15-Jan-2024" ^^ ","
    ^^ Py.quoted "1234" ^^ "," ^^ Py.quoted EmptyString ^^ ","
    ^^ Py.quoted "/web/stock/entitlement/1234" ^^ "]];"
  /\ forall page, page = abc_script \/ page = abc_page ->
     exists df,
       fst (get_dividend (answering (mkresponse 200 page))) = Ok (Some df)
       /\ Pd.len df = 1
       /\ Pd.index df = [1]
       /\ Pd.loc df 1 "Stock Code" = Some (Pd.Text "1234")
       /\ Pd.loc df 1 "URL"
          = Some (Pd.Text
                    "https://klse.i3investor.com//web/stock/entitlement/1234")
       /\ Pd.loc df 1 "Announcement Date"
          = Some (Pd.Date (Strptime.mkdate 2024 1 2))
       /\ Pd.loc df 1 "Ex Date"
          = Some (Pd.Date (Strptime.mkdate 2024 1 15)).
Proof.
  split; [reflexivity|].
  intros page [-> | ->]; eexists; (split; [vm_compute; reflexivity|]);
    repeat split; reflexivity.
Qed.

(** C5, as the specification states it, fails: on a response with
    status 404 [get_ipo] raises nothing, it returns [None]. *)
Lemma C5_counterexample :
  let run := get_ipo no_dates (answering (mkresponse 404 tableless_page)) in
  fst run = Ok None
  /\ raises (fst run) = false
  /\ ~ fails_with "FetchError" (fst run).
Proof.
  cbv zeta. repeat split.
  intros [e [H _]]. discriminate H.
Qed.

(** C5, amended.  On a response whose status is not 200, either function
    prints the line "Failed to access the website. Status code: " with
    the status code, returns [None] without raising, builds no table, and
    has sent exactly one request and taken exactly one response. *)
Theorem C5_non_200_prints_and_returns_none
        (lenient : Pd.reader)
        (wd : world string) (rd : response string) (restd : list (response string))
        (wi : world Soup.node) (ri : response Soup.node)
        (resti : list (response Soup.node)) :
  pending wd = rd :: restd -> status_code rd <> 200 ->
  pending wi = ri :: resti -> status_code ri <> 200 ->
  (fst (get_dividend wd) = Ok None
   /\ stdout (snd (get_dividend wd))
      = stdout wd ^^ "Failed to access the website. Status code: "
        ^^ Py.str_of_nat (status_code rd) ^^ Py.nl
   /\ sent (snd (get_dividend wd))
      = sent wd ++ [mkrequest dividend_url [("User-Agent", user_agent)]]
   /\ pending (snd (get_dividend wd)) = restd)
  /\
  (fst (get_ipo lenient wi) = Ok None
   /\ stdout (snd (get_ipo lenient wi))
      = stdout wi ^^ "Failed to access the website. Status code: "
        ^^ Py.str_of_nat (status_code ri) ^^ Py.nl
   /\ sent (snd (get_ipo lenient wi))
      = sent wi ++ [mkrequest ipo_url [("User-Agent", user_agent)]]
   /\ pending (snd (get_ipo lenient wi)) = resti).
Proof.
  intros Hpd Hsd Hpi Hsi.
  apply Nat.eqb_neq in Hsd, Hsi.
  split.
  - unfold get_dividend. fold dividend_url.
    rewrite (requests_get_next _ _ _ _ Hpd), Hsd.
    cbn [fst snd]. rewrite failure_message.
    unfold print, requested; cbn [sent pending stdout]. rewrite Hpd.
    repeat split.
  - unfold get_ipo. fold ipo_url.
    rewrite (requests_get_next _ _ _ _ Hpi), Hsi.
    cbn [fst snd]. rewrite failure_message.
    unfold print, requested; cbn [sent pending stdout]. rewrite Hpi.
    repeat split.
Qed.

Lemma C5_non_200_witness :
  let wd := answering (mkresponse 503 abc_script) in
  let wi := answering (mkresponse 404 tableless_page) in
  (fst (get_dividend wd) = Ok None
   /\ stdout (snd (get_dividend wd))
      = stdout wd ^^ "Failed to access the website. Status code: "
        ^^ Py.str_of_nat 503 ^^ Py.nl
   /\ sent (snd (get_dividend wd))
      = sent wd ++ [mkrequest dividend_url [("User-Agent", user_agent)]]
   /\ pending (snd (get_dividend wd)) = [])
  /\
  (fst (get_ipo no_dates wi) = Ok None
   /\ stdout (snd (get_ipo no_dates wi))
      = stdout wi ^^ "Failed to access the website. Status code: "
        ^^ Py.str_of_nat 404 ^^ Py.nl
   /\ sent (snd (get_ipo no_dates wi))
      = sent wi ++ [mkrequest ipo_url [("User-Agent", user_agent)]]
   /\ pending (snd (get_ipo no_dates wi)) = []).
Proof.
  cbv zeta.
  apply (C5_non_200_prints_and_returns_none no_dates
           (answering (mkresponse 503 abc_script)) (mkresponse 503 abc_script) []
           (answering (mkresponse 404 tableless_page))
           (mkresponse 404 tableless_page) []).
  - reflexivity.
  - cbn [status_code]. intros H. discriminate H.
  - reflexivity.
  - cbn [status_code]. intros H. discriminate H.
Defined.

(** C6, as the specification states it, fails: on a page without the
    assignment [get_dividend] raises nothing, it prints a line and
    returns [None]. *)
Lemma C6_counterexample :
  let page := "<html><body>no payload</body></html>" in
  let run := get_dividend (answering (mkresponse 200 page)) in
  ~ has_payload page
  /\ fst run = Ok None
  /\ stdout (snd run) = "No match found." ^^ Py.nl
  /\ ~ fails_with "ExtractError" (fst run).
Proof.
  cbv zeta. split.
  - apply search_dtdata_none. vm_compute. reflexivity.
  - repeat split. intros [e [H _]]. discriminate H.
Qed.

(** C6, amended.  On a page with status 200 that holds no text of the
    shape of the assignment (the locator pattern is absent),
    [get_dividend] prints "No match found.", returns [None] without
    raising, and builds no table. *)
Theorem C6_no_match_prints_and_returns_none
        (w : world string) (r : response string)
        (rest : list (response string)) :
  pending w = r :: rest -> status_code r = 200 ->
  ~ has_payload (text r) ->
  get_dividend w
  = (Ok None,
     mkworld rest
             (sent w ++ [mkrequest dividend_url [("User-Agent", user_agent)]])
             (stdout w ^^ "No match found." ^^ Py.nl)).
Proof.
  intros Hp Hs Hm. apply search_dtdata_none in Hm.
  unfold get_dividend. fold dividend_url.
  rewrite (requests_get_next _ _ _ _ Hp), Hs, Hm. cbn [Nat.eqb].
  unfold print, requested. cbn [sent pending stdout sep_by_blank].
  now rewrite Hp.
Qed.

Lemma C6_no_match_witness :
  let page := "<html><body>no payload</body></html>" in
  get_dividend (answering (mkresponse 200 page))
  = (Ok None,
     mkworld []
             ([] ++ [mkrequest dividend_url [("User-Agent", user_agent)]])
             (EmptyString ^^ "No match found." ^^ Py.nl)).
Proof.
  cbv zeta.
  apply (C6_no_match_prints_and_returns_none
           (answering (mkresponse 200 "<html><body>no payload</body></html>"))
           (mkresponse 200 "<html><body>no payload</body></html>") []).
  - reflexivity.
  - reflexivity.
  - apply search_dtdata_none. vm_compute. reflexivity.
Defined.

(** C7, on a page without a table: [get_ipo] does not fail with the
    error the specification names.  The result of [soup.find] is used
    unchecked, and the run ends in the AttributeError of the next
    line. *)
Lemma C7_counterexample :
  let run := get_ipo no_dates (answering (mkresponse 200 tableless_page)) in
  Soup.find_all "table" tableless_page = []
  /\ fst run
     = Raise (AttributeError "'NoneType' object has no attribute 'find_all'")
  /\ ~ fails_with "ExtractError" (fst run).
Proof.
  cbv zeta. repeat split.
  intros [e [H C]]. vm_compute in H. injection H as <-. discriminate C.
Qed.

(** C7.  What the code does where the specification asks for the error
    "no table found": on every page with status 200 and no [table]
    element, [soup.find] returns [None], nothing checks it, and
    [get_ipo] ends in AttributeError ('NoneType' object has no attribute
    'find_all').  [get_dividend] guards the like case, a page without
    the payload, with a test of its own. *)
Theorem C7_no_table_raises_attribute_error
        (lenient : Pd.reader)
        (w : world Soup.node) (r : response Soup.node)
        (rest : list (response Soup.node)) :
  pending w = r :: rest -> status_code r = 200 ->
  Soup.find_all "table" (text r) = [] ->
  fst (get_ipo lenient w)
  = Raise (AttributeError "'NoneType' object has no attribute 'find_all'")
  /\ fails_with "AttributeError" (fst (get_ipo lenient w)).
Proof.
  intros Hp Hs Ht.
  assert (E : fst (get_ipo lenient w)
              = Raise (AttributeError
                         "'NoneType' object has no attribute 'find_all'")).
  { rewrite (get_ipo_200 lenient w r rest Hp Hs). cbn [fst].
    unfold ipo_rows, Soup.find. now rewrite Ht. }
  split; [exact E|].
  rewrite E. eexists. split; reflexivity.
Qed.

Lemma C7_no_table_witness :
  fst (get_ipo no_dates (answering (mkresponse 200 tableless_page)))
  = Raise (AttributeError "'NoneType' object has no attribute 'find_all'")
  /\ fails_with "AttributeError"
       (fst (get_ipo no_dates (answering (mkresponse 200 tableless_page)))).
Proof.
  apply (C7_no_table_raises_attribute_error no_dates
           (answering (mkresponse 200 tableless_page))
           (mkresponse 200 tableless_page) []).
  - reflexivity.
  - reflexivity.
  - reflexivity.
Defined.

(** ** Columns of dates and places of a table *)

Section Columns.

Import Pd.

Lemma traverse_ok {A B : Type} (f : A -> result B) (g : A -> B) l :
  (forall x, In x l -> f x = Ok (g x)) -> traverse f l = Ok (map g l).
Proof.
  induction l as [|a l IH]; intros H; simpl; [reflexivity|].
  rewrite (H a (or_introl eq_refl)). cbn [bind].
  rewrite IH by (intros x Hx; apply H; now right). reflexivity.
Qed.

(** One entry that raises makes the whole column raise, when no entry
    leaves the model. *)
Lemma traverse_raise {A B : Type} (f : A -> result B) (e : exn) l :
  (forall x, In x l -> (exists b, f x = Ok b) \/ f x = Raise e) ->
  (exists x, In x l /\ f x = Raise e) ->
  traverse f l = Raise e.
Proof.
  induction l as [|a l IH]; intros Hall [x [Hin Hx]]; [destruct Hin|].
  simpl. destruct (Hall a (or_introl eq_refl)) as [[b Hb]|Hb]; rewrite Hb;
    [|reflexivity].
  cbn [bind]. destruct Hin as [->|Hin]; [congruence|].
  rewrite IH; [reflexivity| |now exists x].
  intros y Hy. apply Hall. now right.
Qed.

Lemma is_clock_string_spec s :
  is_clock_string s = true -> s = "now" \/ s = "today".
Proof.
  unfold is_clock_string. intros H. apply orb_prop in H as [H|H];
    apply String.eqb_eq in H; auto.
Qed.

Lemma dividend_format_clockless : clockless dividend_format.
Proof. split; reflexivity. Qed.

Lemma ipo_format_clockless : clockless ipo_format.
Proof. split; reflexivity. Qed.

(** An entry gives a date or nothing, raises ValueError, or is read from
    the clock. *)
Lemma parse_strict_cases ds c :
  (exists d, parse_strict ds c = Ok d)
  \/ parse_strict ds c = Raise ValueError
  \/ (clock_word c = true /\ parse_strict ds c = Unmodelled).
Proof.
  unfold parse_strict, clock_word. destruct c as [s|]; [|left; eauto].
  destruct (Strptime.is_null_string s); [left; eauto|].
  destruct (is_clock_string s); [right; right; now split|].
  destruct (Strptime.strptime ds s); [left; eauto | right; now left].
Qed.

Lemma parse_strict_rejected ds c :
  clock_word c = false -> rejected ds c = true ->
  parse_strict ds c = Raise ValueError.
Proof.
  unfold rejected, parse_strict, clock_word.
  destruct c as [s|]; [|discriminate].
  intros ->. destruct (Strptime.is_null_string s); [discriminate|].
  now destruct (Strptime.strptime ds s).
Qed.

(** Under a format that matches neither of the two texts, an entry that
    is not rejected is not read from the clock. *)
Lemma accepted_clock_free ds c :
  clockless ds -> rejected ds c = false -> clock_word c = false.
Proof.
  intros [Hn Ht]. unfold rejected, clock_word.
  destruct c as [s|]; [|reflexivity].
  destruct (is_clock_string s) eqn:C; [|reflexivity].
  apply is_clock_string_spec in C as [-> | ->].
  - now rewrite Hn.
  - now rewrite Ht.
Qed.

Lemma parse_strict_accepted ds c :
  clockless ds ->
  rejected ds c = false -> parse_strict ds c = Ok (strict_date ds c).
Proof.
  intros Hds H. pose proof (accepted_clock_free ds c Hds H) as C.
  revert H C. unfold rejected, parse_strict, strict_date, clock_word.
  destruct c as [s|]; [|reflexivity].
  destruct (Strptime.is_null_string s); [reflexivity|].
  intros H ->. now destruct (Strptime.strptime ds s).
Qed.

Lemma matches_accepted ds c : matches ds c = true -> rejected ds c = false.
Proof.
  unfold matches, rejected. destruct c as [s|]; [|reflexivity].
  destruct (Strptime.strptime ds s); [intros _|discriminate].
  apply andb_false_r.
Qed.

Lemma in_column_of j data c :
  In c (column_of j data) -> exists row, In row data /\ c = nth j row None.
Proof.
  unfold column_of. intros H. apply in_map_iff in H as [row [E Hin]].
  exists row. now split.
Qed.

Lemma clock_free_spec j data :
  clock_free j data = true
  <-> forall row, In row data -> clock_word (nth j row None) = false.
Proof.
  unfold clock_free. rewrite forallb_forall. split; intros H row Hin.
  - now apply negb_true_iff, H.
  - now apply negb_true_iff, H.
Qed.

(** A strict column without a text read from the clock raises ValueError
    when it has a rejected entry; one without a rejected entry gives the
    date of every entry. *)
Lemma strict_column_raises ds j data :
  clock_free j data = true ->
  (exists row, In row data /\ rejected ds (nth j row None) = true) ->
  traverse (parse_strict ds) (column_of j data) = Raise ValueError.
Proof.
  intros Hc [row [Hin Hr]]. apply traverse_raise.
  - intros x Hx. apply in_column_of in Hx as [row' [Hin' ->]].
    destruct (parse_strict_cases ds (nth j row' None)) as [H|[H|[C _]]];
      [now left | now right |].
    rewrite (proj1 (clock_free_spec j data) Hc row' Hin') in C.
    discriminate.
  - exists (nth j row None). split.
    + unfold column_of. apply in_map_iff. now exists row.
    + apply parse_strict_rejected; [|exact Hr].
      now apply (clock_free_spec j data).
Qed.

Lemma strict_column_reads ds j data :
  clockless ds ->
  (forall row, In row data -> rejected ds (nth j row None) = false) ->
  traverse (parse_strict ds) (column_of j data)
  = Ok (map (strict_date ds) (column_of j data)).
Proof.
  intros Hds H. apply traverse_ok. intros c Hc.
  apply in_column_of in Hc as [row [Hin ->]].
  apply parse_strict_accepted; [exact Hds | now apply H].
Qed.

(** A strict column without a text read from the clock is read or
    raises ValueError. *)
Lemma strict_column_cases ds j data :
  clock_free j data = true ->
  (exists l, traverse (parse_strict ds) (column_of j data) = Ok l)
  \/ traverse (parse_strict ds) (column_of j data) = Raise ValueError.
Proof.
  intros Hc.
  assert (H : forall c, In c (column_of j data) -> clock_word c = false).
  { intros c Hin. apply in_column_of in Hin as [row [Hin ->]].
    now apply (clock_free_spec j data). }
  induction (column_of j data) as [|c l IH]; simpl; [left; eauto|].
  destruct (parse_strict_cases ds c) as [[d Hd]|[Hd|[C _]]];
    [| rewrite Hd; now right
     | rewrite (H c (or_introl eq_refl)) in C; discriminate].
  rewrite Hd. cbn [bind].
  destruct IH as [[l' Hl]|Hl];
    [intros c' Hc'; apply H; now right | |];
    rewrite Hl; cbn [bind]; [left; eauto | now right].
Qed.

(** Rows of one length have that width. *)
Lemma width_uniform n data :
  (forall row, In row data -> List.length row = n) ->
  data = [] \/ width data = n.
Proof.
  intros H. destruct data as [|row data]; [now left|right].
  unfold width.
  assert (E : forall l : list (list (option string)),
             (forall r, In r l -> List.length r = n) ->
             list_max (map (@List.length _) l) <= n).
  { induction l as [|r l IH]; intros Hl; simpl; [lia|].
    specialize (Hl r (or_introl eq_refl)) as Hr.
    assert (list_max (map (@List.length (option string)) l) <= n)
      by (apply IH; intros; apply Hl; now right).
    lia. }
  specialize (E data (fun r Hr => H r (or_intror Hr))).
  specialize (H row (or_introl eq_refl)).
  simpl. lia.
Qed.

Lemma position_seq k n i :
  i < n -> position (k + i) (seq k n) = Some i.
Proof.
  revert k i; induction n as [|n IH]; intros k i Hi; [lia|].
  simpl. destruct i as [|i].
  - now rewrite Nat.add_0_r, Nat.eqb_refl.
  - replace (k =? k + S i) with false by (symmetry; apply Nat.eqb_neq; lia).
    replace (k + S i) with (S k + i) by lia.
    rewrite IH by lia. reflexivity.
Qed.

(** The place with label [i + 1] of a table indexed from 1 is place [i]
    of its column. *)
Lemma loc_from_1 cols n i name :
  i < n ->
  loc (mkframe cols (seq 1 n)) (S i) name
  = match lookup name cols with
    | Some c => entry_at c i
    | None => None
    end.
Proof.
  intros Hi. unfold loc. cbn [index columns].
  change (S i) with (1 + i). now rewrite position_seq.
Qed.

Lemma nth_error_column_of j data i row :
  nth_error data i = Some row ->
  nth_error (column_of j data) i = Some (nth j row None).
Proof.
  intros H. unfold column_of.
  exact (map_nth_error (fun r => nth j r None) i data H).
Qed.

Lemma nth_error_lt {A : Type} (l : list A) i x :
  nth_error l i = Some x -> i < List.length l.
Proof. intros H. apply nth_error_Some. congruence. Qed.

End Columns.

(** ** The dividend table *)

Section Dividend.

Import Pd.

Lemma well_formed_cells row :
  well_formed_dividend_row row = true ->
  exists c0 c1 c2 c3 c4 c5 c6 c7 c8,
    row = [Some c0; Some c1; Some c2; Some c3; Some c4; Some c5; Some c6;
           Some c7; Some c8]
    /\ matches dividend_format (Some c0) = true
    /\ matches dividend_format (Some c5) = true.
Proof.
  unfold well_formed_dividend_row. intros H.
  apply andb_prop in H as [H H5]. apply andb_prop in H as [H H0].
  apply andb_prop in H as [Hl Ht]. apply Nat.eqb_eq in Hl.
  do 9 (destruct row as [|? row]; [exfalso; simpl in Hl; lia|]).
  destruct row; [|exfalso; simpl in Hl; lia].
  cbn [forallb] in Ht.
  repeat match goal with
         | o : option string |- _ => destruct o; [|discriminate Ht]
         end.
  do 9 eexists. repeat split; assumption.
Qed.

Lemma well_formed_width data :
  forallb well_formed_dividend_row data = true ->
  data = [] \/ width data = 9.
Proof.
  intros H. apply width_uniform. intros row Hin.
  rewrite forallb_forall in H. specialize (H row Hin).
  apply well_formed_cells in H as (?&?&?&?&?&?&?&?&?&->&_).
  reflexivity.
Qed.

(** The table of well-formed rows. *)
Lemma dividend_frame_well_formed data :
  forallb well_formed_dividend_row data = true ->
  dividend_frame data
  = Ok (dividend_table data
          (map (strict_date dividend_format) (column_of 0 data))
          (map (strict_date dividend_format) (column_of 5 data))).
Proof.
  intros H. rewrite dividend_frame_eq by now apply well_formed_width.
  rewrite forallb_forall in H.
  rewrite !strict_column_reads;
    try reflexivity; try apply dividend_format_clockless;
    intros row Hin; specialize (H row Hin);
    apply well_formed_cells in H as (?&?&?&?&?&?&?&?&?&->&H0&H5);
    now apply matches_accepted.
Qed.

Lemma loc_stock_code data a e i row raw :
  nth_error data i = Some row -> nth 6 row None = Some raw ->
  loc (dividend_table data a e) (S i) "Stock Code"
  = Some (Text (Py.replace raw entitlement_prefix EmptyString)).
Proof.
  intros Hi Hraw. unfold dividend_table.
  rewrite loc_from_1 by now apply nth_error_lt in Hi.
  cbn [lookup String.eqb Ascii.eqb Bool.eqb entry_at].
  erewrite map_nth_error by (eapply nth_error_column_of; eassumption).
  now rewrite Hraw.
Qed.

Lemma loc_url data a e i row path :
  nth_error data i = Some row -> nth 8 row None = Some path ->
  loc (dividend_table data a e) (S i) "URL"
  = Some (Text (base_url ^^ path)).
Proof.
  intros Hi Hp. unfold dividend_table.
  rewrite loc_from_1 by now apply nth_error_lt in Hi.
  cbn [lookup String.eqb Ascii.eqb Bool.eqb entry_at].
  erewrite map_nth_error by (eapply nth_error_column_of; eassumption).
  now rewrite Hp.
Qed.

End Dividend.

(** C2, as the specification states it, fails: the row below is well
    formed, and the stock code of its record holds the prefix, which the
    replacement has put together from the two pieces around the one
    occurrence it took out. *)
Lemma C2_counterexample :
  let page := dtdata_script [folded_row] in
  exists data df,
    decoded_rows page = Some (Ok data)
    /\ forallb well_formed_dividend_row data = true
    /\ fst (get_dividend (answering (mkresponse 200 page))) = Ok (Some df)
    /\ Pd.loc df 1 "Stock Code" = Some (Pd.Text "/web/stock/entitlement/1234")
    /\ Py.contains entitlement_prefix "/web/stock/entitlement/1234" = true.
Proof.
  cbv zeta. eexists. eexists.
  split; [vm_compute; reflexivity|].
  split; [vm_compute; reflexivity|].
  split; [vm_compute; reflexivity|].
  split; reflexivity.
Qed.

(** C2, amended.  For every payload of N well-formed rows (nine texts,
    the two dates in the format), [get_dividend] returns a table of N
    rows with index 1..N; the stock code of every record is the raw field
    with the occurrences of the prefix taken out from left to right, and
    holds no occurrence of the prefix when the raw field carries it at
    most once, in front; the URL of every record starts with
    https://klse.i3investor.com/. *)
Theorem C2_dividend_table_of_well_formed_rows
        (w : world string) (r : response string)
        (rest : list (response string))
        (data : list (list (option string))) :
  pending w = r :: rest -> status_code r = 200 ->
  decoded_rows (text r) = Some (Ok data) ->
  forallb well_formed_dividend_row data = true ->
  exists df,
    fst (get_dividend w) = Ok (Some df)
    /\ Pd.len df = List.length data
    /\ Pd.index df = seq 1 (List.length data)
    /\ forall i row,
         nth_error data i = Some row ->
         exists raw path,
           nth 6 row None = Some raw
           /\ nth 8 row None = Some path
           /\ Pd.loc df (S i) "Stock Code"
              = Some (Pd.Text (Py.replace raw entitlement_prefix EmptyString))
           /\ (plain_code raw = true ->
               Py.contains entitlement_prefix
                 (Py.replace raw entitlement_prefix EmptyString) = false)
           /\ Pd.loc df (S i) "URL" = Some (Pd.Text (base_url ^^ path))
           /\ Py.startswith (base_url ^^ path) base_url = true.
Proof.
  intros Hp Hs Hd Hwf.
  rewrite (get_dividend_decoded w r rest data Hp Hs Hd). cbn [fst].
  rewrite (dividend_frame_well_formed data Hwf). cbn [bind].
  eexists. split; [reflexivity|].
  split; [unfold Pd.len, dividend_table; cbn [Pd.index]; apply length_seq|].
  split; [reflexivity|].
  intros i row Hi.
  assert (Hrow : well_formed_dividend_row row = true).
  { rewrite forallb_forall in Hwf. apply Hwf. eapply nth_error_In, Hi. }
  apply well_formed_cells in Hrow as (c0&c1&c2&c3&c4&c5&c6&c7&c8&->&_).
  exists c6, c8. split; [reflexivity|]. split; [reflexivity|].
  split; [now apply (loc_stock_code data _ _ i _ c6 Hi)|].
  split; [apply replace_plain_code|].
  split; [now apply (loc_url data _ _ i _ c8 Hi)|].
  apply startswith_append.
Qed.

Lemma C2_dividend_table_witness :
  exists df,
    fst (get_dividend (answering (mkresponse 200 abc_page))) = Ok (Some df)
    /\ Pd.len df = 1
    /\ Pd.index df = seq 1 1
    /\ forall i row,
         nth_error [map Some abc_row] i = Some row ->
         exists raw path,
           nth 6 row None = Some raw
           /\ nth 8 row None = Some path
           /\ Pd.loc df (S i) "Stock Code"
              = Some (Pd.Text (Py.replace raw entitlement_prefix EmptyString))
           /\ (plain_code raw = true ->
               Py.contains entitlement_prefix
                 (Py.replace raw entitlement_prefix EmptyString) = false)
           /\ Pd.loc df (S i) "URL" = Some (Pd.Text (base_url ^^ path))
           /\ Py.startswith (base_url ^^ path) base_url = true.
Proof.
  apply (C2_dividend_table_of_well_formed_rows
           (answering (mkresponse 200 abc_page)) (mkresponse 200 abc_page) []
           [map Some abc_row]).
  - reflexivity.
  - reflexivity.
  - vm_compute. reflexivity.
  - vm_compute. reflexivity.
Defined.

(** C3, as the specification states it, fails: the second row of the
    payload below has seven cells, and [get_dividend] returns a table in
    which its record is filled up with missing values. *)
Lemma C3_counterexample :
  let page := dtdata_script [abc_row; short_row] in
  exists data df,
    decoded_rows page = Some (Ok data)
    /\ map (@List.length _) data = [9; 7]
    /\ fst (get_dividend (answering (mkresponse 200 page))) = Ok (Some df)
    /\ Pd.len df = 2
    /\ Pd.loc df 2 "Stock Code" = Some (Pd.Text "5678")
    /\ Pd.loc df 2 "URL" = Some Pd.NA.
Proof.
  cbv zeta. eexists. eexists.
  split; [vm_compute; reflexivity|].
  split; [reflexivity|].
  split; [vm_compute; reflexivity|].
  repeat split; reflexivity.
Qed.

(** C3, amended.  When the longest row of the payload has a cell count
    other than that of the schema (9 for the dividend payload, 10 for
    the IPO table), the function raises ValueError while the table is
    built and returns no record; a longer row is never cut. *)
Theorem C3_width_mismatch_raises
        (lenient : Pd.reader)
        (wd : world string) (rd : response string)
        (restd : list (response string))
        (data : list (list (option string)))
        (wi : world Soup.node) (ri : response Soup.node)
        (resti : list (response Soup.node))
        (rows : list (list (option string))) :
  pending wd = rd :: restd -> status_code rd = 200 ->
  decoded_rows (text rd) = Some (Ok data) ->
  data <> [] -> Pd.width data <> 9 ->
  pending wi = ri :: resti -> status_code ri = 200 ->
  ipo_rows (text ri) = Ok rows ->
  rows <> [] -> Pd.width rows <> 10 ->
  fst (get_dividend wd) = Raise ValueError
  /\ fst (get_ipo lenient wi) = Raise ValueError.
Proof.
  intros Hpd Hsd Hd Hne Hw Hpi Hsi Hr Hne' Hw'. split.
  - rewrite (get_dividend_decoded wd rd restd data Hpd Hsd Hd). cbn [fst].
    now rewrite dividend_frame_mismatch.
  - rewrite (get_ipo_200 lenient wi ri resti Hpi Hsi). cbn [fst].
    rewrite Hr. cbn [bind]. now rewrite ipo_frame_mismatch.
Qed.

Lemma C3_width_mismatch_witness :
  fst (get_dividend
         (answering (mkresponse 200 (dtdata_script [short_row]))))
  = Raise ValueError
  /\ fst (get_ipo no_dates
            (answering (mkresponse 200 (ipo_page ipo_header [nine_cell_row]))))
     = Raise ValueError.
Proof.
  apply (C3_width_mismatch_raises no_dates
           (answering (mkresponse 200 (dtdata_script [short_row])))
           (mkresponse 200 (dtdata_script [short_row])) []
           [map Some short_row]
           (answering (mkresponse 200 (ipo_page ipo_header [nine_cell_row])))
           (mkresponse 200 (ipo_page ipo_header [nine_cell_row])) []
           [map Some (firstn 9 acme_cells)]).
  - reflexivity.
  - reflexivity.
  - vm_compute. reflexivity.
  - discriminate.
  - vm_compute. discriminate.
  - reflexivity.
  - reflexivity.
  - vm_compute. reflexivity.
  - discriminate.
  - vm_compute. discriminate.
Defined.

(** ** The strict date columns *)

Section Strict.

Import Pd.

Variable lenient : Pd.reader.

Lemma dividend_frame_rejected data :
  clock_free 0 data = true -> clock_free 5 data = true ->
  (exists row, In row data
               /\ (rejected dividend_format (nth 0 row None) = true
                   \/ rejected dividend_format (nth 5 row None) = true)) ->
  dividend_frame data = Raise ValueError.
Proof.
  intros C0 C5 [row [Hin Hrej]].
  assert (Hne : data <> []) by (intros ->; destruct Hin).
  destruct (Nat.eq_dec (width data) 9) as [Hw|Hw];
    [|now apply dividend_frame_mismatch].
  rewrite dividend_frame_eq by now right.
  destruct (strict_column_cases dividend_format 0 data C0) as [[a Ha]|Ha];
    rewrite Ha; [|reflexivity].
  cbn [bind]. destruct Hrej as [H0|H5].
  - rewrite strict_column_raises in Ha by (assumption || (exists row; now split)).
    discriminate Ha.
  - rewrite strict_column_raises by (assumption || (exists row; now split)).
    reflexivity.
Qed.

(** A rejected text in Application Opened is fatal at line 76, one in
    Date of Listing at line 79, unless line 78 has failed before. *)
Lemma ipo_frame_opened_rejected rows :
  clock_free 1 rows = true ->
  (exists row, In row rows /\ rejected ipo_format (nth 1 row None) = true) ->
  ipo_frame lenient rows = Raise ValueError.
Proof.
  intros C1 [row [Hin Hrej]].
  assert (Hne : rows <> []) by (intros ->; destruct Hin).
  destruct (Nat.eq_dec (width rows) 10) as [Hw|Hw];
    [|now apply ipo_frame_mismatch].
  rewrite ipo_frame_eq by now right.
  rewrite strict_column_raises by (assumption || (exists row; now split)).
  reflexivity.
Qed.

Lemma ipo_frame_listing_rejected rows :
  clock_free 1 rows = true -> clock_free 9 rows = true ->
  (exists row, In row rows /\ rejected ipo_format (nth 9 row None) = true) ->
  raises (ipo_frame lenient rows) = true
  /\ (one_offset (closed_stamps lenient rows) = true ->
      ipo_frame lenient rows = Raise ValueError).
Proof.
  intros C1 C9 [row [Hin Hrej]].
  assert (Hne : rows <> []) by (intros ->; destruct Hin).
  destruct (Nat.eq_dec (width rows) 10) as [Hw|Hw];
    [rewrite ipo_frame_eq by now right
    |rewrite ipo_frame_mismatch by assumption; now split].
  destruct (strict_column_cases ipo_format 1 rows C1) as [[a Ha]|Ha];
    rewrite Ha; [|now split].
  cbn [bind].
  rewrite strict_column_raises by (assumption || (exists row; now split)).
  cbn [bind]. destruct (one_offset (closed_stamps lenient rows));
    split; try reflexivity. discriminate.
Qed.

End Strict.

(** C8, as the specification states it, fails: the empty text does not
    match the format of the IPO dates, and [get_ipo] returns the table
    all the same, the listing date of the record missing. *)
Lemma C8_counterexample :
  let page := ipo_page ipo_header [unlisted_row] in
  exists rows df,
    ipo_rows page = Ok rows
    /\ column_of 9 rows = [Some EmptyString]
    /\ Strptime.strptime ipo_format EmptyString = None
    /\ fst (get_ipo no_dates (answering (mkresponse 200 page))) = Ok (Some df)
    /\ Pd.len df = 1
    /\ Pd.loc df 1 "Date of Listing" = Some Pd.NA.
Proof.
  cbv zeta. eexists. eexists.
  split; [vm_compute; reflexivity|].
  split; [reflexivity|].
  split; [reflexivity|].
  split; [vm_compute; reflexivity|].
  split; reflexivity.
Qed.

(** C8, amended.  The dividend dates are read under day, abbreviated
    month and four-digit year joined by hyphens, the IPO dates
    Application Opened and Date of Listing under the same three fields
    parted by blanks.  When some row holds, in one of these fields, a text
    that is neither empty nor one of the markers NaT and nan and that
    does not match the format, and no row holds there one of the texts
    now and today, which are read from the clock, the function raises
    and returns no table: the whole batch is lost, not the row.  The
    exception is ValueError, raised where the column is read; for Date of
    Listing this takes that the line before, on Application Closed, has
    not failed, its timestamps sharing one offset. *)
Theorem C8_strict_dates_are_fatal
        (lenient : Pd.reader)
        (wd : world string) (rd : response string)
        (restd : list (response string))
        (data : list (list (option string)))
        (wi : world Soup.node) (ri : response Soup.node)
        (resti : list (response Soup.node))
        (rows : list (list (option string))) :
  pending wd = rd :: restd -> status_code rd = 200 ->
  decoded_rows (text rd) = Some (Ok data) ->
  clock_free 0 data = true -> clock_free 5 data = true ->
  (exists row, In row data
               /\ (rejected dividend_format (nth 0 row None) = true
                   \/ rejected dividend_format (nth 5 row None) = true)) ->
  pending wi = ri :: resti -> status_code ri = 200 ->
  ipo_rows (text ri) = Ok rows ->
  clock_free 1 rows = true -> clock_free 9 rows = true ->
  (exists row, In row rows
               /\ (rejected ipo_format (nth 1 row None) = true
                   \/ rejected ipo_format (nth 9 row None) = true)) ->
  Strptime.compile "%d-%b-%Y" = Some dividend_format
  /\ Strptime.compile "%d %b %Y" = Some ipo_format
  /\ fst (get_dividend wd) = Raise ValueError
  /\ raises (fst (get_ipo lenient wi)) = true
  /\ ((exists row, In row rows
                   /\ rejected ipo_format (nth 1 row None) = true)
      \/ Pd.one_offset (closed_stamps lenient rows) = true ->
      fst (get_ipo lenient wi) = Raise ValueError).
Proof.
  intros Hpd Hsd Hd Cd0 Cd5 Hrd Hpi Hsi Hr Ci1 Ci9 Hri.
  split; [reflexivity|]. split; [reflexivity|]. split.
  - rewrite (get_dividend_decoded wd rd restd data Hpd Hsd Hd). cbn [fst].
    now rewrite dividend_frame_rejected.
  - rewrite (get_ipo_200 lenient wi ri resti Hpi Hsi). cbn [fst].
    rewrite Hr. cbn [bind].
    destruct Hri as [row [Hin [H1|H9]]].
    + rewrite ipo_frame_opened_rejected
        by (assumption || (exists row; now split)).
      split; [reflexivity | intros _; reflexivity].
    + destruct (ipo_frame_listing_rejected lenient rows Ci1 Ci9)
        as [Hraise Hvalue]; [exists row; now split|].
      split.
      * destruct (ipo_frame lenient rows); try discriminate. reflexivity.
      * intros [Hopened|Hone].
        -- now rewrite ipo_frame_opened_rejected.
        -- now rewrite (Hvalue Hone).
Qed.

Lemma C8_strict_dates_witness :
  Strptime.compile "%d-%b-%Y" = Some dividend_format
  /\ Strptime.compile "%d %b %Y" = Some ipo_format
  /\ fst (get_dividend
            (answering (mkresponse 200 (dtdata_script [abc_row; misdated_row]))))
     = Raise ValueError
  /\ fst (get_ipo no_dates
            (answering
               (mkresponse 200 (ipo_page ipo_header [acme_row; iso_dated_row]))))
     = Raise ValueError.
Proof.
  destruct (C8_strict_dates_are_fatal no_dates
           (answering (mkresponse 200 (dtdata_script [abc_row; misdated_row])))
           (mkresponse 200 (dtdata_script [abc_row; misdated_row])) []
           [map Some abc_row; map Some misdated_row]
           (answering
              (mkresponse 200 (ipo_page ipo_header [acme_row; iso_dated_row])))
           (mkresponse 200 (ipo_page ipo_header [acme_row; iso_dated_row])) []
           [map Some acme_cells;
            map Some ["ACME Bhd"; "2024-01-02"; "-"; "RM1.00"; "10,000"; "-";
                      "-"; "Issue House Sdn Bhd"; "Main Market";
                      "15 Feb 2024"]])
    as (Hd & Hi & Hdiv & _ & Hipo).
  - reflexivity.
  - reflexivity.
  - vm_compute. reflexivity.
  - reflexivity.
  - reflexivity.
  - exists (map Some misdated_row). split.
    + right. left. reflexivity.
    + left. vm_compute. reflexivity.
  - reflexivity.
  - reflexivity.
  - vm_compute. reflexivity.
  - reflexivity.
  - reflexivity.
  - eexists. split.
    + right. left. reflexivity.
    + left. vm_compute. reflexivity.
  - split; [exact Hd|]. split; [exact Hi|]. split; [exact Hdiv|].
    apply Hipo. right. reflexivity.
Defined.

(** ** The lenient date column *)

Section Lenient.

Import Pd.

Variable lenient : Pd.reader.

Lemma nth_error_closed_column rows i row :
  nth_error rows i = Some row ->
  nth_error (closed_column rows) i
  = Some (match nth 2 row None with
          | Some s => if String.eqb s "-" then None else Some s
          | None => None
          end).
Proof.
  intros H. unfold closed_column.
  exact (map_nth_error _ i _ (nth_error_column_of 2 rows i row H)).
Qed.

Lemma nth_error_closed_stamps rows i row :
  nth_error rows i = Some row ->
  nth_error (closed_stamps lenient rows) i
  = Some (match nth 2 row None with
          | Some s => if String.eqb s "-" then None
                      else lenient (closed_column rows) s
          | None => None
          end).
Proof.
  intros H. unfold closed_stamps.
  erewrite map_nth_error by (apply nth_error_closed_column; eassumption).
  f_equal. destruct (nth 2 row None) as [s|]; [|reflexivity].
  now destruct (String.eqb s "-").
Qed.

(** What the Application Closed column shows for row [i]. *)
Lemma loc_application_closed rows o l i row :
  nth_error rows i = Some row ->
  loc (ipo_table lenient rows o l) (S i) "Application Closed"
  = Some (match nth 2 row None with
          | Some s =>
              if String.eqb s "-" then NA
              else match lenient (closed_column rows) s with
                   | Some t => Date (stamp_date t)
                   | None => NA
                   end
          | None => NA
          end).
Proof.
  intros Hi. unfold ipo_table.
  rewrite loc_from_1 by now apply nth_error_lt in Hi.
  cbn [lookup String.eqb Ascii.eqb Bool.eqb entry_at].
  erewrite map_nth_error by (apply nth_error_closed_stamps; eassumption).
  cbn [option_map]. destruct (nth 2 row None) as [s|]; [|reflexivity].
  destruct (String.eqb s "-"); [reflexivity|].
  now destruct (lenient (closed_column rows) s).
Qed.

(** Timestamps of two offsets make [.dt.date] fail, once Application
    Opened is read. *)
Lemma ipo_frame_two_offsets rows :
  (forall row, In row rows ->
               List.length row = 10
               /\ rejected ipo_format (nth 1 row None) = false) ->
  one_offset (closed_stamps lenient rows) = false ->
  ipo_frame lenient rows
  = Raise (AttributeError
             "Can only use .dt accessor with datetimelike values").
Proof.
  intros H Hone. rewrite ipo_frame_eq.
  - rewrite strict_column_reads;
      try apply ipo_format_clockless;
      try (intros row Hin; now apply H).
    cbn [bind]. now rewrite Hone.
  - apply width_uniform. intros row Hin. now apply H.
Qed.

Lemma same_offset_sym a b : same_offset a b = same_offset b a.
Proof.
  destruct a, b; cbn; try reflexivity. apply Z.eqb_sym.
Qed.

Lemma same_offset_trans a b c :
  same_offset a b = true -> same_offset b c = true -> same_offset a c = true.
Proof.
  destruct a, b, c; cbn; try discriminate; try reflexivity.
  intros H1 H2. apply Z.eqb_eq in H1, H2. apply Z.eqb_eq. congruence.
Qed.

Lemma in_offsets (l : list (option stamp)) t :
  In (Some t) l -> In (stamp_offset t) (offsets l).
Proof.
  intros H. unfold offsets. apply in_flat_map.
  exists (Some t). split; [exact H | now left].
Qed.

(** Two timestamps of different offsets in a column: the offsets are not
    one. *)
Lemma two_offsets (l : list (option stamp)) t1 t2 :
  In (Some t1) l -> In (Some t2) l ->
  same_offset (stamp_offset t1) (stamp_offset t2) = false ->
  one_offset l = false.
Proof.
  intros H1 H2 Hd. apply in_offsets in H1, H2.
  unfold one_offset. destruct (offsets l) as [|o os]; [destruct H1|].
  destruct (forallb (same_offset o) os) eqn:F; [|reflexivity].
  rewrite forallb_forall in F.
  assert (E : forall x, In x (o :: os) -> same_offset o x = true).
  { intros x [<-|Hx]; [|now apply F].
    destruct o; cbn; [apply Z.eqb_refl | reflexivity]. }
  pose proof (E _ H1) as E1. pose proof (E _ H2) as E2.
  rewrite same_offset_sym in E1.
  now rewrite (same_offset_trans _ _ _ E1 E2) in Hd.
Qed.

Lemma in_closed_stamps rows row s t :
  In row rows -> nth 2 row None = Some s -> s <> "-" ->
  lenient (closed_column rows) s = Some t ->
  In (Some t) (closed_stamps lenient rows).
Proof.
  intros Hin Hs Hne Ht. apply In_nth_error in Hin as [i Hi].
  apply nth_error_closed_stamps in Hi. rewrite Hs in Hi.
  apply String.eqb_neq in Hne. rewrite Hne, Ht in Hi.
  eapply nth_error_In, Hi.
Qed.

End Lenient.

(** C4.  The run of [get_ipo] can fail on the Application Closed cells.
    On a payload whose rows have ten cells and whose Application Opened
    dates are read, when the reader of dates finds in two Application
    Closed cells timestamps of different offsets from UTC, or one with an
    offset and one without, [to_datetime] returns a column of objects and
    [.dt.date] raises AttributeError: no batch is returned, whatever the
    other cells hold, the placeholder "-" among them. *)
Theorem C4_application_closed_can_fail
        (lenient : Pd.reader)
        (w : world Soup.node) (r : response Soup.node)
        (rest : list (response Soup.node))
        (rows : list (list (option string)))
        (row1 row2 : list (option string)) (s1 s2 : string)
        (t1 t2 : Pd.stamp) :
  pending w = r :: rest -> status_code r = 200 ->
  ipo_rows (text r) = Ok rows ->
  (forall row, In row rows ->
               List.length row = 10
               /\ rejected ipo_format (nth 1 row None) = false) ->
  In row1 rows -> nth 2 row1 None = Some s1 -> s1 <> "-" ->
  lenient (closed_column rows) s1 = Some t1 ->
  In row2 rows -> nth 2 row2 None = Some s2 -> s2 <> "-" ->
  lenient (closed_column rows) s2 = Some t2 ->
  Pd.same_offset (Pd.stamp_offset t1) (Pd.stamp_offset t2) = false ->
  fst (get_ipo lenient w)
  = Raise (AttributeError
             "Can only use .dt accessor with datetimelike values").
Proof.
  intros Hp Hs Hr Hrows Hin1 Hc1 Hn1 Ht1 Hin2 Hc2 Hn2 Ht2 Hd.
  rewrite (get_ipo_200 lenient w r rest Hp Hs). cbn [fst].
  rewrite Hr. cbn [bind].
  rewrite (ipo_frame_two_offsets lenient rows Hrows); [reflexivity|].
  apply (two_offsets _ t1 t2); [| |exact Hd].
  - now apply (in_closed_stamps lenient rows row1 s1).
  - now apply (in_closed_stamps lenient rows row2 s2).
Qed.

Lemma C4_application_closed_witness :
  let page := ipo_page ipo_header [acme_row; east_row; west_row] in
  exists rows,
    ipo_rows page = Ok rows
    /\ column_of 2 rows
       = [Some "-"; Some "2024-01-09T17:00:00+08:00";
          Some "2024-01-10T17:00:00+00:00"]
    /\ fst (get_ipo zoned_dates (answering (mkresponse 200 page)))
       = Raise (AttributeError
                  "Can only use .dt accessor with datetimelike values").
Proof.
  cbv zeta. eexists.
  split; [vm_compute; reflexivity|]. split; [reflexivity|].
  eapply (C4_application_closed_can_fail zoned_dates
            (answering
               (mkresponse 200 (ipo_page ipo_header [acme_row; east_row; west_row])))
            (mkresponse 200 (ipo_page ipo_header [acme_row; east_row; west_row]))
            [] _
            _ _ "2024-01-09T17:00:00+08:00" "2024-01-10T17:00:00+00:00"
            _ _ eq_refl eq_refl).
  - vm_compute. reflexivity.
  - intros row [<-|[<-|[<-|[]]]]; split; vm_compute; reflexivity.
  - right. left. reflexivity.
  - reflexivity.
  - discriminate.
  - vm_compute. reflexivity.
  - right. right. left. reflexivity.
  - reflexivity.
  - discriminate.
  - vm_compute. reflexivity.
  - reflexivity.
Defined.

(** C9.  The rewrite of the stock code takes out every occurrence of
    /web/stock/entitlement/ in the raw field, wherever it stands, not
    only a leading one: when the raw field of a row is made of texts with
    the prefix between each two of them, these occurrences being the
    only ones, the stock code of the record is the texts joined.  The raw
    field /web/stock/entitlement/12/web/stock/entitlement/34, made of the
    empty text, 12 and 34, comes out as 1234. *)
Theorem C9_prefix_removed_everywhere
        (w : world string) (r : response string)
        (rest : list (response string))
        (data : list (list (option string)))
        (i : nat) (row : list (option string)) (us : list string) :
  pending w = r :: rest -> status_code r = 200 ->
  decoded_rows (text r) = Some (Ok data) ->
  forallb well_formed_dividend_row data = true ->
  nth_error data i = Some row ->
  nth 6 row None = Some (prefix_between us) ->
  separated us = true ->
  exists df,
    fst (get_dividend w) = Ok (Some df)
    /\ Pd.loc df (S i) "Stock Code" = Some (Pd.Text (Py.join us)).
Proof.
  intros Hp Hs Hd Hwf Hi Hraw Hsep.
  rewrite (get_dividend_decoded w r rest data Hp Hs Hd). cbn [fst].
  rewrite (dividend_frame_well_formed data Hwf). cbn [bind].
  eexists. split; [reflexivity|].
  rewrite (loc_stock_code data _ _ i row _ Hi Hraw).
  now rewrite replace_prefix_between.
Qed.

Lemma C9_prefix_removed_witness :
  prefix_between [EmptyString; "12"; "34"]
  = "/web/stock/entitlement/12/web/stock/entitlement/34"
  /\ exists df,
       fst (get_dividend
              (answering
                 (mkresponse 200 (dtdata_script [twice_prefixed_row]))))
       = Ok (Some df)
       /\ Pd.loc df 1 "Stock Code" = Some (Pd.Text "1234").
Proof.
  split; [reflexivity|].
  apply (C9_prefix_removed_everywhere
           (answering (mkresponse 200 (dtdata_script [twice_prefixed_row])))
           (mkresponse 200 (dtdata_script [twice_prefixed_row])) []
           [map Some twice_prefixed_row] 0 (map Some twice_prefixed_row)
           [EmptyString; "12"; "34"]).
  - reflexivity.
  - reflexivity.
  - vm_compute. reflexivity.
  - vm_compute. reflexivity.
  - reflexivity.
  - reflexivity.
  - vm_compute. reflexivity.
Defined.

(** ** Header cells *)

Section Headers.

Import Soup.

Lemma node_induction (P : node -> Prop) :
  (forall s, P (Text s)) ->
  (forall nm ks, Forall P ks -> P (Tag nm ks)) ->
  forall n, P n.
Proof.
  intros Ht HT. fix IH 1. intros [s|nm ks].
  - apply Ht.
  - apply HT. induction ks as [|k ks IHks]; constructor;
      [apply IH | exact IHks].
Qed.

Lemma below_app ks1 ks2 : below (ks1 ++ ks2) = below ks1 ++ below ks2.
Proof. unfold below. apply flat_map_app. Qed.

Lemma descendants_tag nm ks : descendants (Tag nm ks) = below ks.
Proof. reflexivity. Qed.

Lemma without_th_text_tag b nm ks :
  without_th_text b (Tag nm ks)
  = [Tag nm (flat_map (without_th_text (b || String.eqb nm "th")) ks)].
Proof. reflexivity. Qed.

Lemma cells_apart_tag b c nm ks :
  cells_apart b c (Tag nm ks) = true ->
  forallb (cells_apart (b || String.eqb nm "th") (c || String.eqb nm "td")) ks
  = true.
Proof.
  cbn [cells_apart]. intros H. now apply andb_prop in H as [_ H].
Qed.

Variable name : string.

(** The tags called [name] at and below a node, before and after the
    header text is taken out, are images of one another, in order. *)
Lemma tags_image_node :
  forall k b c,
    cells_apart b c k = true ->
    Forall2 image (filter (is_tag name) (k :: descendants k))
            (filter (is_tag name) (below (without_th_text b k))).
Proof.
  induction k as [s|nm ks IH] using node_induction; intros b c Hk.
  - cbn [without_th_text]. destruct b; constructor.
  - rewrite without_th_text_tag.
    set (b' := b || String.eqb nm "th") in *.
    assert (Hks : Forall2 image (filter (is_tag name) (below ks))
                    (filter (is_tag name)
                            (below (flat_map (without_th_text b') ks)))).
    { apply cells_apart_tag in Hk. fold b' in Hk.
      revert Hk. generalize (c || String.eqb nm "td") as c'. intros c'.
      induction IH as [|k ks Hk' _ IHks]; intros Hall; [constructor|].
      cbn [forallb] in Hall. apply andb_prop in Hall as [Hk1 Hks1].
      cbn [flat_map]. rewrite below_app.
      change (below (k :: ks)) with ((k :: descendants k) ++ below ks).
      rewrite !filter_app. apply Forall2_app.
      - now apply (Hk' b' c').
      - now apply IHks. }
    change (below [Tag nm (flat_map (without_th_text b') ks)])
      with (Tag nm (flat_map (without_th_text b') ks)
            :: below (flat_map (without_th_text b') ks) ++ []).
    rewrite app_nil_r, descendants_tag.
    cbn [filter is_tag].
    destruct (String.eqb nm name); [constructor|]; try exact Hks.
    exists b, c. split; [apply without_th_text_tag | exact Hk].
Qed.

(** [find_all] on a node and on its image. *)
Lemma find_all_image t t' :
  image t t' -> Forall2 image (find_all name t) (find_all name t').
Proof.
  intros [b [c [He Hc]]].
  pose proof (tags_image_node t b c Hc) as H.
  rewrite He in H.
  destruct t as [s|nm ks].
  - cbn [without_th_text] in He. destruct b; [discriminate|].
    injection He as <-. constructor.
  - rewrite without_th_text_tag in He. injection He as <-.
    unfold find_all. rewrite !descendants_tag.
    change (below [Tag nm (flat_map (without_th_text (b || String.eqb nm "th")) ks)])
      with (Tag nm (flat_map (without_th_text (b || String.eqb nm "th")) ks)
            :: below (flat_map (without_th_text (b || String.eqb nm "th")) ks) ++ [])
      in H.
    rewrite app_nil_r, descendants_tag in H.
    cbn [filter is_tag] in H.
    destruct (String.eqb nm name); [now inversion H | exact H].
Qed.


(** Inside a data cell that holds no header cell nothing is taken out. *)
Lemma without_th_text_in_td :
  forall n, cells_apart false true n = true -> without_th_text false n = [n].
Proof.
  induction n as [s|nm ks IH] using node_induction; intros H;
    [reflexivity|].
  rewrite without_th_text_tag.
  pose proof (cells_apart_tag _ _ _ _ H) as Hks.
  cbn [cells_apart] in H.
  apply andb_prop in H as [H _]. apply andb_prop in H as [_ Hth].
  rewrite andb_true_r in Hth. apply negb_true_iff in Hth.
  rewrite Hth in *. cbn [orb] in *.
  do 2 f_equal.
  induction IH as [|k ks Hk _ IHks]; [reflexivity|].
  cbn [forallb] in Hks. apply andb_prop in Hks as [Hk1 Hks1].
  cbn [flat_map]. rewrite (Hk Hk1), (IHks Hks1). reflexivity.
Qed.

(** A data cell is its own image. *)
Lemma td_image t t' :
  image t t' -> is_tag "td" t = true -> t' = t.
Proof.
  intros [b [c [He Hc]]] Htd.
  destruct t as [s|nm ks]; [discriminate|].
  cbn [is_tag] in Htd. apply String.eqb_eq in Htd. subst nm.
  pose proof (cells_apart_tag _ _ _ _ Hc) as Hks.
  cbn [cells_apart] in Hc.
  apply andb_prop in Hc as [Hc _]. apply andb_prop in Hc as [Hb _].
  destruct b; [discriminate|].
  change (false || String.eqb "td" "th") with false in Hks.
  change (c || String.eqb "td" "td") with (c || true) in Hks.
  rewrite orb_true_r in Hks.
  assert (E : without_th_text false (Tag "td" ks) = [Tag "td" ks]).
  { apply without_th_text_in_td. cbn [cells_apart].
    change (false || String.eqb "td" "th") with false.
    change (true || String.eqb "td" "td") with true.
    now rewrite Hks. }
  congruence.
Qed.

Lemma cells_image l l' :
  Forall2 image l l' -> Forall (fun t => is_tag "td" t = true) l -> l' = l.
Proof.
  induction 1 as [|t t' l l' Ht _ IH]; intros Hall; [reflexivity|].
  inversion Hall; subst. f_equal; [now apply td_image | now apply IH].
Qed.

Lemma find_all_tagged nm t :
  Forall (fun k => is_tag nm k = true) (find_all nm t).
Proof.
  unfold find_all. apply Forall_forall. intros k Hk.
  now apply filter_In in Hk.
Qed.

End Headers.

Section HeaderIndependence.

Import Soup.

(** The rows read from a page are those read from its image. *)
Lemma ipo_rows_image d d' : image d d' -> ipo_rows d = ipo_rows d'.
Proof.
  intros Hd. unfold ipo_rows, find.
  pose proof (find_all_image "table" d d' Hd) as Ht.
  destruct Ht as [|table table' ? ? Htable _]; [reflexivity|].
  cbn [hd_error].
  pose proof (find_all_image "tbody" table table' Htable) as Hb.
  destruct Hb as [|tbody tbody' ? ? Htbody _]; [reflexivity|].
  cbn [hd_error]. f_equal.
  pose proof (find_all_image "tr" tbody tbody' Htbody) as Hr.
  induction Hr as [|tr tr' trs trs' Htr _ IH]; [reflexivity|].
  cbn [map]. f_equal; [|exact IH].
  f_equal. symmetry. apply cells_image.
  - now apply find_all_image.
  - apply find_all_tagged.
Qed.

Lemma image_of_page d :
  cells_apart false false d = true ->
  exists d', without_th_text false d = [d'] /\ image d d'.
Proof.
  intros H. destruct d as [s|nm ks].
  - exists (Text s). split; [reflexivity|]. now exists false, false.
  - eexists. split; [apply without_th_text_tag|].
    exists false, false. split; [apply without_th_text_tag | exact H].
Qed.

Lemma ipo_rows_same_outside_th d1 d2 :
  same_outside_th d1 d2 ->
  cells_apart false false d1 = true -> cells_apart false false d2 = true ->
  ipo_rows d1 = ipo_rows d2.
Proof.
  intros Hsame H1 H2.
  destruct (image_of_page d1 H1) as [e1 [E1 I1]].
  destruct (image_of_page d2 H2) as [e2 [E2 I2]].
  unfold same_outside_th in Hsame. rewrite E1, E2 in Hsame.
  injection Hsame as ->.
  rewrite (ipo_rows_image d1 e2 I1). symmetry. now apply ipo_rows_image.
Qed.

End HeaderIndependence.

(** C10, as it is stated, fails: the two pages below differ only in the
    text of a header cell, and the tables differ, for the header cell
    stands inside a data cell and its text is part of the text of that
    cell. *)
Lemma C10_counterexample :
  let d1 := headed_page "A" in
  let d2 := headed_page "B" in
  same_outside_th d1 d2
  /\ exists df1 df2,
       fst (get_ipo no_dates (answering (mkresponse 200 d1))) = Ok (Some df1)
       /\ fst (get_ipo no_dates (answering (mkresponse 200 d2))) = Ok (Some df2)
       /\ Pd.loc df1 1 "Name of Company" = Some (Pd.Text "ACMEA")
       /\ Pd.loc df2 1 "Name of Company" = Some (Pd.Text "ACMEB")
       /\ df1 <> df2.
Proof.
  cbv zeta. split; [reflexivity|].
  eexists. eexists.
  split; [vm_compute; reflexivity|].
  split; [vm_compute; reflexivity|].
  split; [reflexivity|]. split; [reflexivity|].
  intros H. discriminate H.
Qed.

(** C10, amended.  For any two IPO pages that differ only in the text
    below their [th] elements and in which no [th] stands inside a [td]
    nor a [td] inside a [th], the runs of [get_ipo] are equal: the same
    table, or the same error, the same output, whatever the status of
    the response.  The header texts are collected and never used. *)
Theorem C10_header_text_is_unused
        (lenient : Pd.reader)
        (status : nat) (d1 d2 : Soup.node)
        (rest : list (response Soup.node)) (log : list request)
        (out : string) :
  same_outside_th d1 d2 ->
  cells_apart false false d1 = true ->
  cells_apart false false d2 = true ->
  get_ipo lenient (mkworld (mkresponse status d1 :: rest) log out)
  = get_ipo lenient (mkworld (mkresponse status d2 :: rest) log out).
Proof.
  intros Hsame H1 H2.
  unfold get_ipo, requests_get. cbn [pending sent stdout status_code text].
  destruct (status =? 200); [|reflexivity].
  now rewrite (ipo_rows_same_outside_th d1 d2 Hsame H1 H2).
Qed.

Lemma C10_header_text_witness :
  get_ipo no_dates
    (mkworld [mkresponse 200 (ipo_page ipo_header [acme_row])] [] EmptyString)
  = get_ipo no_dates
      (mkworld [mkresponse 200 (ipo_page retitled_header [acme_row])] []
               EmptyString).
Proof.
  apply (C10_header_text_is_unused no_dates 200
           (ipo_page ipo_header [acme_row])
           (ipo_page retitled_header [acme_row]) [] [] EmptyString).
  - vm_compute. reflexivity.
  - vm_compute. reflexivity.
  - vm_compute. reflexivity.
Defined.

(** * Further properties of the two functions *)

(** ** Requests and console *)

Section Effects.

Variable lenient : Pd.reader.

Lemma requests_get_effect {B : Type} url (w : world B) :
  snd (requests_get url [("User-Agent", user_agent)] w) = requested url w.
Proof.
  unfold requests_get, requested. now destruct (pending w).
Qed.

Lemma get_dividend_world (w : world string) :
  snd (get_dividend w) = requested dividend_url w
  \/ snd (get_dividend w)
     = print ["No match found."] (requested dividend_url w)
  \/ exists r rest,
       pending w = r :: rest
       /\ snd (get_dividend w)
          = print ["Failed to access the website. Status code:";
                   Py.str_of_nat (status_code r)]
                  (requested dividend_url w).
Proof.
  unfold get_dividend. fold dividend_url.
  pose proof (requests_get_effect dividend_url w) as E.
  destruct (requests_get dividend_url [("User-Agent", user_agent)] w)
    as [[r| |] w'] eqn:G; cbn [snd] in E; subst w'; try (now left).
  unfold requests_get in G. destruct (pending w) as [|r0 rest] eqn:P;
    [discriminate|]. injection G as <- _.
  destruct (status_code r0 =? 200).
  - cbv zeta. destruct (Re.search dtdata_pattern (text r0));
      [now left | right; now left].
  - right. right. now exists r0, rest.
Qed.

Lemma get_ipo_world (w : world Soup.node) :
  snd (get_ipo lenient w) = requested ipo_url w
  \/ exists r rest,
       pending w = r :: rest
       /\ snd (get_ipo lenient w)
          = print ["Failed to access the website. Status code:";
                   Py.str_of_nat (status_code r)]
                  (requested ipo_url w).
Proof.
  unfold get_ipo. fold ipo_url.
  pose proof (requests_get_effect ipo_url w) as E.
  destruct (requests_get ipo_url [("User-Agent", user_agent)] w)
    as [[r| |] w'] eqn:G; cbn [snd] in E; subst w'; try (now left).
  unfold requests_get in G. destruct (pending w) as [|r0 rest] eqn:P;
    [discriminate|]. injection G as <- _.
  destruct (status_code r0 =? 200); [now left|].
  right. now exists r0, rest.
Qed.

End Effects.

(** X1.  Whatever the network answers and however the run ends (a
    table, [None], an exception, no answer at all), a call of
    [get_dividend] or of [get_ipo] sends exactly one request, to the
    fixed address of the function and with the User-Agent header, and
    takes at most the one response that answers it. *)
Theorem X1_one_request_per_call
        (lenient : Pd.reader)
        (wd : world string) (wi : world Soup.node) :
  (sent (snd (get_dividend wd))
   = sent wd ++ [mkrequest dividend_url [("User-Agent", user_agent)]]
   /\ pending (snd (get_dividend wd)) = tl (pending wd))
  /\ (sent (snd (get_ipo lenient wi))
      = sent wi ++ [mkrequest ipo_url [("User-Agent", user_agent)]]
      /\ pending (snd (get_ipo lenient wi)) = tl (pending wi)).
Proof.
  split.
  - destruct (get_dividend_world wd) as [E|[E|[r [rest [_ E]]]]];
      rewrite E; split; reflexivity.
  - destruct (get_ipo_world lenient wi) as [E|[r [rest [_ E]]]];
      rewrite E; split; reflexivity.
Qed.

(** ** The ways a run can go *)

Section Cases.

Variable lenient : Pd.reader.

(** The four ways of [get_dividend]: no answer, a status other than 200,
    no match, a match. *)
Lemma get_dividend_cases (w : world string) :
  (pending w = []
   /\ get_dividend w = (Raise ConnectionError, requested dividend_url w))
  \/ (exists r rest,
        pending w = r :: rest /\ status_code r <> 200
        /\ get_dividend w
           = (Ok None,
              print ["Failed to access the website. Status code:";
                     Py.str_of_nat (status_code r)]
                    (requested dividend_url w)))
  \/ (exists r rest,
        pending w = r :: rest /\ status_code r = 200
        /\ decoded_rows (text r) = None
        /\ get_dividend w
           = (Ok None, print ["No match found."] (requested dividend_url w)))
  \/ (exists r rest decoded,
        pending w = r :: rest /\ status_code r = 200
        /\ decoded_rows (text r) = Some decoded
        /\ get_dividend w
           = (data <- decoded ;; df <- dividend_frame data ;; Ok (Some df),
              requested dividend_url w)).
Proof.
  unfold get_dividend. fold dividend_url.
  destruct (pending w) as [|r rest] eqn:P.
  - left. split; [reflexivity|]. unfold requests_get, requested.
    now rewrite P.
  - right. rewrite (requests_get_next _ _ _ _ P).
    destruct (Nat.eq_dec (status_code r) 200) as [E|E].
    + right. rewrite E. cbn [Nat.eqb]. cbv zeta.
      destruct (Re.search dtdata_pattern (text r)) as [m|] eqn:S.
      * right. exists r, rest, (v <- Json.loads (group1 m ^^ "]") ;;
                                rows_of_json v).
        split; [reflexivity|]. split; [exact E|].
        split; [unfold decoded_rows; now rewrite S|].
        f_equal. unfold dividend_of_match.
        destruct (Json.loads (group1 m ^^ "]")) as [v| |]; try reflexivity.
        cbn [bind]. destruct (rows_of_json v); reflexivity.
      * left. exists r, rest.
        split; [reflexivity|]. split; [exact E|].
        split; [unfold decoded_rows; now rewrite S | reflexivity].
    + left. exists r, rest. apply Nat.eqb_neq in E as E'. rewrite E'.
      repeat split; assumption.
Qed.

(** The three ways of [get_ipo]: no answer, a status other than 200, a
    page. *)
Lemma get_ipo_cases (w : world Soup.node) :
  (pending w = []
   /\ get_ipo lenient w = (Raise ConnectionError, requested ipo_url w))
  \/ (exists r rest,
        pending w = r :: rest /\ status_code r <> 200
        /\ get_ipo lenient w
           = (Ok None,
              print ["Failed to access the website. Status code:";
                     Py.str_of_nat (status_code r)]
                    (requested ipo_url w)))
  \/ (exists r rest,
        pending w = r :: rest /\ status_code r = 200
        /\ get_ipo lenient w
           = (rows <- ipo_rows (text r) ;;
              ipo_df <- ipo_frame lenient rows ;; Ok (Some ipo_df),
              requested ipo_url w)).
Proof.
  destruct (pending w) as [|r rest] eqn:P.
  - left. split; [reflexivity|]. unfold get_ipo, requests_get, requested.
    now rewrite P.
  - right. destruct (Nat.eq_dec (status_code r) 200) as [E|E].
    + right. exists r, rest. repeat split; try assumption.
      now apply (get_ipo_200 lenient w r rest).
    + left. exists r, rest. repeat split; try assumption.
      unfold get_ipo. fold ipo_url. rewrite (requests_get_next _ _ _ _ P).
      apply Nat.eqb_neq in E. now rewrite E.
Qed.

Lemma bind_some_not_none {A B : Type} (r : result A) (k : A -> result B) :
  (x <- r ;; y <- k x ;; Ok (Some y)) <> Ok None.
Proof.
  destruct r as [a| |]; cbn [bind]; try discriminate.
  destruct (k a); cbn [bind]; discriminate.
Qed.

End Cases.

(** X2.  The two functions print exactly when they return [None]: a run
    that returns [None] has added one line to the console, "No match
    found." or the line with the status code, and a run that returns a
    table or raises has added nothing. *)
Theorem X2_prints_exactly_when_none
        (lenient : Pd.reader)
        (wd : world string) (wi : world Soup.node) :
  (fst (get_dividend wd) = Ok None ->
   stdout (snd (get_dividend wd)) = stdout wd ^^ "No match found." ^^ Py.nl
   \/ exists r rest,
        pending wd = r :: rest
        /\ stdout (snd (get_dividend wd))
           = stdout wd ^^ "Failed to access the website. Status code: "
             ^^ Py.str_of_nat (status_code r) ^^ Py.nl)
  /\ (fst (get_dividend wd) <> Ok None ->
      stdout (snd (get_dividend wd)) = stdout wd)
  /\ (fst (get_ipo lenient wi) = Ok None ->
      exists r rest,
        pending wi = r :: rest
        /\ stdout (snd (get_ipo lenient wi))
           = stdout wi ^^ "Failed to access the website. Status code: "
             ^^ Py.str_of_nat (status_code r) ^^ Py.nl)
  /\ (fst (get_ipo lenient wi) <> Ok None ->
      stdout (snd (get_ipo lenient wi)) = stdout wi).
Proof.
  repeat split.
  - intros H.
    destruct (get_dividend_cases wd)
      as [[_ E]|[(r&rest&P&_&E)|[(r&rest&_&_&_&E)|(r&rest&d&_&_&_&E)]]];
      rewrite E in *; cbn [fst snd] in *.
    + discriminate.
    + right. exists r, rest.
      split; [exact P | rewrite failure_message; reflexivity].
    + now left.
    + now apply bind_some_not_none in H.
  - intros H.
    destruct (get_dividend_cases wd)
      as [[_ E]|[(r&rest&P&_&E)|[(r&rest&_&_&_&E)|(r&rest&d&_&_&_&E)]]];
      rewrite E in *; cbn [fst snd] in *; try reflexivity; now elim H.
  - intros H.
    destruct (get_ipo_cases lenient wi)
      as [[_ E]|[(r&rest&P&_&E)|(r&rest&_&_&E)]];
      rewrite E in *; cbn [fst snd] in *.
    + discriminate.
    + exists r, rest.
      split; [exact P | rewrite failure_message; reflexivity].
    + now apply bind_some_not_none in H.
  - intros H.
    destruct (get_ipo_cases lenient wi)
      as [[_ E]|[(r&rest&P&_&E)|(r&rest&_&_&E)]];
      rewrite E in *; cbn [fst snd] in *; try reflexivity; now elim H.
Qed.

(** ** When a table is built, and which *)

Section Outcome.

Import Pd.

Variable lenient : Pd.reader.

Lemma fits_schema_spec n data :
  fits_schema n data = true <-> data = [] \/ width data = n.
Proof.
  unfold fits_schema. destruct data as [|row data].
  - split; [now left | reflexivity].
  - rewrite Nat.eqb_eq. split; [now right | now intros [H|H]].
Qed.

Lemma fits_schema_false n data :
  fits_schema n data = false -> data <> [] /\ width data <> n.
Proof.
  unfold fits_schema. destruct data as [|row data]; [discriminate|].
  intros H. apply Nat.eqb_neq in H. split; [discriminate | exact H].
Qed.

Lemma dates_readable_spec ds j data :
  dates_readable ds j data = true <->
  (forall row, In row data -> rejected ds (nth j row None) = false).
Proof.
  unfold dates_readable. rewrite forallb_forall.
  split; intros H row Hin; specialize (H row Hin).
  - now apply negb_true_iff in H.
  - now apply negb_true_iff.
Qed.

Lemma dates_readable_false ds j data :
  dates_readable ds j data = false ->
  exists row, In row data /\ rejected ds (nth j row None) = true.
Proof.
  unfold dates_readable. induction data as [|row data IH]; [discriminate|].
  cbn [forallb]. intros H. apply andb_false_iff in H as [H|H].
  - exists row. split; [now left | now apply negb_false_iff in H].
  - destruct (IH H) as [row' [Hin Hr]]. exists row'. split; [now right|easy].
Qed.

Lemma parse_strict_rejected_no_date ds c d :
  rejected ds c = true -> parse_strict ds c <> Ok d.
Proof.
  unfold rejected, parse_strict. destruct c as [s|]; [|discriminate].
  destruct (Strptime.is_null_string s); [discriminate|].
  destruct (is_clock_string s); [discriminate|].
  now destruct (Strptime.strptime ds s).
Qed.

Lemma traverse_ok_all {A B : Type} (f : A -> result B) l bs :
  traverse f l = Ok bs -> forall x, In x l -> exists b, f x = Ok b.
Proof.
  revert bs. induction l as [|a l IH]; intros bs H x Hin; [destruct Hin|].
  simpl in H. destruct (f a) as [b| |] eqn:Fa; try discriminate.
  cbn [bind] in H. destruct (traverse f l) as [bs'| |]; try discriminate.
  destruct Hin as [<-|Hin]; [eauto | now apply (IH bs')].
Qed.

(** A strict column that is read holds no rejected entry. *)
Lemma strict_column_ok_readable ds j data l :
  traverse (parse_strict ds) (column_of j data) = Ok l ->
  dates_readable ds j data = true.
Proof.
  intros H. apply dates_readable_spec. intros row Hin.
  destruct (rejected ds (nth j row None)) eqn:R; [|reflexivity].
  destruct (traverse_ok_all _ _ _ H (nth j row None)) as [d Hd].
  - unfold column_of. apply in_map_iff. now exists row.
  - now apply parse_strict_rejected_no_date in Hd.
Qed.

(** The table of accepted rows, and the error of the others. *)
Lemma dividend_frame_of_accepted data :
  dividend_rows_accepted data = true ->
  dividend_frame data
  = Ok (dividend_table data
          (map (strict_date dividend_format) (column_of 0 data))
          (map (strict_date dividend_format) (column_of 5 data))).
Proof.
  unfold dividend_rows_accepted. intros H.
  apply andb_prop in H as [H D5]. apply andb_prop in H as [F D0].
  apply fits_schema_spec in F.
  rewrite dividend_frame_eq by exact F.
  rewrite !strict_column_reads;
    try apply dividend_format_clockless;
    try (now apply dates_readable_spec).
  reflexivity.
Qed.

Lemma dividend_frame_of_refused data :
  dividend_rows_accepted data = false ->
  clock_free 0 data = true -> clock_free 5 data = true ->
  dividend_frame data = Raise ValueError.
Proof.
  unfold dividend_rows_accepted. intros H C0 C5.
  destruct (fits_schema 9 data) eqn:F.
  - cbn [andb] in H.
    destruct (dates_readable dividend_format 0 data) eqn:D0; cbn [andb] in H.
    + apply dividend_frame_rejected; try assumption.
      destruct (dates_readable_false _ _ _ H) as [row [Hin Hr]].
      exists row. split; [exact Hin | now right].
    + apply dividend_frame_rejected; try assumption.
      destruct (dates_readable_false _ _ _ D0) as [row [Hin Hr]].
      exists row. split; [exact Hin | now left].
  - apply fits_schema_false in F as [Hne Hw].
    now apply dividend_frame_mismatch.
Qed.

(** A table is built from accepted rows only. *)
Lemma dividend_frame_ok data df :
  dividend_frame data = Ok df -> dividend_rows_accepted data = true.
Proof.
  intros H. unfold dividend_rows_accepted.
  destruct (fits_schema 9 data) eqn:F.
  - apply fits_schema_spec in F. rewrite dividend_frame_eq in H by exact F.
    destruct (traverse (parse_strict dividend_format) (column_of 0 data))
      as [a| |] eqn:Ea; try discriminate.
    cbn [bind] in H.
    destruct (traverse (parse_strict dividend_format) (column_of 5 data))
      as [e| |] eqn:Ee; try discriminate.
    now rewrite (strict_column_ok_readable _ _ _ _ Ea),
                (strict_column_ok_readable _ _ _ _ Ee).
  - apply fits_schema_false in F as [Hne Hw].
    now rewrite dividend_frame_mismatch in H.
Qed.

Lemma ipo_frame_of_accepted rows :
  ipo_rows_accepted rows = true ->
  one_offset (closed_stamps lenient rows) = true ->
  ipo_frame lenient rows
  = Ok (ipo_table lenient rows
          (map (strict_date ipo_format) (column_of 1 rows))
          (map (strict_date ipo_format) (column_of 9 rows))).
Proof.
  unfold ipo_rows_accepted. intros H Hone.
  apply andb_prop in H as [H D9]. apply andb_prop in H as [F D1].
  apply fits_schema_spec in F.
  rewrite ipo_frame_eq by exact F.
  rewrite !strict_column_reads;
    try apply ipo_format_clockless;
    try (now apply dates_readable_spec).
  cbn [bind]. now rewrite Hone.
Qed.

(** The run of [ipo_frame] line by line: the constructor, Application
    Opened, Application Closed, Date of Listing. *)
Lemma ipo_frame_by_line rows :
  (fits_schema 10 rows = false -> ipo_frame lenient rows = Raise ValueError)
  /\ (fits_schema 10 rows = true -> clock_free 1 rows = true ->
      dates_readable ipo_format 1 rows = false ->
      ipo_frame lenient rows = Raise ValueError)
  /\ (fits_schema 10 rows = true ->
      dates_readable ipo_format 1 rows = true ->
      one_offset (closed_stamps lenient rows) = false ->
      ipo_frame lenient rows
      = Raise (AttributeError
                 "Can only use .dt accessor with datetimelike values"))
  /\ (fits_schema 10 rows = true ->
      dates_readable ipo_format 1 rows = true ->
      one_offset (closed_stamps lenient rows) = true ->
      clock_free 9 rows = true ->
      dates_readable ipo_format 9 rows = false ->
      ipo_frame lenient rows = Raise ValueError).
Proof.
  repeat split.
  - intros F. apply fits_schema_false in F as [Hne Hw].
    now apply ipo_frame_mismatch.
  - intros F C1 D1.
    apply ipo_frame_opened_rejected; [exact C1|].
    now apply dates_readable_false.
  - intros F D1 Hone. apply fits_schema_spec in F.
    rewrite ipo_frame_eq by exact F.
    rewrite strict_column_reads;
      try apply ipo_format_clockless;
      try (now apply dates_readable_spec).
    cbn [bind]. now rewrite Hone.
  - intros F D1 Hone C9 D9. apply fits_schema_spec in F.
    rewrite ipo_frame_eq by exact F.
    rewrite strict_column_reads;
      try apply ipo_format_clockless;
      try (now apply dates_readable_spec).
    cbn [bind]. rewrite Hone.
    rewrite strict_column_raises;
      [reflexivity | exact C9 | now apply dates_readable_false].
Qed.

End Outcome.

(** X3.  Once the payload of a page is decoded into rows of texts and
    nulls, [get_dividend] returns a table when the longest row has nine
    cells and every text in Announcement Date and Ex Date is empty, a
    marker of a missing date, or a match of the format.  On any other
    rows that hold in these two columns neither of the texts now and
    today, which pandas reads from the clock, it raises ValueError: it
    returns neither [None] nor a part of the rows. *)
Theorem X3_dividend_table_or_value_error
        (w : world string) (r : response string)
        (rest : list (response string))
        (data : list (list (option string))) :
  pending w = r :: rest -> status_code r = 200 ->
  decoded_rows (text r) = Some (Ok data) ->
  (dividend_rows_accepted data = true ->
   exists df, fst (get_dividend w) = Ok (Some df)
              /\ Pd.len df = List.length data)
  /\ (dividend_rows_accepted data = false ->
      clock_free 0 data = true -> clock_free 5 data = true ->
      fst (get_dividend w) = Raise ValueError).
Proof.
  intros Hp Hs Hd.
  rewrite (get_dividend_decoded w r rest data Hp Hs Hd). cbn [fst].
  split.
  - intros H. rewrite (dividend_frame_of_accepted data H). cbn [bind].
    eexists. split; [reflexivity|].
    unfold Pd.len, dividend_table. cbn [Pd.index]. apply length_seq.
  - intros H C0 C5. now rewrite (dividend_frame_of_refused data H C0 C5).
Qed.

Lemma X3_dividend_table_or_value_error_witness :
  (exists df,
     fst (get_dividend
            (answering
               (mkresponse 200 (dtdata_script [abc_row; short_row]))))
     = Ok (Some df)
     /\ Pd.len df = 2)
  /\ fst (get_dividend
            (answering
               (mkresponse 200 (dtdata_script [abc_row; misdated_row]))))
     = Raise ValueError.
Proof.
  split.
  - apply (X3_dividend_table_or_value_error
             (answering (mkresponse 200 (dtdata_script [abc_row; short_row])))
             (mkresponse 200 (dtdata_script [abc_row; short_row])) []
             [map Some abc_row; map Some short_row]);
      try reflexivity; vm_compute; reflexivity.
  - apply (X3_dividend_table_or_value_error
             (answering
                (mkresponse 200 (dtdata_script [abc_row; misdated_row])))
             (mkresponse 200 (dtdata_script [abc_row; misdated_row])) []
             [map Some abc_row; map Some misdated_row]);
      try reflexivity; vm_compute; reflexivity.
Defined.

(** X4.  On a page with status 200 whose first table has a body, the run
    of [get_ipo] is decided line by line.  Rows whose longest has not
    ten cells raise ValueError at the constructor; a rejected text in
    Application Opened raises ValueError; then timestamps of more than
    one offset in Application Closed raise AttributeError at [.dt.date];
    then a rejected text in Date of Listing raises ValueError; and when
    none of these holds the table of all the rows is returned.  The two
    ValueError cases on dates are stated for columns without the texts
    now and today, which pandas reads from the clock. *)
Theorem X4_ipo_outcome_by_line
        (lenient : Pd.reader)
        (w : world Soup.node) (r : response Soup.node)
        (rest : list (response Soup.node))
        (rows : list (list (option string))) :
  pending w = r :: rest -> status_code r = 200 ->
  ipo_rows (text r) = Ok rows ->
  (fits_schema 10 rows = false ->
   fst (get_ipo lenient w) = Raise ValueError)
  /\ (fits_schema 10 rows = true -> clock_free 1 rows = true ->
      dates_readable ipo_format 1 rows = false ->
      fst (get_ipo lenient w) = Raise ValueError)
  /\ (fits_schema 10 rows = true ->
      dates_readable ipo_format 1 rows = true ->
      Pd.one_offset (closed_stamps lenient rows) = false ->
      fst (get_ipo lenient w)
      = Raise (AttributeError
                 "Can only use .dt accessor with datetimelike values"))
  /\ (fits_schema 10 rows = true ->
      dates_readable ipo_format 1 rows = true ->
      Pd.one_offset (closed_stamps lenient rows) = true ->
      clock_free 9 rows = true ->
      dates_readable ipo_format 9 rows = false ->
      fst (get_ipo lenient w) = Raise ValueError)
  /\ (ipo_rows_accepted rows = true ->
      Pd.one_offset (closed_stamps lenient rows) = true ->
      exists df, fst (get_ipo lenient w) = Ok (Some df)
                 /\ Pd.len df = List.length rows).
Proof.
  intros Hp Hs Hr.
  rewrite (get_ipo_200 lenient w r rest Hp Hs). cbn [fst].
  rewrite Hr. cbn [bind].
  destruct (ipo_frame_by_line lenient rows) as (L1 & L2 & L3 & L4).
  split; [intros F; now rewrite (L1 F)|].
  split; [intros F C D; now rewrite (L2 F C D)|].
  split; [intros F D O; now rewrite (L3 F D O)|].
  split; [intros F D O C D9; now rewrite (L4 F D O C D9)|].
  intros A O. rewrite (ipo_frame_of_accepted lenient rows A O). cbn [bind].
  eexists. split; [reflexivity|].
  unfold Pd.len, ipo_table. cbn [Pd.index]. apply length_seq.
Qed.

Lemma X4_ipo_outcome_witness :
  let run lenient body :=
    fst (get_ipo lenient
           (answering (mkresponse 200 (ipo_page ipo_header body)))) in
  run page_dates [nine_cell_row] = Raise ValueError
  /\ run page_dates [acme_row; iso_dated_row] = Raise ValueError
  /\ run zoned_dates [acme_row; east_row; west_row]
     = Raise (AttributeError
                "Can only use .dt accessor with datetimelike values")
  /\ run page_dates [acme_row; undated_row] = Raise ValueError
  /\ exists df, run page_dates [acme_row] = Ok (Some df) /\ Pd.len df = 1.
Proof.
  cbv zeta.
  pose (at_page := fun lenient body rows =>
          X4_ipo_outcome_by_line lenient
            (answering (mkresponse 200 (ipo_page ipo_header body)))
            (mkresponse 200 (ipo_page ipo_header body)) [] rows
            eq_refl eq_refl).
  split.
  { refine (proj1 (at_page page_dates [nine_cell_row] _ _) _);
      vm_compute; reflexivity. }
  split.
  { refine (proj1 (proj2 (at_page page_dates [acme_row; iso_dated_row] _ _))
                  _ _ _);
      vm_compute; reflexivity. }
  split.
  { refine (proj1 (proj2 (proj2
              (at_page zoned_dates [acme_row; east_row; west_row] _ _)))
                  _ _ _);
      vm_compute; reflexivity. }
  split.
  { refine (proj1 (proj2 (proj2 (proj2
              (at_page page_dates [acme_row; undated_row] _ _))))
                  _ _ _ _ _);
      vm_compute; reflexivity. }
  refine (proj2 (proj2 (proj2 (proj2
            (at_page page_dates [acme_row] [map Some acme_cells] _))))
                _ _);
    vm_compute; reflexivity.
Defined.

(** ** The records of a table, field by field *)

Section Records.

Import Pd.

Variable lenient : Pd.reader.

Lemma loc_texts cols n i name l c :
  lookup name cols = Some (Texts l) -> nth_error l i = Some c -> i < n ->
  loc (mkframe cols (seq 1 n)) (S i) name = Some (as_entry c).
Proof.
  intros Hl Hc Hi. rewrite loc_from_1 by exact Hi. rewrite Hl.
  cbn [entry_at]. now rewrite Hc.
Qed.

Lemma loc_dates cols n i name l d :
  lookup name cols = Some (Dates l) -> nth_error l i = Some d -> i < n ->
  loc (mkframe cols (seq 1 n)) (S i) name = Some (date_entry d).
Proof.
  intros Hl Hd Hi. rewrite loc_from_1 by exact Hi. rewrite Hl.
  cbn [entry_at]. now rewrite Hd.
Qed.

Lemma loc_absent cols labels label name :
  lookup name cols = None -> loc (mkframe cols labels) label name = None.
Proof.
  intros H. unfold loc. cbn [columns index]. rewrite H.
  now destruct (position label labels).
Qed.

Lemma nth_error_mapped_column {B : Type} (f : option string -> B) j data i row :
  nth_error data i = Some row ->
  nth_error (map f (column_of j data)) i = Some (f (nth j row None)).
Proof.
  intros H. exact (map_nth_error f i _ (nth_error_column_of j data i row H)).
Qed.

End Records.

(** X5.  The table that [get_dividend] builds has the eight columns
    Announcement Date, Stock Name, Opening Price, Current Price, Dividend,
    Ex Date, Stock Code, URL, in this order, and no column Blank.  Its
    record [i + 1] is made from row [i] of the payload alone: the two
    dates read under the format (missing for a null, an empty text or a
    marker of a missing date), the four fields in between as they are,
    the stock code with the prefix taken out, the URL behind the base; a
    field the row is too short for, or null, is missing. *)
Theorem X5_dividend_record_of_row
        (w : world string) (r : response string)
        (rest : list (response string))
        (data : list (list (option string))) :
  pending w = r :: rest -> status_code r = 200 ->
  decoded_rows (text r) = Some (Ok data) ->
  dividend_rows_accepted data = true ->
  exists df,
    fst (get_dividend w) = Ok (Some df)
    /\ Pd.column_names df
       = ["Announcement Date"; "Stock Name"; "Opening Price";
          "Current Price"; "Dividend"; "Ex Date"; "Stock Code"; "URL"]
    /\ Pd.index df = seq 1 (List.length data)
    /\ (forall label, Pd.loc df label "Blank" = None)
    /\ forall i row,
         nth_error data i = Some row ->
         Pd.loc df (S i) "Announcement Date"
         = Some (date_entry (strict_date dividend_format (nth 0 row None)))
         /\ Pd.loc df (S i) "Stock Name" = Some (as_entry (nth 1 row None))
         /\ Pd.loc df (S i) "Opening Price" = Some (as_entry (nth 2 row None))
         /\ Pd.loc df (S i) "Current Price" = Some (as_entry (nth 3 row None))
         /\ Pd.loc df (S i) "Dividend" = Some (as_entry (nth 4 row None))
         /\ Pd.loc df (S i) "Ex Date"
            = Some (date_entry (strict_date dividend_format (nth 5 row None)))
         /\ Pd.loc df (S i) "Stock Code"
            = Some (as_entry
                      (option_map
                         (fun s => Py.replace s entitlement_prefix EmptyString)
                         (nth 6 row None)))
         /\ Pd.loc df (S i) "URL"
            = Some (as_entry
                      (option_map (fun s => base_url ^^ s) (nth 8 row None))).
Proof.
  intros Hp Hs Hd Hacc.
  rewrite (get_dividend_decoded w r rest data Hp Hs Hd). cbn [fst].
  rewrite (dividend_frame_of_accepted data Hacc). cbn [bind].
  eexists. split; [reflexivity|].
  split; [reflexivity|]. split; [reflexivity|].
  split; [intros label; now apply loc_absent|].
  intros i row Hi. pose proof (nth_error_lt _ _ _ Hi) as Hlt.
  unfold dividend_table.
  repeat split;
    first [ eapply loc_texts;
            [reflexivity
            | first [ apply nth_error_column_of
                    | apply nth_error_mapped_column ]; exact Hi
            | exact Hlt]
          | eapply loc_dates;
            [reflexivity
            | apply nth_error_mapped_column; exact Hi
            | exact Hlt] ].
Qed.

Lemma X5_dividend_record_witness :
  exists df,
    fst (get_dividend
           (answering (mkresponse 200 (dtdata_script [abc_row; short_row]))))
    = Ok (Some df)
    /\ Pd.column_names df
       = ["Announcement Date"; "Stock Name"; "Opening Price";
          "Current Price"; "Dividend"; "Ex Date"; "Stock Code"; "URL"]
    /\ Pd.loc df 2 "Stock Name" = Some (Pd.Text "XYZ Bhd")
    /\ Pd.loc df 2 "Stock Code" = Some (Pd.Text "5678")
    /\ Pd.loc df 2 "URL" = Some Pd.NA
    /\ Pd.loc df 2 "Blank" = None.
Proof.
  destruct (X5_dividend_record_of_row
              (answering
                 (mkresponse 200 (dtdata_script [abc_row; short_row])))
              (mkresponse 200 (dtdata_script [abc_row; short_row])) []
              [map Some abc_row; map Some short_row]
              eq_refl eq_refl eq_refl eq_refl)
    as [df [Hrun [Hnames [_ [Hblank Hrec]]]]].
  exists df. split; [exact Hrun|]. split; [exact Hnames|].
  destruct (Hrec 1 _ eq_refl) as (_ & Hname & _ & _ & _ & _ & Hcode & Hurl).
  split; [exact Hname|]. split; [exact Hcode|]. split; [exact Hurl|].
  apply Hblank.
Defined.

(** ** The IPO page: body, rows and cells *)

Section IpoPage.

Import Pd.

Variable lenient : Pd.reader.

Lemma ipo_rows_of_body soup table tbody :
  Soup.find "table" soup = Some table ->
  Soup.find "tbody" table = Some tbody ->
  ipo_rows soup = Ok (body_rows tbody).
Proof.
  intros Ht Hb. unfold ipo_rows. now rewrite Ht, Hb.
Qed.

Lemma nth_error_body_rows tbody i tr :
  nth_error (Soup.find_all "tr" tbody) i = Some tr ->
  nth_error (body_rows tbody) i
  = Some (map (fun cell => Some (cell_text cell)) (Soup.find_all "td" tr)).
Proof.
  intros H. unfold body_rows.
  exact (map_nth_error _ i _ H).
Qed.

Lemma nth_cell_texts (cells : list Soup.node) j :
  nth j (map (fun cell => Some (cell_text cell)) cells) None
  = option_map cell_text (nth_error cells j).
Proof.
  revert j. induction cells as [|c cells IH]; intros [|j]; cbn;
    try reflexivity. apply IH.
Qed.

End IpoPage.

(** X6.  When the body rows are accepted and the timestamps read in
    Application Closed share one offset, the table that [get_ipo] builds
    has the ten columns of the schema, in order, and one record for every
    [tr] below the first [tbody] of the first [table], in document order.
    Record [i + 1] is made from the [td] cells of row [i], cell [j]
    filling column [j]: the trimmed text of the cell with line feeds
    turned into blanks, read as a date under the format in the columns
    Application Opened and Date of Listing.  In Application Closed the
    field is missing for the placeholder "-", and else shows the day of
    the timestamp that the reader of dates finds in the text, missing
    when it finds none; this reader is given the whole column, so the
    field may depend on the other rows.  A column the row has no cell
    for is missing. *)
Theorem X6_ipo_record_of_row
        (lenient : Pd.reader)
        (w : world Soup.node) (r : response Soup.node)
        (rest : list (response Soup.node)) (table tbody : Soup.node) :
  pending w = r :: rest -> status_code r = 200 ->
  Soup.find "table" (text r) = Some table ->
  Soup.find "tbody" table = Some tbody ->
  ipo_rows_accepted (body_rows tbody) = true ->
  Pd.one_offset (closed_stamps lenient (body_rows tbody)) = true ->
  exists df,
    fst (get_ipo lenient w) = Ok (Some df)
    /\ Pd.column_names df = ipo_columns
    /\ Pd.index df = seq 1 (List.length (Soup.find_all "tr" tbody))
    /\ forall i tr,
         nth_error (Soup.find_all "tr" tbody) i = Some tr ->
         Pd.loc df (S i) "Name of Company" = Some (as_entry (cell_of tr 0))
         /\ Pd.loc df (S i) "Application Opened"
            = Some (date_entry (strict_date ipo_format (cell_of tr 1)))
         /\ Pd.loc df (S i) "Application Closed"
            = Some (match cell_of tr 2 with
                    | Some s =>
                        if String.eqb s "-" then Pd.NA
                        else match lenient (closed_column (body_rows tbody)) s
                             with
                             | Some t => Pd.Date (Pd.stamp_date t)
                             | None => Pd.NA
                             end
                    | None => Pd.NA
                    end)
         /\ Pd.loc df (S i) "Issue Price" = Some (as_entry (cell_of tr 3))
         /\ Pd.loc df (S i) "Public Issue" = Some (as_entry (cell_of tr 4))
         /\ Pd.loc df (S i) "Offer for Sale" = Some (as_entry (cell_of tr 5))
         /\ Pd.loc df (S i) "Private Placement"
            = Some (as_entry (cell_of tr 6))
         /\ Pd.loc df (S i) "Issue House" = Some (as_entry (cell_of tr 7))
         /\ Pd.loc df (S i) "List Sought" = Some (as_entry (cell_of tr 8))
         /\ Pd.loc df (S i) "Date of Listing"
            = Some (date_entry (strict_date ipo_format (cell_of tr 9))).
Proof.
  intros Hp Hs Ht Hb Hacc Hone.
  rewrite (get_ipo_200 lenient w r rest Hp Hs). cbn [fst].
  rewrite (ipo_rows_of_body _ _ _ Ht Hb). cbn [bind].
  rewrite (ipo_frame_of_accepted lenient _ Hacc Hone). cbn [bind].
  eexists. split; [reflexivity|].
  split; [reflexivity|].
  split; [unfold ipo_table, body_rows; cbn [Pd.index];
          now rewrite length_map|].
  intros i tr Hi.
  pose proof (nth_error_body_rows tbody i tr Hi) as Hrow.
  pose proof (nth_error_lt _ _ _ Hrow) as Hlt.
  unfold cell_of. rewrite <- !nth_cell_texts.
  rewrite (loc_application_closed lenient _ _ _ i _ Hrow).
  unfold ipo_table.
  repeat split;
    first [ eapply loc_texts;
            [reflexivity
            | apply nth_error_column_of; exact Hrow
            | exact Hlt]
          | eapply loc_dates;
            [reflexivity
            | apply nth_error_mapped_column; exact Hrow
            | exact Hlt] ].
Qed.

Lemma X6_ipo_record_witness :
  exists df,
    fst (get_ipo page_dates
           (answering
              (mkresponse 200 (ipo_page ipo_header [acme_row; closed_row]))))
    = Ok (Some df)
    /\ Pd.column_names df = ipo_columns
    /\ Pd.index df = [1; 2]
    /\ Pd.loc df 2 "Name of Company" = Some (Pd.Text "Beta Bhd")
    /\ Pd.loc df 2 "Application Closed"
       = Some (Pd.Date (Strptime.mkdate 2024 1 9))
    /\ Pd.loc df 1 "Application Closed" = Some Pd.NA
    /\ Pd.loc df 2 "Date of Listing"
       = Some (Pd.Date (Strptime.mkdate 2024 2 20)).
Proof.
  destruct (X6_ipo_record_of_row page_dates
              (answering
                 (mkresponse 200 (ipo_page ipo_header [acme_row; closed_row])))
              (mkresponse 200 (ipo_page ipo_header [acme_row; closed_row])) []
              (Soup.Tag "table"
                 [Soup.Tag "thead" [Soup.Tag "tr" ipo_header];
                  Soup.Tag "tbody" (map (Soup.Tag "tr") [acme_row; closed_row])])
              (Soup.Tag "tbody" (map (Soup.Tag "tr") [acme_row; closed_row]))
              eq_refl eq_refl eq_refl eq_refl eq_refl eq_refl)
    as [df [Hrun [Hnames [Hindex Hrec]]]].
  exists df. split; [exact Hrun|]. split; [exact Hnames|].
  split; [exact Hindex|].
  destruct (Hrec 1 _ eq_refl) as (Hname & _ & Hclosed & _ & _ & _ & _ & _ & _ & Hlist).
  destruct (Hrec 0 _ eq_refl) as (_ & _ & Hclosed0 & _).
  split; [exact Hname|]. split; [exact Hclosed|].
  split; [exact Hclosed0 | exact Hlist].
Defined.

(** X7.  A table whose body holds no row is no error and no [None]:
    on a page with status 200 whose first [table] has a [tbody] without
    any [tr], [get_ipo] returns the empty table, with the ten columns of
    the schema and no record. *)
Theorem X7_empty_body_gives_empty_table
        (lenient : Pd.reader)
        (w : world Soup.node) (r : response Soup.node)
        (rest : list (response Soup.node)) (table tbody : Soup.node) :
  pending w = r :: rest -> status_code r = 200 ->
  Soup.find "table" (text r) = Some table ->
  Soup.find "tbody" table = Some tbody ->
  Soup.find_all "tr" tbody = [] ->
  exists df,
    fst (get_ipo lenient w) = Ok (Some df)
    /\ Pd.column_names df = ipo_columns
    /\ Pd.len df = 0
    /\ Forall (fun nc => Pd.size (snd nc) = 0) (Pd.columns df)
    /\ stdout (snd (get_ipo lenient w)) = stdout w.
Proof.
  intros Hp Hs Ht Hb Hr.
  rewrite (get_ipo_200 lenient w r rest Hp Hs). cbn [fst snd].
  rewrite (ipo_rows_of_body _ _ _ Ht Hb). unfold body_rows. rewrite Hr.
  eexists. split; [reflexivity|].
  repeat split. repeat constructor.
Qed.

Lemma X7_empty_body_witness :
  exists df,
    fst (get_ipo no_dates
           (answering (mkresponse 200 (ipo_page ipo_header []))))
    = Ok (Some df)
    /\ Pd.column_names df = ipo_columns
    /\ Pd.len df = 0
    /\ Forall (fun nc => Pd.size (snd nc) = 0) (Pd.columns df)
    /\ stdout (snd (get_ipo no_dates
                      (answering (mkresponse 200 (ipo_page ipo_header [])))))
       = EmptyString.
Proof.
  apply (X7_empty_body_gives_empty_table no_dates
           (answering (mkresponse 200 (ipo_page ipo_header [])))
           (mkresponse 200 (ipo_page ipo_header [])) []
           (Soup.Tag "table"
              [Soup.Tag "thead" [Soup.Tag "tr" ipo_header];
               Soup.Tag "tbody" []])
           (Soup.Tag "tbody" [])).
  - reflexivity.
  - reflexivity.
  - reflexivity.
  - reflexivity.
  - reflexivity.
Defined.

(** X8.  The rows are looked for below a [tbody] only, and the parser
    adds none: on a page with status 200 whose first [table] has no
    [tbody] below it, [get_ipo] raises AttributeError ('NoneType' object
    has no attribute 'find_all') and returns no table, whatever rows the
    table holds. *)
Theorem X8_table_without_body_raises
        (lenient : Pd.reader)
        (w : world Soup.node) (r : response Soup.node)
        (rest : list (response Soup.node)) (table : Soup.node) :
  pending w = r :: rest -> status_code r = 200 ->
  Soup.find "table" (text r) = Some table ->
  Soup.find_all "tbody" table = [] ->
  fst (get_ipo lenient w)
  = Raise (AttributeError "'NoneType' object has no attribute 'find_all'").
Proof.
  intros Hp Hs Ht Hb.
  rewrite (get_ipo_200 lenient w r rest Hp Hs). cbn [fst].
  unfold ipo_rows. rewrite Ht. unfold Soup.find at 1. now rewrite Hb.
Qed.

Lemma X8_table_without_body_witness :
  Soup.find_all "tr" bodiless_page <> []
  /\ fst (get_ipo no_dates (answering (mkresponse 200 bodiless_page)))
     = Raise (AttributeError "'NoneType' object has no attribute 'find_all'").
Proof.
  split; [discriminate|].
  apply (X8_table_without_body_raises no_dates
           (answering (mkresponse 200 bodiless_page))
           (mkresponse 200 bodiless_page) []
           (Soup.Tag "table" [Soup.Tag "tr" (map td acme_cells)])).
  - reflexivity.
  - reflexivity.
  - reflexivity.
  - reflexivity.
Defined.

(** ** The first table *)

Section FirstTable.

Import Soup.

Lemma find_is_tag name n t : find name n = Some t -> is_tag name t = true.
Proof.
  unfold find, find_all. intros H.
  destruct (filter (is_tag name) (descendants n)) as [|x l] eqn:F;
    [discriminate|].
  injection H as ->.
  assert (Hin : In t (filter (is_tag name) (descendants n)))
    by (rewrite F; now left).
  now apply filter_In in Hin.
Qed.

Lemma find_in_singleton name t :
  is_tag name t = true -> find name (Tag "[document]" [t]) = Some t.
Proof.
  intros H. unfold find, find_all.
  change (descendants (Tag "[document]" [t])) with ((t :: descendants t) ++ []).
  rewrite app_nil_r. cbn [filter]. now rewrite H.
Qed.

(** The rows of a page are those of its first table. *)
Lemma ipo_rows_first_table soup table :
  find "table" soup = Some table ->
  ipo_rows soup = ipo_rows (Tag "[document]" [table]).
Proof.
  intros H. unfold ipo_rows.
  rewrite (find_in_singleton "table" table (find_is_tag _ _ _ H)).
  now rewrite H.
Qed.

End FirstTable.

(** X9.  [get_ipo] reads the first [table] of the page and nothing else:
    the run on a page is the run on the page made of that table alone.
    Text, markup and further tables around it, before or behind, change
    neither the table returned nor the error raised. *)
Theorem X9_only_the_first_table_is_read
        (lenient : Pd.reader)
        (status : nat) (soup table : Soup.node)
        (rest : list (response Soup.node)) (log : list request)
        (out : string) :
  Soup.find "table" soup = Some table ->
  get_ipo lenient (mkworld (mkresponse status soup :: rest) log out)
  = get_ipo lenient
      (mkworld (mkresponse status (Soup.Tag "[document]" [table]) :: rest)
               log out).
Proof.
  intros H.
  unfold get_ipo, requests_get. cbn [pending sent stdout status_code text].
  destruct (status =? 200); [|reflexivity].
  now rewrite (ipo_rows_first_table soup table H).
Qed.

Lemma X9_only_the_first_table_witness :
  get_ipo page_dates (mkworld [mkresponse 200 two_table_page] [] EmptyString)
  = get_ipo page_dates
      (mkworld
         [mkresponse 200
            (Soup.Tag "[document]"
               [Soup.Tag "table" [Soup.Tag "tbody" [Soup.Tag "tr" acme_row]]])]
         [] EmptyString).
Proof.
  apply (X9_only_the_first_table_is_read page_dates 200 two_table_page
           (Soup.Tag "table" [Soup.Tag "tbody" [Soup.Tag "tr" acme_row]])
           [] [] EmptyString).
  reflexivity.
Defined.

(** ** The text of a cell *)

Section CellText.

Lemma prefix_nl c s :
  prefix Py.nl (String c s) = (c =? "010")%char.
Proof.
  unfold Py.nl. cbn [prefix].
  destruct (ascii_dec "010" c) as [<-|n]; [now destruct s|].
  symmetry. apply Ascii.eqb_neq. congruence.
Qed.

(** Replacing the line feed by a blank changes the text character by
    character. *)
Lemma replace_nl_translate s :
  Py.replace s Py.nl " " = translate unfeed s.
Proof.
  induction s as [|c s IH]; [reflexivity|].
  cbn [translate]. unfold unfeed at 1.
  destruct (c =? "010")%char eqn:E.
  - apply Ascii.eqb_eq in E. subst c.
    change (String "010" s) with (Py.nl ^^ s).
    rewrite replace_head by discriminate. now rewrite IH.
  - rewrite replace_keep by (now rewrite prefix_nl). now rewrite IH.
Qed.

Lemma unfeed_not_nl c : (unfeed c =? "010")%char = false.
Proof.
  unfold unfeed. destruct (c =? "010")%char eqn:E; [reflexivity | exact E].
Qed.

Lemma isspace_unfeed c : Py.isspace (unfeed c) = Py.isspace c.
Proof.
  unfold unfeed. destruct (c =? "010")%char eqn:E; [|reflexivity].
  apply Ascii.eqb_eq in E. now subst c.
Qed.

Lemma translate_no_nl s : Py.contains Py.nl (translate unfeed s) = false.
Proof.
  induction s as [|c s IH]; [reflexivity|].
  cbn [translate Py.contains]. rewrite prefix_nl, unfeed_not_nl. exact IH.
Qed.

Lemma blank_at_start_translate s :
  blank_at_start (translate unfeed s) = blank_at_start s.
Proof. destruct s; [reflexivity | apply isspace_unfeed]. Qed.

Lemma blank_at_end_translate s :
  blank_at_end (translate unfeed s) = blank_at_end s.
Proof.
  induction s as [|c s IH]; [reflexivity|].
  destruct s as [|c' s]; [apply isspace_unfeed | exact IH].
Qed.

Lemma lstrip_start s : blank_at_start (Py.lstrip s) = false.
Proof.
  induction s as [|c s IH]; [reflexivity|].
  cbn [Py.lstrip]. destruct (Py.isspace c) eqn:E; [exact IH | exact E].
Qed.

Lemma rstrip_start s :
  blank_at_start s = false -> blank_at_start (Py.rstrip s) = false.
Proof.
  destruct s as [|c s]; [reflexivity|]. cbn [blank_at_start Py.rstrip].
  intros E. destruct (Py.rstrip s); [now rewrite E | exact E].
Qed.

Lemma rstrip_end s : blank_at_end (Py.rstrip s) = false.
Proof.
  induction s as [|c s IH]; [reflexivity|].
  cbn [Py.rstrip]. destruct (Py.rstrip s) as [|c' r] eqn:R.
  - destruct (Py.isspace c) eqn:E; [reflexivity | exact E].
  - exact IH.
Qed.

Lemma lstrip_fixed s : blank_at_start s = false -> Py.lstrip s = s.
Proof.
  destruct s as [|c s]; [reflexivity|]. cbn. now intros ->.
Qed.

Lemma rstrip_fixed s : blank_at_end s = false -> Py.rstrip s = s.
Proof.
  induction s as [|c s IH]; [reflexivity|].
  destruct s as [|c' s].
  - cbn. now intros ->.
  - intros H. change (blank_at_end (String c (String c' s)))
      with (blank_at_end (String c' s)) in H.
    cbn [Py.rstrip] in *. now rewrite (IH H).
Qed.

Lemma strip_fixed s :
  blank_at_start s = false -> blank_at_end s = false -> Py.strip s = s.
Proof.
  intros Hs He. unfold Py.strip. rewrite (lstrip_fixed s Hs).
  now apply rstrip_fixed.
Qed.

Lemma blank_at_start_append a b :
  a <> EmptyString -> blank_at_start (a ^^ b) = blank_at_start a.
Proof. destruct a; [now intros H; elim H | reflexivity]. Qed.

Lemma blank_at_end_append a b :
  b <> EmptyString -> blank_at_end (a ^^ b) = blank_at_end b.
Proof.
  intros Hb. induction a as [|c a IH]; [reflexivity|].
  cbn [append]. destruct (a ^^ b) as [|c' r] eqn:E.
  - destruct a; [cbn in E; now elim Hb | discriminate].
  - exact IH.
Qed.

(** The strings that [get_text] joins are trimmed and not empty, and so
    is what they make together, unless there is none. *)
Lemma join_trimmed (l : list string) :
  Forall (fun t => t <> EmptyString
                   /\ blank_at_start t = false /\ blank_at_end t = false) l ->
  blank_at_start (Py.join l) = false /\ blank_at_end (Py.join l) = false.
Proof.
  induction 1 as [|t l [Hne [Hs He]] _ [IHs IHe]]; [now split|].
  cbn [Py.join fold_right]. fold (Py.join l). split.
  - now rewrite blank_at_start_append.
  - destruct (Py.join l) as [|c r] eqn:J.
    + now rewrite append_empty_r.
    + now rewrite blank_at_end_append.
Qed.

Lemma stripped_strings_trimmed n :
  Forall (fun t => t <> EmptyString
                   /\ blank_at_start t = false /\ blank_at_end t = false)
         (Soup.stripped_strings n).
Proof.
  unfold Soup.stripped_strings.
  induction (Soup.descendants n) as [|k l IH]; [constructor|].
  cbn [flat_map]. apply Forall_app. split; [|exact IH].
  destruct k as [s|nm ks]; [|constructor].
  destruct (Py.strip s) as [|c r] eqn:E; constructor; [|constructor].
  rewrite <- E. split; [now rewrite E|]. unfold Py.strip. split.
  - apply rstrip_start, lstrip_start.
  - apply rstrip_end.
Qed.

End CellText.

(** The text of a cell that runs over lines and nested tags: the pieces
    are joined without a separator. *)
Example cell_text_over_lines_and_tags :
  cell_text ragged_cell = "ACME HoldingsBhd".
Proof. vm_compute. reflexivity. Qed.

(** X10.  The text that [get_ipo] takes from a cell, whatever the cell
    holds, has no line feed in it and neither starts nor ends with a
    blank: stripping it again gives the same text. *)
Theorem X10_cell_text_is_one_trimmed_line (cell : Soup.node) :
  Py.contains Py.nl (cell_text cell) = false
  /\ Py.strip (cell_text cell) = cell_text cell.
Proof.
  unfold cell_text. rewrite replace_nl_translate. split.
  - apply translate_no_nl.
  - destruct (join_trimmed _ (stripped_strings_trimmed cell)) as [Hs He].
    apply strip_fixed.
    + now rewrite blank_at_start_translate.
    + now rewrite blank_at_end_translate.
Qed.

(** ** The payload is never empty *)

Section NonEmpty.

Lemma scan_once_array d r :
  Json.scan_once (S d) (String "[" r)
  = match Json.ws r with
    | String c' r' =>
        if (c' =? "]")%char then Ok (Json.Array [], r')
        else array_items d (S (String.length r)) (Json.ws r) []
    | EmptyString => Raise JSONDecodeError
    end.
Proof. reflexivity. Qed.

Lemma array_items_nonempty d n :
  forall s acc v rest,
    array_items d n s acc = Ok (v, rest) ->
    exists l, v = Json.Array l /\ l <> [].
Proof.
  induction n as [|n IH]; intros s acc v rest H; [discriminate|].
  cbn [array_items] in H.
  destruct (Json.scan_once d s) as [[x r]| |]; try discriminate.
  cbn [bind fst snd] in H.
  destruct (Json.ws r) as [|c' r']; [discriminate|].
  destruct (c' =? "]")%char.
  - injection H as <- _. eexists. split; [reflexivity|].
    cbn [rev]. intros E. now apply app_eq_nil in E as [_ E].
  - destruct (c' =? ",")%char; [|discriminate].
    now apply IH in H.
Qed.

Lemma ws_before_bracket x : Json.ws (x ^^ "]") <> EmptyString.
Proof.
  induction x as [|c x IH]; [discriminate|].
  cbn [append Json.ws]. destruct (Json.is_ws c); [exact IH | discriminate].
Qed.

Lemma ws_after_first_bracket t c' r' :
  Json.ws (t ^^ "]]") = String c' r' -> (c' =? "]")%char = true ->
  Json.ws r' <> EmptyString.
Proof.
  induction t as [|c t IH]; intros H E.
  - cbn in H. injection H as _ <-. discriminate.
  - cbn [append Json.ws] in H. destruct (Json.is_ws c) eqn:W.
    + now apply IH.
    + injection H as -> <-.
      change (t ^^ "]]") with (t ^^ "]" ^^ "]").
      rewrite <- append_assoc. apply ws_before_bracket.
Qed.

(** A text that ends in two closing brackets does not decode to the
    empty array. *)
Lemma loads_not_empty t :
  Json.loads (("[" ^^ t ^^ "]") ^^ "]") <> Ok (Json.Array []).
Proof.
  unfold Json.loads.
  replace (("[" ^^ t ^^ "]") ^^ "]") with (String "[" (t ^^ "]]"))
    by (cbn [append]; f_equal; now rewrite append_assoc).
  change (Json.ws (String "[" (t ^^ "]]"))) with (String "[" (t ^^ "]]")).
  change Json.max_depth with (S 63). rewrite scan_once_array.
  destruct (Json.ws (t ^^ "]]")) as [|c' r'] eqn:W; [discriminate|].
  destruct (c' =? "]")%char eqn:E.
  - cbn [bind fst snd].
    pose proof (ws_after_first_bracket t c' r' W E) as N.
    destruct (Json.ws r'); [now elim N | discriminate].
  - destruct (array_items 63 (S (String.length (t ^^ "]]")))
                          (String c' r') []) as [[v rest]| |] eqn:A;
      cbn [bind fst snd]; try discriminate.
    apply array_items_nonempty in A as [l [-> Hl]].
    destruct (Json.ws rest); [|discriminate].
    intros H. injection H as ->. now elim Hl.
Qed.

Lemma search_some p s m :
  Re.search p s = Some m ->
  exists pre suf rest,
    s = pre ^^ suf /\ Re.match_here p suf = Some (m, rest).
Proof.
  induction s as [|c s IH]; intros H; cbn [Re.search] in H.
  - destruct (Re.match_here p EmptyString) as [[m' rest]|] eqn:M;
      [|discriminate].
    injection H as <-. now exists EmptyString, EmptyString, rest.
  - destruct (Re.match_here p (String c s)) as [[m' rest]|] eqn:M.
    + injection H as <-. now exists EmptyString, (String c s), rest.
    + destruct (IH H) as (pre & suf & rest & -> & M').
      now exists (String c pre), suf, rest.
Qed.

Lemma group1_of_match content m :
  Re.search dtdata_pattern content = Some m ->
  exists t, group1 m = "[" ^^ t ^^ "]".
Proof.
  intros H. apply search_some in H as (pre & suf & rest & _ & M).
  apply match_here_sound in M as [F _]. unfold dtdata_pattern in F.
  repeat match goal with
         | F : fits (_ :: _) _ |- _ => inversion F; clear F; subst
         | F : Forall2 _ (_ :: _) _ |- _ => inversion F; clear F; subst
         | F : Forall2 _ [] _ |- _ => inversion F; clear F; subst
         end.
  match goal with |- context [group1 [_; _; ?t; _; _]] => exists t end.
  unfold group1, Re.span. cbn [skipn firstn Nat.sub Py.join fold_right].
  now rewrite append_empty_r.
Qed.

Lemma rows_of_json_nil v : rows_of_json v = Ok [] -> v = Json.Array [].
Proof.
  destruct v as [| | | |rows|]; try discriminate. cbn [rows_of_json].
  destruct rows as [|x rows]; [reflexivity|].
  cbn [map all_some]. destruct (row_of_json x); [|discriminate].
  destruct (all_some (map row_of_json rows)); discriminate.
Qed.

Lemma decoded_rows_nonempty content data :
  decoded_rows content = Some (Ok data) -> data <> [].
Proof.
  unfold decoded_rows. intros H ->.
  destruct (Re.search dtdata_pattern content) as [m|] eqn:S; [|discriminate].
  cbn [option_map] in H. injection H as H.
  destruct (group1_of_match content m S) as [t Ht]. rewrite Ht in H.
  destruct (Json.loads (("[" ^^ t ^^ "]") ^^ "]")) as [v| |] eqn:L;
    try discriminate.
  cbn [bind] in H. apply rows_of_json_nil in H. subst v.
  now apply loads_not_empty in L.
Qed.

End NonEmpty.

(** X11.  [get_dividend] never returns an empty table: a table it
    returns has at least one record.  The matched text ends in the
    bracket of its last row, so a payload without rows is either no match
    (and [None]) or no JSON (and an error). *)
Theorem X11_dividend_table_is_never_empty
        (w : world string) (df : Pd.DataFrame) :
  fst (get_dividend w) = Ok (Some df) -> 1 <= Pd.len df.
Proof.
  intros H.
  destruct (get_dividend_cases w)
    as [[_ E]|[(r&rest&_&_&E)|[(r&rest&_&_&_&E)|(r&rest&d&P&S&D&E)]]];
    rewrite E in H; cbn [fst] in H; try discriminate.
  destruct d as [data| |]; try discriminate. cbn [bind] in H.
  pose proof (decoded_rows_nonempty _ _ D) as Hne.
  destruct (dividend_frame data) as [df'| |] eqn:F; try discriminate.
  pose proof (dividend_frame_ok data df' F) as A.
  rewrite (dividend_frame_of_accepted data A) in F.
  cbn [bind] in H. injection H as <-. injection F as <-.
  unfold Pd.len, dividend_table. cbn [Pd.index]. rewrite length_seq.
  destruct data; [now elim Hne | cbn; lia].
Qed.

Lemma X11_dividend_table_witness :
  exists df,
    fst (get_dividend (answering (mkresponse 200 abc_page))) = Ok (Some df)
    /\ 1 <= Pd.len df.
Proof.
  eexists. split; [vm_compute; reflexivity|].
  eapply (X11_dividend_table_is_never_empty
            (answering (mkresponse 200 abc_page))).
  vm_compute. reflexivity.
Defined.

(** ** Which text is matched *)

Section Leftmost.

Import Re.

Lemma append_same_length a b a' b' :
  a ^^ b = a' ^^ b' -> String.length a = String.length a' ->
  a = a' /\ b = b'.
Proof.
  revert a'; induction a as [|c a IH]; intros [|c' a'] H L;
    try discriminate L.
  - now split.
  - cbn in H, L. injection H as -> H. injection L as L.
    destruct (IH a' H L) as [-> ->]. now split.
Qed.

Lemma append_cancel l x y : l ^^ x = l ^^ y -> x = y.
Proof.
  intros H. now destruct (append_same_length l x l y H eq_refl).
Qed.

(** [search] stops at the first place where the pattern matches. *)
Lemma search_leftmost p s m :
  search p s = Some m ->
  exists pre suf rest,
    s = pre ^^ suf /\ match_here p suf = Some (m, rest)
    /\ forall pre1 suf1,
         s = pre1 ^^ suf1 -> String.length pre1 < String.length pre ->
         match_here p suf1 = None.
Proof.
  induction s as [|c s IH]; intros H; cbn [search] in H.
  - destruct (match_here p EmptyString) as [[m' rest]|] eqn:M;
      [|discriminate].
    injection H as <-. exists EmptyString, EmptyString, rest.
    repeat split; [exact M|]. cbn. intros; lia.
  - destruct (match_here p (String c s)) as [[m' rest]|] eqn:M.
    + injection H as <-. exists EmptyString, (String c s), rest.
      repeat split; [exact M|]. cbn. intros; lia.
    + destruct (IH H) as (pre & suf & rest & -> & M' & Hmin).
      exists (String c pre), suf, rest. repeat split; [exact M'|].
      intros [|c1 pre1] suf1 E L.
      * cbn in E. now subst suf1.
      * cbn in E, L. injection E as _ E. apply (Hmin pre1 suf1 E). lia.
Qed.

(** The lazy item takes the fewest characters that let the rest of the
    pattern match. *)
Lemma lazy_shortest p :
  forall s t ts rest,
    match_here (LazyAny :: p) s = Some (t :: ts, rest) ->
    exists s', s = t ^^ s' /\ match_here p s' = Some (ts, rest)
    /\ forall t1 s1,
         s = t1 ^^ s1 -> String.length t1 < String.length t ->
         match_here p s1 = None.
Proof.
  induction s as [|c s IH]; intros t ts rest H; rewrite match_here_lazy in H.
  - destruct (match_here p EmptyString) as [[ts' rest']|] eqn:M;
      [|discriminate].
    cbn in H. injection H as <- <- <-. exists EmptyString.
    repeat split; [exact M|]. cbn. intros; lia.
  - destruct (match_here p (String c s)) as [[ts' rest']|] eqn:M.
    + cbn in H. injection H as <- <- <-. exists (String c s).
      repeat split; [exact M|]. cbn. intros; lia.
    + destruct (match_here (LazyAny :: p) s) as [[[|t0 ts0] rest0]|] eqn:M';
        try discriminate.
      cbn in H. injection H as <- <- <-.
      destruct (IH t0 ts0 rest0 eq_refl) as (s' & -> & Ms & Hmin).
      exists s'. repeat split; [exact Ms|].
      intros [|c1 t1] s1 E L.
      * cbn in E. now subst s1.
      * cbn in E, L. injection E as _ E. apply (Hmin t1 s1 E). lia.
Qed.

Lemma match_here_lit l p s m rest :
  match_here (Lit l :: p) s = Some (m, rest) ->
  exists r m', s = l ^^ r /\ match_here p r = Some (m', rest) /\ m = l :: m'.
Proof.
  cbn [match_here]. intros H.
  destruct (Py.removeprefix l s) as [r|] eqn:E; [|discriminate].
  apply removeprefix_inv in E.
  destruct (match_here p r) as [[m' rest']|] eqn:M; [|discriminate].
  cbn in H. injection H as <- <-. now exists r, m'.
Qed.

Lemma terminator_matches post :
  match_here [Lit "]"; Lit "];"] ("]];" ^^ post) <> None.
Proof.
  apply (match_here_complete [Lit "]"; Lit "];"] ["]"; "];"] post).
  repeat constructor.
Qed.

Lemma payload_matches body post :
  match_here dtdata_pattern ("var dtdata = [" ^^ body ^^ "]];" ^^ post)
  <> None.
Proof.
  rewrite <- payload_text. apply match_here_complete. repeat constructor.
Qed.

End Leftmost.

(** X12.  The text that [get_dividend] decodes is cut out of the page
    at the first assignment and at the first terminator behind it: when
    the pattern matches, the page reads [pre], "var dtdata = [", [t],
    "]];", [post], group 1 is "[" [t] "]", and among all the ways to
    read the page in this shape this one has the shortest [pre] and, for
    that [pre], the shortest [t].  A later assignment, or a later
    terminator, is never the one used. *)
Theorem X12_first_assignment_first_terminator (content : string)
        (m : list string) :
  Re.search dtdata_pattern content = Some m ->
  exists pre t post,
    content = pre ^^ "var dtdata = [" ^^ t ^^ "]];" ^^ post
    /\ group1 m = "[" ^^ t ^^ "]"
    /\ forall pre' t' post',
         content = pre' ^^ "var dtdata = [" ^^ t' ^^ "]];" ^^ post' ->
         String.length pre <= String.length pre'
         /\ (String.length pre' = String.length pre ->
             String.length t <= String.length t').
Proof.
  intros H.
  apply search_leftmost in H as (pre & suf & rest & -> & M & Hleft).
  unfold dtdata_pattern in M.
  apply match_here_lit in M as (r1 & m1 & -> & M & ->).
  apply match_here_lit in M as (r2 & m2 & -> & M & ->).
  destruct m2 as [|t ts].
  { apply match_here_sound in M as [F _]. inversion F. }
  apply lazy_shortest in M as (s' & -> & M & Hshort).
  apply match_here_lit in M as (r3 & m3 & -> & M & ->).
  apply match_here_lit in M as (r4 & m4 & -> & M & ->).
  cbn [Re.match_here] in M. injection M as <- ->.
  exists pre, t, rest.
  assert (Eshape : "var dtdata = " ^^ "[" ^^ t ^^ "]" ^^ "];" ^^ rest
                   = "var dtdata = [" ^^ t ^^ "]];" ^^ rest).
  { cbn [append]. do 14 f_equal. }
  split; [now rewrite Eshape|].
  split.
  { unfold group1, Re.span.
    cbn [skipn firstn Nat.sub Py.join fold_right].
    now rewrite append_empty_r. }
  intros pre' t' post' E.
  assert (Hle : String.length pre <= String.length pre').
  { destruct (Nat.le_gt_cases (String.length pre) (String.length pre'))
      as [L|L]; [exact L|].
    exfalso. apply (payload_matches t' post').
    exact (Hleft pre' _ E L). }
  split; [exact Hle|]. intros Hlen.
  destruct (Nat.le_gt_cases (String.length t) (String.length t'))
    as [L|L]; [exact L|].
  exfalso. symmetry in Hlen.
  destruct (append_same_length _ _ _ _ E Hlen) as [_ E'].
  rewrite Eshape in E'.
  apply (append_cancel "var dtdata = [") in E'.
  apply (terminator_matches post').
  apply (Hshort t' ("]];" ^^ post')); [exact E' | exact L].
Qed.

Lemma X12_first_assignment_witness :
  let content :=
    "<script>var dtdata = [[1],[2]]; var dtdata = [[3]]; x = []];</script>" in
  option_map group1 (Re.search dtdata_pattern content) = Some "[[1],[2]"
  /\ exists pre t post,
       content = pre ^^ "var dtdata = [" ^^ t ^^ "]];" ^^ post
       /\ "[[1],[2]" = "[" ^^ t ^^ "]"
       /\ forall pre' t' post',
            content = pre' ^^ "var dtdata = [" ^^ t' ^^ "]];" ^^ post' ->
            String.length pre <= String.length pre'
            /\ (String.length pre' = String.length pre ->
                String.length t <= String.length t').
Proof.
  cbv zeta. split; [reflexivity|].
  exact (X12_first_assignment_first_terminator
           "<script>var dtdata = [[1],[2]]; var dtdata = [[3]]; x = []];</script>"
           ["var dtdata = "; "["; "[1],[2"; "]"; "];"] eq_refl).
Defined.

(** * Properties of the application *)

(** ** The menu *)

(** X13.  [streamlit_menu] returns [None] exactly for an example other
    than 1, 2 and 3, and then puts nothing on the page.  For 1, 2 and 3
    with at least one option it puts one menu on the page, with the
    options and icons it was given, and returns the option clicked, or
    the first option before any click; with no option at all it raises
    IndexError, the default option being looked up before the menu is
    drawn, and puts nothing on the page. *)
Theorem X13_menu_for_examples_1_to_3_only
        (example : nat) (options icons : list string) (s : session) :
  (fst (streamlit_menu example options icons s) = Ok None
   <-> ~ (1 <= example <= 3))
  /\ (~ (1 <= example <= 3) ->
      streamlit_menu example options icons s = (Ok None, s))
  /\ (1 <= example <= 3 -> options = [] ->
      streamlit_menu example options icons s = (Raise IndexError, s))
  /\ (1 <= example <= 3 ->
      forall first others, options = first :: others ->
      exists in_sidebar menu_title orientation styles,
        streamlit_menu example options icons s
        = (Ok (Some (match clicked s with
                     | Some o => o
                     | None => first
                     end)),
           showing [OptionMenu in_sidebar menu_title options icons "cast" 0
                               orientation styles] s)).
Proof.
  assert (Empty : 1 <= example <= 3 -> options = [] ->
                  streamlit_menu example options icons s
                  = (Raise IndexError, s)).
  { intros H ->.
    assert (E : example = 1 \/ example = 2 \/ example = 3) by lia.
    destruct E as [->|[->| ->]]; reflexivity. }
  assert (In3 : 1 <= example <= 3 ->
                forall first others, options = first :: others ->
                exists in_sidebar menu_title orientation styles,
                  streamlit_menu example options icons s
                  = (Ok (Some (match clicked s with
                               | Some o => o
                               | None => first
                               end)),
                     showing [OptionMenu in_sidebar menu_title options icons
                                         "cast" 0 orientation styles] s)).
  { intros H first others ->.
    assert (E : example = 1 \/ example = 2 \/ example = 3) by lia.
    destruct E as [->|[->| ->]]; do 4 eexists; reflexivity. }
  assert (Out : ~ (1 <= example <= 3) ->
                streamlit_menu example options icons s = (Ok None, s)).
  { intros H. unfold streamlit_menu.
    destruct (example =? 1) eqn:E1; [apply Nat.eqb_eq in E1; lia|].
    destruct (example =? 2) eqn:E2; [apply Nat.eqb_eq in E2; lia|].
    destruct (example =? 3) eqn:E3; [apply Nat.eqb_eq in E3; lia|].
    reflexivity. }
  split; [|split; [|split]; assumption].
  split.
  - intros H R. destruct options as [|first others].
    + rewrite (Empty R eq_refl) in H. discriminate.
    + destruct (In3 R first others eq_refl) as (a & b & c & d & E).
      rewrite E in H. discriminate.
  - intros H. now rewrite (Out H).
Qed.

Lemma X13_menu_witness :
  streamlit_menu 7 main_options main_icons (visiting "Resources" [] [])
  = (Ok None, visiting "Resources" [] [])
  /\ streamlit_menu 2 [] [] (visiting "Resources" [] [])
     = (Raise IndexError, visiting "Resources" [] [])
  /\ exists menu,
       streamlit_menu 2 main_options main_icons (visiting "Resources" [] [])
       = (Ok (Some "Resources"), showing [menu] (visiting "Resources" [] [])).
Proof.
  split; [|split].
  - refine (proj1 (proj2 (X13_menu_for_examples_1_to_3_only
                            7 main_options main_icons
                            (visiting "Resources" [] []))) _).
    lia.
  - refine (proj1 (proj2 (proj2 (X13_menu_for_examples_1_to_3_only
                                   2 [] [] (visiting "Resources" [] []))))
                  _ eq_refl).
    lia.
  - destruct (proj2 (proj2 (proj2 (X13_menu_for_examples_1_to_3_only
                                     2 main_options main_icons
                                     (visiting "Resources" [] []))))
                    (conj (le_S 1 1 (le_n 1)) (le_S 2 2 (le_n 2)))
                    "Homepage" (tl main_options) eq_refl)
      as (a & b & c & d & E).
    eexists. exact E.
Defined.

(** ** The pages *)

Section Pages.

Variable lenient : Pd.reader.
Variable to_csv : Pd.DataFrame -> string.
Variable homepage dashboard : action unit.

Lemma and_then_done (a : action unit) (s : session) :
  (a ;;; done tt) s = a s.
Proof.
  unfold and_then, done. destruct (a s) as [[[]| |] s']; reflexivity.
Qed.

Lemma showing_app (ws ws' : list widget) (s : session) :
  showing ws' (showing ws s) = showing (ws ++ ws') s.
Proof.
  unfold showing. cbn. now rewrite <- app_assoc.
Qed.

(** The script up to the pages: the configuration and the menu are on
    the page, and the selection is known. *)
Lemma main_after_menu (s : session) :
  main lenient to_csv homepage dashboard s
  = (when (String.eqb (selection s) "Homepage") homepage ;;;
     when (String.eqb (selection s) "Dashboard") dashboard ;;;
     when (String.eqb (selection s) "Analysis")
          (show (Title "To be constructed")) ;;;
     when (String.eqb (selection s) "Resources")
          (resources lenient to_csv)) (showing page_top s).
Proof.
  unfold main, selection, showing, page_top, main_menu.
  destruct s as [i d r c [o|] sc]; cbn; rewrite <- app_assoc; reflexivity.
Qed.

(** The page of a selection. *)
Lemma main_dispatch (s : session) :
  main lenient to_csv homepage dashboard s
  = (if String.eqb (selection s) "Homepage" then homepage
     else if String.eqb (selection s) "Dashboard" then dashboard
     else if String.eqb (selection s) "Analysis"
          then show (Title "To be constructed")
     else if String.eqb (selection s) "Resources"
          then resources lenient to_csv
     else done tt) (showing page_top s).
Proof.
  rewrite main_after_menu.
  destruct (String.eqb (selection s) "Homepage") eqn:H.
  - apply String.eqb_eq in H. rewrite H. cbn [String.eqb Ascii.eqb Bool.eqb when].
    cbn. unfold and_then at 1.
    destruct (homepage (showing page_top s)) as [[[]| |] s']; reflexivity.
  - destruct (String.eqb (selection s) "Dashboard") eqn:D.
    + apply String.eqb_eq in D. rewrite D. cbn.
      unfold and_then at 1.
      destruct (dashboard (showing page_top s)) as [[[]| |] s']; reflexivity.
    + destruct (String.eqb (selection s) "Analysis") eqn:A.
      * apply String.eqb_eq in A. rewrite A. reflexivity.
      * destruct (String.eqb (selection s) "Resources") eqn:R.
        -- cbn. unfold and_then at 1 2 3. cbn.
           reflexivity.
        -- reflexivity.
Qed.

End Pages.

Section Resources.

Variable lenient : Pd.reader.
Variable to_csv : Pd.DataFrame -> string.
Variable homepage dashboard : action unit.

(** A run that returns a table has printed nothing. *)
Lemma get_ipo_table (w : world Soup.node) (df : Pd.DataFrame) :
  fst (get_ipo lenient w) = Ok (Some df) ->
  get_ipo lenient w = (Ok (Some df), requested ipo_url w).
Proof.
  intros H.
  destruct (get_ipo_cases lenient w)
    as [[_ E]|[(r&rest&_&_&E)|(r&rest&_&_&E)]];
    rewrite E in H |- *; cbn [fst] in H; try discriminate.
  now rewrite H.
Qed.

Lemma get_dividend_table (w : world string) (df : Pd.DataFrame) :
  fst (get_dividend w) = Ok (Some df) ->
  get_dividend w = (Ok (Some df), requested dividend_url w).
Proof.
  intros H.
  destruct (get_dividend_cases w)
    as [[_ E]|[(r&rest&_&_&E)|[(r&rest&_&_&_&E)|(r&rest&d&_&_&_&E)]]];
    rewrite E in H |- *; cbn [fst] in H; try discriminate.
  now rewrite H.
Qed.

(** What a run returns depends on the answer of the site only, not on
    the requests sent and the lines printed before. *)
Lemma get_dividend_result (p : list (response string)) sent0 out0 sent1 out1 :
  fst (get_dividend (mkworld p sent0 out0))
  = fst (get_dividend (mkworld p sent1 out1)).
Proof.
  unfold get_dividend, requests_get. cbn [pending].
  destruct p as [|r rest]; cbv beta iota zeta; [reflexivity|].
  destruct (status_code r =? 200); [|reflexivity].
  destruct (Re.search dtdata_pattern (text r)); cbn [fst]; reflexivity.
Qed.

Lemma get_ipo_result (p : list (response Soup.node)) sent0 out0 sent1 out1 :
  fst (get_ipo lenient (mkworld p sent0 out0))
  = fst (get_ipo lenient (mkworld p sent1 out1)).
Proof.
  unfold get_ipo, requests_get. cbn [pending].
  destruct p as [|r rest]; cbv beta iota zeta; [reflexivity|].
  destruct (status_code r =? 200); cbn [fst]; reflexivity.
Qed.

Lemma get_dividend_sent (w : world string) :
  sent (snd (get_dividend w)) = sent w ++ [dividend_request].
Proof.
  destruct (get_dividend_world w) as [E|[E|[r [rest [_ E]]]]];
    rewrite E; reflexivity.
Qed.

Lemma selection_clicked (s : session) (page : string) :
  clicked s = Some page -> selection s = page.
Proof.
  unfold selection. now intros ->.
Qed.

(** The page Resources, once the menu is on the page. *)
Lemma main_resources (s : session) :
  clicked s = Some "Resources" ->
  main lenient to_csv homepage dashboard s
  = resources lenient to_csv (showing page_top s).
Proof.
  intros H. rewrite main_dispatch, (selection_clicked _ _ H). reflexivity.
Qed.

(** The first half of the page, by what [get_ipo] returns. *)
Lemma resources_ipo_part (s : session) :
  resources lenient to_csv s
  = let (r, w) := get_ipo lenient (ipo_world s) in
    let s1 := mksession (pending w) (dividend_site s) (sent w) (stdout w)
                        (clicked s) (screen s ++ ipo_heading) in
    match r with
    | Ok (Some df) =>
        (show (Title "Dividend") ;;;
         show (Write dividend_url) ;;;
         dividend_df <~ call_get_dividend ;;
         show (Dataframe dividend_df) ;;;
         csv <~ lift (csv_bytes to_csv dividend_df) ;;
         show (DownloadButton "Download CSV" csv "dividend.csv" "text/csv"))
          (showing [Dataframe (Some df); download (to_csv df) "ipo.csv"] s1)
    | Ok None => (Raise (none_has_no "to_csv"), showing [Dataframe None] s1)
    | Raise e => (Raise e, s1)
    | Unmodelled => (Unmodelled, s1)
    end.
Proof.
  unfold resources, ipo_world, ipo_heading, showing, download.
  unfold and_then at 1 2 3. unfold show at 1 2. cbn [ipo_site dividend_site
    requests console clicked screen]. unfold call_get_ipo at 1.
  cbn [ipo_site dividend_site requests console clicked screen].
  destruct (get_ipo lenient (mkworld (ipo_site s) (requests s) (console s)))
    as [[[df|]| |] w]; cbv zeta; rewrite <- ?app_assoc; cbn [app];
    try reflexivity.
  - unfold and_then at 1 2 3. unfold show at 1 2, lift at 1.
    cbn [ipo_site dividend_site requests console clicked screen csv_bytes].
    rewrite <- ?app_assoc. reflexivity.
  - unfold and_then at 1 2. unfold show at 1, lift at 1.
    cbn [ipo_site dividend_site requests console clicked screen csv_bytes].
    rewrite <- ?app_assoc. reflexivity.
Qed.

(** The second half of the page, by what [get_dividend] returns. *)
Lemma resources_dividend_part (s : session) :
  (show (Title "Dividend") ;;;
   show (Write dividend_url) ;;;
   dividend_df <~ call_get_dividend ;;
   show (Dataframe dividend_df) ;;;
   csv <~ lift (csv_bytes to_csv dividend_df) ;;
   show (DownloadButton "Download CSV" csv "dividend.csv" "text/csv")) s
  = let (r, w) := get_dividend (dividend_world s) in
    let s1 := mksession (ipo_site s) (pending w) (sent w) (stdout w)
                        (clicked s) (screen s ++ dividend_heading) in
    match r with
    | Ok (Some df) =>
        (Ok tt,
         showing [Dataframe (Some df); download (to_csv df) "dividend.csv"] s1)
    | Ok None => (Raise (none_has_no "to_csv"), showing [Dataframe None] s1)
    | Raise e => (Raise e, s1)
    | Unmodelled => (Unmodelled, s1)
    end.
Proof.
  unfold dividend_world, dividend_heading, showing, download.
  unfold and_then at 1 2 3. unfold show at 1 2. cbn [ipo_site dividend_site
    requests console clicked screen]. unfold call_get_dividend at 1.
  cbn [ipo_site dividend_site requests console clicked screen].
  destruct (get_dividend
              (mkworld (dividend_site s) (requests s) (console s)))
    as [[[df|]| |] w]; cbv zeta; rewrite <- ?app_assoc; cbn [app];
    try reflexivity.
  - unfold and_then, show, lift.
    cbn [ipo_site dividend_site requests console clicked screen csv_bytes].
    rewrite <- ?app_assoc. reflexivity.
  - unfold and_then, show, lift.
    cbn [ipo_site dividend_site requests console clicked screen csv_bytes].
    rewrite <- ?app_assoc. reflexivity.
Qed.

End Resources.

(** X14.  A run of [main] puts the configuration and the menu on the
    page and then runs the body of one page at most: that of the option
    selected, which is the option clicked, or Homepage before any click.
    The four tests of the script never let two bodies run, and an option
    that is none of the four runs none. *)
Theorem X14_one_page_per_run
        (lenient : Pd.reader)
        (to_csv : Pd.DataFrame -> string) (homepage dashboard : action unit)
        (s : session) :
  main lenient to_csv homepage dashboard s
  = (if String.eqb (selection s) "Homepage" then homepage
     else if String.eqb (selection s) "Dashboard" then dashboard
     else if String.eqb (selection s) "Analysis"
          then show (Title "To be constructed")
     else if String.eqb (selection s) "Resources"
          then resources lenient to_csv
     else done tt) (showing page_top s).
Proof.
  apply main_dispatch.
Qed.

(** X15.  On the page Resources, when both functions return a table, the
    run ends normally.  The page then holds, in this order, the heading
    and the address of the IPO page, the IPO table and a download button
    with its CSV text under the name ipo.csv, and the same four for the
    dividends under the name dividend.csv.  One request went to each
    site, the IPO site first, and nothing was printed. *)
Theorem X15_resources_shows_both_tables
        (lenient : Pd.reader)
        (to_csv : Pd.DataFrame -> string) (homepage dashboard : action unit)
        (s : session) (ipo_df dividend_df : Pd.DataFrame) :
  clicked s = Some "Resources" ->
  fst (get_ipo lenient (ipo_world s)) = Ok (Some ipo_df) ->
  fst (get_dividend (dividend_world s)) = Ok (Some dividend_df) ->
  main lenient to_csv homepage dashboard s
  = (Ok tt,
     mksession (tl (ipo_site s)) (tl (dividend_site s))
               (requests s ++ [ipo_request; dividend_request])
               (console s) (clicked s)
               (screen s ++ page_top
                  ++ ipo_heading
                  ++ [Dataframe (Some ipo_df);
                      download (to_csv ipo_df) "ipo.csv"]
                  ++ dividend_heading
                  ++ [Dataframe (Some dividend_df);
                      download (to_csv dividend_df) "dividend.csv"])).
Proof.
  intros Hc Hi Hd.
  rewrite (main_resources _ _ _ _ _ Hc), resources_ipo_part.
  change (ipo_world (showing page_top s)) with (ipo_world s).
  rewrite (get_ipo_table _ _ _ Hi). cbv zeta.
  rewrite resources_dividend_part.
  unfold dividend_world in Hd |- *. unfold requested, showing, ipo_world.
  cbn [ipo_site dividend_site requests console clicked screen
       pending sent stdout].
  erewrite get_dividend_table
    by (erewrite get_dividend_result; exact Hd).
  unfold requested, ipo_request, dividend_request.
  cbn [pending sent stdout]. rewrite <- !app_assoc. reflexivity.
Qed.

Lemma X15_resources_shows_both_tables_witness :
  exists ipo_df dividend_df,
    fst (get_ipo page_dates
           (answering (mkresponse 200 (ipo_page ipo_header [acme_row]))))
    = Ok (Some ipo_df)
    /\ fst (get_dividend (answering (mkresponse 200 abc_page)))
       = Ok (Some dividend_df)
    /\ main page_dates row_count_csv idle idle
            (visiting "Resources"
                      [mkresponse 200 (ipo_page ipo_header [acme_row])]
                      [mkresponse 200 abc_page])
       = (Ok tt,
          mksession [] [] [ipo_request; dividend_request] EmptyString
                    (Some "Resources")
                    [PageConfig "wide"; main_menu;
                     Title "IPO"; Write ipo_url;
                     Dataframe (Some ipo_df); download "1 rows" "ipo.csv";
                     Title "Dividend"; Write dividend_url;
                     Dataframe (Some dividend_df);
                     download "1 rows" "dividend.csv"]).
Proof.
  eexists. eexists.
  split; [vm_compute; reflexivity|]. split; [vm_compute; reflexivity|].
  refine (eq_trans
            (X15_resources_shows_both_tables
               page_dates row_count_csv idle idle
               (visiting "Resources"
                         [mkresponse 200 (ipo_page ipo_header [acme_row])]
                         [mkresponse 200 abc_page])
               _ _ eq_refl _ _) _);
    vm_compute; reflexivity.
Defined.

(** The cases of a statement on results, each closed by the shape of
    the results. *)
Ltac settle :=
  cbn [fst]; repeat split; intros;
  repeat match goal with
         | H : _ /\ _ |- _ => destruct H
         | H : exists _, _ |- _ => destruct H
         end;
  try discriminate; try congruence; try (eexists; reflexivity).

(** X16.  On the page Resources the run ends normally exactly when both
    functions return a table.  The script handles no exception: one that
    [get_ipo] raises, or that [get_dividend] raises after [get_ipo] has
    returned a table, ends the run of [main]. *)
Theorem X16_resources_needs_both_tables
        (lenient : Pd.reader)
        (to_csv : Pd.DataFrame -> string) (homepage dashboard : action unit)
        (s : session) :
  clicked s = Some "Resources" ->
  (fst (main lenient to_csv homepage dashboard s) = Ok tt
   <-> (exists ipo_df, fst (get_ipo lenient (ipo_world s)) = Ok (Some ipo_df))
       /\ (exists dividend_df,
             fst (get_dividend (dividend_world s)) = Ok (Some dividend_df)))
  /\ (forall e,
        fst (get_ipo lenient (ipo_world s)) = Raise e ->
        fst (main lenient to_csv homepage dashboard s) = Raise e)
  /\ (forall ipo_df e,
        fst (get_ipo lenient (ipo_world s)) = Ok (Some ipo_df) ->
        fst (get_dividend (dividend_world s)) = Raise e ->
        fst (main lenient to_csv homepage dashboard s) = Raise e).
Proof.
  intros Hc.
  rewrite (main_resources _ _ _ _ _ Hc), resources_ipo_part.
  change (ipo_world (showing page_top s)) with (ipo_world s).
  destruct (get_ipo lenient (ipo_world s)) as [ri wi] eqn:Gi. cbn [fst].
  cbv zeta.
  destruct ri as [[ipo_df|]| e |].
  - rewrite resources_dividend_part.
    match goal with
    | |- context [get_dividend ?w] =>
        replace (fst (get_dividend (dividend_world s)))
          with (fst (get_dividend w))
          by (unfold dividend_world; apply get_dividend_result);
        destruct (get_dividend w) as [rd wd]
    end.
    cbn [fst]. cbv zeta.
    destruct rd as [[dividend_df|]| e |]; cbn [fst]; settle.
  - settle.
  - settle.
  - settle.
Qed.

Lemma X16_resources_needs_both_tables_witness :
  fst (get_ipo page_dates
         (answering (mkresponse 200 tableless_page)))
  = Raise (AttributeError "'NoneType' object has no attribute 'find_all'")
  /\ fst (main page_dates row_count_csv idle idle
               (visiting "Resources" [mkresponse 200 tableless_page]
                         [mkresponse 200 abc_page]))
     = Raise (AttributeError "'NoneType' object has no attribute 'find_all'").
Proof.
  split; [vm_compute; reflexivity|].
  apply (proj1 (proj2 (X16_resources_needs_both_tables
                         page_dates row_count_csv idle idle
                         (visiting "Resources"
                                   [mkresponse 200 tableless_page]
                                   [mkresponse 200 abc_page])
                         eq_refl))).
  vm_compute. reflexivity.
Defined.

(** X17.  On the page Resources a status other than 200 from the IPO
    site ends the run with AttributeError, since [main] calls [to_csv] on
    the [None] that [get_ipo] returned.  By then the page holds the
    heading, the address and an empty table, the console holds the line
    with the status code, and the dividend site has not been asked: it
    has all its responses and no request. *)
Theorem X17_ipo_refusal_ends_the_page
        (lenient : Pd.reader)
        (to_csv : Pd.DataFrame -> string) (homepage dashboard : action unit)
        (s : session) (r : response Soup.node)
        (rest : list (response Soup.node)) :
  clicked s = Some "Resources" ->
  ipo_site s = r :: rest -> status_code r <> 200 ->
  main lenient to_csv homepage dashboard s
  = (Raise (AttributeError "'NoneType' object has no attribute 'to_csv'"),
     mksession rest (dividend_site s) (requests s ++ [ipo_request])
               (console s ^^ "Failed to access the website. Status code: "
                ^^ Py.str_of_nat (status_code r) ^^ Py.nl)
               (clicked s)
               (screen s ++ page_top ++ ipo_heading ++ [Dataframe None])).
Proof.
  intros Hc Hp Hs.
  rewrite (main_resources _ _ _ _ _ Hc), resources_ipo_part.
  change (ipo_world (showing page_top s)) with (ipo_world s).
  destruct (get_ipo_cases lenient (ipo_world s))
    as [[P _]|[(r'&rest'&P&_&E)|(r'&rest'&P&S&_)]];
    cbn [ipo_world pending] in P; rewrite Hp in P; try discriminate;
    injection P as <- <-; [|contradiction].
  rewrite E. cbv zeta.
  unfold showing, print, requested, ipo_world, ipo_request.
  cbn [ipo_site dividend_site requests console clicked screen
       pending sent stdout sep_by_blank tl].
  rewrite Hp. cbn [tl]. rewrite <- !app_assoc. reflexivity.
Qed.

Lemma X17_ipo_refusal_witness :
  main page_dates row_count_csv idle idle
       (visiting "Resources" [mkresponse 503 tableless_page]
                 [mkresponse 200 abc_page])
  = (Raise (AttributeError "'NoneType' object has no attribute 'to_csv'"),
     mksession [] [mkresponse 200 abc_page] [ipo_request]
               ("Failed to access the website. Status code: 503" ^^ Py.nl)
               (Some "Resources")
               [PageConfig "wide"; main_menu; Title "IPO"; Write ipo_url;
                Dataframe None]).
Proof.
  refine (eq_trans
            (X17_ipo_refusal_ends_the_page
               page_dates row_count_csv idle idle
               (visiting "Resources" [mkresponse 503 tableless_page]
                         [mkresponse 200 abc_page])
               (mkresponse 503 tableless_page) [] eq_refl eq_refl _) _).
  - cbn. discriminate.
  - vm_compute. reflexivity.
Defined.

(** X18.  On the page Resources, when [get_ipo] has returned a table and
    [get_dividend] returns [None], the run ends with AttributeError
    after the whole IPO part, its download button included, and the
    heading, the address and an empty table of the dividend part are on
    the page.  Both sites have been asked once. *)
Theorem X18_dividend_refusal_ends_the_page
        (lenient : Pd.reader)
        (to_csv : Pd.DataFrame -> string) (homepage dashboard : action unit)
        (s : session) (ipo_df : Pd.DataFrame) :
  clicked s = Some "Resources" ->
  fst (get_ipo lenient (ipo_world s)) = Ok (Some ipo_df) ->
  fst (get_dividend (dividend_world s)) = Ok None ->
  fst (main lenient to_csv homepage dashboard s)
  = Raise (AttributeError "'NoneType' object has no attribute 'to_csv'")
  /\ screen (snd (main lenient to_csv homepage dashboard s))
     = screen s ++ page_top ++ ipo_heading
         ++ [Dataframe (Some ipo_df); download (to_csv ipo_df) "ipo.csv"]
         ++ dividend_heading ++ [Dataframe None]
  /\ requests (snd (main lenient to_csv homepage dashboard s))
     = requests s ++ [ipo_request; dividend_request].
Proof.
  intros Hc Hi Hd.
  rewrite (main_resources _ _ _ _ _ Hc), resources_ipo_part.
  change (ipo_world (showing page_top s)) with (ipo_world s).
  rewrite (get_ipo_table _ _ _ Hi). cbv zeta.
  rewrite resources_dividend_part.
  match goal with
  | |- context [get_dividend ?w] =>
      assert (Hd' : fst (get_dividend w) = Ok None)
        by (rewrite <- Hd; unfold dividend_world; apply get_dividend_result);
      assert (Hs : sent (snd (get_dividend w))
                   = sent w ++ [dividend_request])
        by (apply get_dividend_sent);
      destruct (get_dividend w) as [rd wd]
  end.
  cbn [fst snd] in Hd', Hs. subst rd. cbv zeta. cbn [fst snd].
  split; [reflexivity|].
  unfold showing. cbn [screen requests]. rewrite Hs.
  unfold requested, ipo_world, dividend_world, showing, ipo_request.
  cbn [ipo_site dividend_site requests console clicked screen
       pending sent stdout].
  rewrite <- !app_assoc. split; reflexivity.
Qed.

Lemma X18_dividend_refusal_witness :
  let s := visiting "Resources"
                    [mkresponse 200 (ipo_page ipo_header [acme_row])]
                    [mkresponse 200 "<html>maintenance</html>"] in
  exists ipo_df,
    fst (get_ipo page_dates (ipo_world s)) = Ok (Some ipo_df)
    /\ fst (get_dividend (dividend_world s)) = Ok None
    /\ fst (main page_dates row_count_csv idle idle s)
       = Raise (AttributeError "'NoneType' object has no attribute 'to_csv'")
    /\ screen (snd (main page_dates row_count_csv idle idle s))
       = [PageConfig "wide"; main_menu; Title "IPO"; Write ipo_url;
          Dataframe (Some ipo_df);
          download (row_count_csv ipo_df) "ipo.csv";
          Title "Dividend"; Write dividend_url; Dataframe None]
    /\ requests (snd (main page_dates row_count_csv idle idle s))
       = [ipo_request; dividend_request].
Proof.
  intros s.
  destruct (fst (get_ipo page_dates (ipo_world s))) as [[df|]| |] eqn:Hi;
    try (exfalso; vm_compute in Hi; discriminate).
  exists df. split; [reflexivity|]. split; [reflexivity|].
  exact (X18_dividend_refusal_ends_the_page
           page_dates row_count_csv idle idle s df eq_refl Hi eq_refl).
Defined.

(** X19.  A run of [main] with Analysis selected, or with an option that
    is none of the four, ends normally without asking either site and
    without printing: the sites keep their responses, no request is
    added, and the page gains the configuration and the menu, and for
    Analysis the one title. *)
Theorem X19_other_pages_ask_no_site
        (lenient : Pd.reader)
        (to_csv : Pd.DataFrame -> string) (homepage dashboard : action unit)
        (s : session) :
  selection s <> "Homepage" -> selection s <> "Dashboard" ->
  selection s <> "Resources" ->
  main lenient to_csv homepage dashboard s
  = (Ok tt,
     showing (page_top
                ++ if String.eqb (selection s) "Analysis"
                   then [Title "To be constructed"] else []) s).
Proof.
  intros H D R. rewrite main_dispatch.
  apply String.eqb_neq in H, D, R. rewrite H, D, R.
  destruct (String.eqb (selection s) "Analysis").
  - unfold show. now rewrite <- showing_app.
  - unfold done. now rewrite app_nil_r.
Qed.

Lemma X19_other_pages_witness :
  main page_dates row_count_csv idle idle
       (visiting "Analysis"
                 [mkresponse 200 (ipo_page ipo_header [acme_row])]
                 [mkresponse 200 abc_page])
  = (Ok tt,
     mksession [mkresponse 200 (ipo_page ipo_header [acme_row])]
               [mkresponse 200 abc_page] [] EmptyString (Some "Analysis")
               [PageConfig "wide"; main_menu; Title "To be constructed"]).
Proof.
  apply (X19_other_pages_ask_no_site
           page_dates row_count_csv idle idle
           (visiting "Analysis"
                     [mkresponse 200 (ipo_page ipo_header [acme_row])]
                     [mkresponse 200 abc_page]));
    cbn; discriminate.
Defined.
